(** * Mock EDI 834 generator: a shallow embedding and its verified properties

    The development follows [generators/mock_834_generator_nolibs.py] (the
    command-line generator) and [single_exe/mock_834_onefile_app.py] (the
    single-file application).  Both files contain the same worksheet reader
    and the same segment assembler; they differ in one import: only the
    single-file application imports [timedelta], which the date normalizer
    [yyyymmdd] uses for spreadsheet serial dates.

    Modelling conventions.
    - Python [str] is modelled by [string]: a text is a sequence of code
      points below 256 (the first Unicode block and its supplement), one per
      character.  On these code points [isspace] is [str.isspace] (it
      includes U+0085 and U+00A0), [is_pydigit] is the character test of
      [str.isdigit] (it includes the superscripts U+00B2, U+00B3, U+00B9),
      and [is_digit] is the class [\d] of the regular expressions and the
      digits [int] reads (0 to 9 only).  [lower] is [str.lower]; [upper] is
      [str.upper] except on U+00B5, U+00DF and U+00FF, whose capitals lie
      beyond these code points (the programs compare a case-mapped text only
      with constants that hold none of them, and write out the upper-cased
      File_Type setting).  Code points from 256 on are outside the model.
    - A [dict] is a [gmap]; [d.get(k)] is the lookup [d !! k].
    - Exceptions are values of [exn]; a fallible computation returns a
      [result].
    - The assembler appends to the list [edi]; it is written in a small state
      and exception monad [Asm] whose state is that list.
    - The zip archive and the XML parser are outside the model: the reader
      starts from the parsed parts (shared strings, sheet declarations,
      relationships and the [c] elements of every worksheet part).
    - The wall clock is an explicit input ([Clock]). *)

From Stdlib Require Import ZArith Ascii Lia DecimalString DecimalNat.
From stdpp Require Import gmap strings list fin_maps.

Local Open Scope Z_scope.

(** ** Exceptions and results *)

Inductive exn : Type :=
  | ValueError (msg : string)
  | KeyError (msg : string)
  | StopIteration.

Inductive result (A : Type) : Type :=
  | Ok (a : A)
  | Raise (e : exn).
Arguments Ok {A} a.
Arguments Raise {A} e.

Definition is_ok {A} (r : result A) : bool :=
  match r with Ok _ => true | Raise _ => false end.

#[global] Instance result_ret : MRet result := fun _ a => Ok a.
#[global] Instance result_bind : MBind result := fun _ _ f r =>
  match r with Ok a => f a | Raise e => Raise e end.

(** ** Python string primitives *)

Definition code (c : ascii) : Z := Z.of_N (N_of_ascii c).

(** [str.isspace] on one character: TAB..CR, FS..US, the blank, the next
    line control U+0085 and the no-break space U+00A0. *)
Definition isspace (c : ascii) : bool :=
  ((9 <=? code c) && (code c <=? 13)) || ((28 <=? code c) && (code c <=? 32))
  || (code c =? 133) || (code c =? 160).

(** The digits 0 to 9: the class [\d] and the digits read by [int]. *)
Definition is_digit (c : ascii) : bool := (48 <=? code c) && (code c <=? 57).

(** [str.isdigit] on one character: the digits 0 to 9 and the superscript
    digits U+00B2, U+00B3 and U+00B9. *)
Definition is_pydigit (c : ascii) : bool :=
  is_digit c || (code c =? 178) || (code c =? 179) || (code c =? 185).

Definition is_alpha (c : ascii) : bool :=
  ((65 <=? code c) && (code c <=? 90)) || ((97 <=? code c) && (code c <=? 122)).

(** [str.upper] on one character: the letters a to z and the letters
    U+00E0 to U+00FE (the division sign U+00F7 apart) move down by 32.  The
    three letters whose capital lies beyond the code points below 256
    (U+00B5, U+00DF, U+00FF) are left as they are. *)
Definition upper_char (c : ascii) : ascii :=
  if ((97 <=? code c) && (code c <=? 122))
     || ((224 <=? code c) && (code c <=? 254) && negb (code c =? 247))
  then ascii_of_N (Z.to_N (code c - 32)) else c.

(** [str.lower] on one character: the letters A to Z and the letters
    U+00C0 to U+00DE (the multiplication sign U+00D7 apart) move up by
    32. *)
Definition lower_char (c : ascii) : ascii :=
  if ((65 <=? code c) && (code c <=? 90))
     || ((192 <=? code c) && (code c <=? 222) && negb (code c =? 215))
  then ascii_of_N (Z.to_N (code c + 32)) else c.

Fixpoint str_map (f : ascii → ascii) (s : string) : string :=
  match s with
  | EmptyString => EmptyString
  | String c s' => String (f c) (str_map f s')
  end.

Definition upper : string → string := str_map upper_char.
Definition lower : string → string := str_map lower_char.

Fixpoint str_all (p : ascii → bool) (s : string) : bool :=
  match s with
  | EmptyString => true
  | String c s' => p c && str_all p s'
  end.

Definition len (s : string) : Z := Z.of_nat (String.length s).

(** Python truthiness of a string. *)
Definition truthy (s : string) : bool :=
  match s with EmptyString => false | String _ _ => true end.

(** [a or b] on strings. *)
Definition str_or (a b : string) : string := if truthy a then a else b.

(** [s.isdigit()]: non-empty and made of characters [str.isdigit]
    accepts. *)
Definition isdigit (s : string) : bool := truthy s && str_all is_pydigit s.

Fixpoint lstrip (s : string) : string :=
  match s with
  | EmptyString => EmptyString
  | String c s' => if isspace c then lstrip s' else s
  end.

Fixpoint rstrip (s : string) : string :=
  match s with
  | EmptyString => EmptyString
  | String c s' =>
      match rstrip s' with
      | EmptyString => if isspace c then EmptyString else String c EmptyString
      | r => String c r
      end
  end.

(** [s.strip()] *)
Definition strip (s : string) : string := rstrip (lstrip s).

(** [_strip(s)]: [None] becomes the empty string. *)
Definition _strip (s : option string) : string :=
  match s with None => "" | Some v => strip v end.

Fixpoint startswith (p s : string) : bool :=
  match p, s with
  | EmptyString, _ => true
  | String a p', String b s' => if decide (a = b) then startswith p' s' else false
  | String _ _, EmptyString => false
  end.

(** [sep.join(l)] *)
Fixpoint join (sep : string) (l : list string) : string :=
  match l with
  | [] => ""
  | [x] => x
  | x :: l' => x +:+ sep +:+ join sep l'
  end.

Fixpoint repeat_char (c : ascii) (n : nat) : string :=
  match n with O => "" | S n' => String c (repeat_char c n') end.

Fixpoint take_str (n : nat) (s : string) : string :=
  match n, s with
  | S n', String c s' => String c (take_str n' s')
  | _, _ => ""
  end.

(** [s.ljust(w)] pads with blanks on the right. *)
Definition ljust (w : nat) (s : string) : string :=
  s +:+ repeat_char " " (w - String.length s).

(** [s.zfill(w)] pads with zeros on the left, after a leading sign. *)
Definition zfill (w : nat) (s : string) : string :=
  let pad := repeat_char "0" (w - String.length s) in
  match s with
  | String c s' =>
      if decide (c = "+"%char ∨ c = "-"%char) then String c (pad +:+ s') else pad +:+ s
  | EmptyString => pad
  end.

(** ** Decimal numerals *)

Definition digit_val (c : ascii) : Z := code c - 48.

(** Value of a string of decimal digits, most significant first. *)
Fixpoint digits_val_acc (acc : Z) (s : string) : Z :=
  match s with
  | EmptyString => acc
  | String c s' => digits_val_acc (10 * acc + digit_val c) s'
  end.

Definition digits_val (s : string) : Z := digits_val_acc 0 s.

(** [str(n)] for a natural number. *)
Definition str_nat (n : nat) : string :=
  NilEmpty.string_of_uint (Nat.to_uint n).

(** [str(z)] for an integer. *)
Definition str_Z (z : Z) : string :=
  if z <? 0 then "-" +:+ str_nat (Z.to_nat (- z)) else str_nat (Z.to_nat z).

(** [f"{n:02d}"] and [f"{n:04d}"] for a non-negative [n]. *)
Definition fmt_0d (w : nat) (n : Z) : string := zfill w (str_Z n).

(** ** The segment encoder *)

Definition SEG_TERM : string := "~".
Definition ELEM_SEP : string := "*".

(** [seg]: the elements joined by the separator, then the terminator; an
    absent element renders as the empty string. *)
Definition seg (elements : list (option string)) : string :=
  join ELEM_SEP (map (λ e, match e with Some v => v | None => "" end) elements)
  +:+ SEG_TERM.

(** Most call sites pass plain strings. *)
Definition segs (elements : list string) : string := seg (Some <$> elements).

(** ** Regular expressions of the date normalizer

    Each pattern is anchored at both ends and is deterministic, so it is
    written as a direct recogniser returning the captured groups. *)

(** Longest prefix made of characters satisfying [p], and the rest. *)
Fixpoint span (p : ascii → bool) (s : string) : string * string :=
  match s with
  | EmptyString => ("", "")
  | String c s' =>
      if p c then let '(a, b) := span p s' in (String c a, b) else ("", s)
  end.

(** The anchor [$]: the end of the string, or just before a final newline. *)
Definition at_end (s : string) : bool :=
  match s with
  | EmptyString => true
  | String c EmptyString => if decide (c = "010"%char) then true else false
  | _ => false
  end.

(** [re.match(r"^(\d{4})-(\d{2})-(\d{2})$", s)] *)
Definition match_iso (s : string) : option (string * string * string) :=
  let '(y, r1) := span is_digit s in
  match r1 with
  | String "-" r2 =>
      let '(m, r3) := span is_digit r2 in
      match r3 with
      | String "-" r4 =>
          let '(d, r5) := span is_digit r4 in
          if (len y =? 4) && (len m =? 2) && (len d =? 2) && at_end r5
          then Some (y, m, d) else None
      | _ => None
      end
  | _ => None
  end.

(** [re.match(r"^\d+(\.\d+)?$", s)]: the integer part and the optional
    fractional part. *)
Definition match_numeric (s : string) : option (string * option string) :=
  let '(i, r1) := span is_digit s in
  if negb (truthy i) then None
  else if at_end r1 then Some (i, None)
  else match r1 with
       | String "." r2 =>
           let '(f, r3) := span is_digit r2 in
           if truthy f && at_end r3 then Some (i, Some f) else None
       | _ => None
       end.

(** [re.match(r"^(\d{1,2})/(\d{1,2})/(\d{4})$", s)] *)
Definition match_mdy (s : string) : option (string * string * string) :=
  let '(mm, r1) := span is_digit s in
  match r1 with
  | String "/" r2 =>
      let '(dd, r3) := span is_digit r2 in
      match r3 with
      | String "/" r4 =>
          let '(yy, r5) := span is_digit r4 in
          if (1 <=? len mm) && (len mm <=? 2) && (1 <=? len dd) && (len dd <=? 2)
             && (len yy =? 4) && at_end r5
          then Some (mm, dd, yy) else None
      | _ => None
      end
  | _ => None
  end.

(** ** Python's proleptic Gregorian calendar ([datetime])

    [ord2ymd] is the library's conversion of a day ordinal (day 1 is
    0001-01-01) to year, month and day. *)

Definition is_leap (y : Z) : bool :=
  (y mod 4 =? 0) && (negb (y mod 100 =? 0) || (y mod 400 =? 0)).

Definition days_before_year (y : Z) : Z :=
  let p := y - 1 in p * 365 + p / 4 - p / 100 + p / 400.

Definition days_in_month (y m : Z) : Z :=
  if m =? 2 then (if is_leap y then 29 else 28)
  else if (m =? 4) || (m =? 6) || (m =? 9) || (m =? 11) then 30 else 31.

Fixpoint days_before_month_aux (y : Z) (k : nat) : Z :=
  match k with
  | O => 0
  | S k' => days_before_month_aux y k' + days_in_month y (Z.of_nat k)
  end.

(** Days of year [y] before the first day of month [m]. *)
Definition days_before_month (y m : Z) : Z :=
  days_before_month_aux y (Z.to_nat (m - 1)).

Definition ymd2ord (y m d : Z) : Z :=
  days_before_year y + days_before_month y m + d.

Definition ord2ymd (ordinal : Z) : Z * Z * Z :=
  let n := ordinal - 1 in
  let n400 := n / 146097 in
  let n := n mod 146097 in
  let n100 := n / 36524 in
  let n := n mod 36524 in
  let n4 := n / 1461 in
  let n := n mod 1461 in
  let n1 := n / 365 in
  let n := n mod 365 in
  let year := n400 * 400 + 1 + n100 * 100 + n4 * 4 + n1 in
  if (n1 =? 4) || (n100 =? 4) then (year - 1, 12, 31)
  else
    let month := Z.shiftr (n + 50) 5 in
    let preceding := days_before_month year month in
    if preceding >? n
    then (year, month - 1, n - (preceding - days_in_month year (month - 1)) + 1)
    else (year, month, n - preceding + 1).

(** [datetime.max.toordinal()] and the largest [timedelta] day count. *)
Definition MAXORDINAL : Z := 3652059.
Definition MAX_DELTA_DAYS : Z := 999999999.

(** [dt.strftime("%Y%m%d")] for a year of at most four digits. *)
Definition strftime_Ymd (ymd : Z * Z * Z) : string :=
  let '(y, m, d) := ymd in fmt_0d 4 y +:+ fmt_0d 2 m +:+ fmt_0d 2 d.

(** ** The date normalizer [yyyymmdd] *)

Definition bad_date_msg (s : string) : string :=
  "Bad date '" +:+ s +:+ "' (expected YYYYMMDD or YYYY-MM-DD)".

Section Normalizer.
(** The body of the [try] block of the numeric branch, applied to the
    groups of the numeric pattern: [Some] of the returned text, or [None]
    when an exception is raised (and swallowed by [except Exception]). *)
Variable try_serial : string → option string → option string.

Definition yyyymmdd_body (val : string) : result string :=
  let s := _strip (Some val) in
  if negb (truthy s) then Ok ""
  else if (len s =? 8) && isdigit s then Ok s
  else
    match match_iso s with
    | Some (y, m, d) => Ok (y +:+ m +:+ d)
    | None =>
        match match_numeric s ≫= (λ '(i, f), try_serial i f) with
        | Some r => Ok r
        | None =>
            match match_mdy s with
            | Some (mm, dd, yy) =>
                Ok (yy +:+ fmt_0d 2 (digits_val mm) +:+ fmt_0d 2 (digits_val dd))
            | None => Raise (ValueError (bad_date_msg s))
            end
        end
    end.
End Normalizer.

(** ** The worksheet reader ([read_xlsx_tables])

    Rows and columns are 1-based naturals; an unparsable cell reference
    lands on [(0, 0)]. *)

Abbreviation Row := (gmap string string).
Abbreviation Grid := (gmap (nat * nat) string).
Abbreviation Tables := (gmap string (list (gmap string string))).

(** A [c] element of a worksheet part: the attributes [r] and [t], and the
    text of its [v] child ([None] when the child or its text is absent). *)
Record CellElem : Type := {
  attr_r : option string;
  attr_t : option string;
  v_text : option string
}.

(** The parsed parts of the package. *)
Record Package : Type := {
  shared_strings : list string;        (* one entry per [si] element *)
  sheets : list (string * string);     (* declared sheets: name and r:id *)
  rid_to_target : gmap string string;  (* the workbook relationships *)
  parts : gmap string (list CellElem)  (* archive path to its [c] elements *)
}.

Definition _col_letters_to_index (col : string) : nat :=
  let fix go (n : Z) (s : string) : Z :=
    match s with
    | EmptyString => n
    | String ch s' => go (n * 26 + (code ch - 65 + 1)) s'
    end in
  Z.to_nat (go 0 (upper col)).

(** [re.match(r"^([A-Za-z]+)(\d+)$", ref)] *)
Definition match_cell_ref (ref : string) : option (string * string) :=
  let '(letters, r1) := span is_alpha ref in
  let '(digits, r2) := span is_digit r1 in
  if truthy letters && truthy digits && at_end r2 then Some (letters, digits) else None.

Definition _cell_ref_to_rc (ref : string) : nat * nat :=
  match match_cell_ref ref with
  | None => (0%nat, 0%nat)
  | Some (letters, digits) =>
      (Z.to_nat (digits_val digits), _col_letters_to_index letters)
  end.

(** Digits with single underscores between them, as [int] accepts. *)
Fixpoint int_body (acc : Z) (after_digit : bool) (s : string) : option Z :=
  match s with
  | EmptyString => if after_digit then Some acc else None
  | String c s' =>
      if is_digit c then int_body (10 * acc + digit_val c) true s'
      else if decide (c = "_"%char) then
        (if after_digit then
           match s' with
           | String d _ => if is_digit d then int_body acc false s' else None
           | EmptyString => None
           end
         else None)
      else None
  end.

(** The whitespace [int] skips at both ends of its argument: TAB..CR, the
    blank, U+0085 and U+00A0 (the separators FS..US, which [str.strip]
    removes, make [int] fail). *)
Definition is_int_space (c : ascii) : bool :=
  ((9 <=? code c) && (code c <=? 13)) || (code c =? 32)
  || (code c =? 133) || (code c =? 160).

Fixpoint lstrip_by (p : ascii → bool) (s : string) : string :=
  match s with
  | EmptyString => EmptyString
  | String c s' => if p c then lstrip_by p s' else s
  end.

Fixpoint rstrip_by (p : ascii → bool) (s : string) : string :=
  match s with
  | EmptyString => EmptyString
  | String c s' =>
      match rstrip_by p s' with
      | EmptyString => if p c then EmptyString else String c EmptyString
      | r => String c r
      end
  end.

(** [int(raw)]: [None] stands for the [ValueError]. *)
Definition py_int (raw : string) : option Z :=
  match rstrip_by is_int_space (lstrip_by is_int_space raw) with
  | String "-" s => Z.opp <$> int_body 0 false s
  | String "+" s => int_body 0 false s
  | s => int_body 0 false s
  end.

(** [l[i]] with Python's negative indices: [None] stands for [IndexError]. *)
Definition py_index {A} (l : list A) (i : Z) : option A :=
  if 0 <=? i then l !! Z.to_nat i
  else if 0 <=? Z.of_nat (length l) + i then l !! Z.to_nat (Z.of_nat (length l) + i)
  else None.

(** The value recorded for one cell. *)
Definition cell_value (shared : list string) (c : CellElem) : string :=
  match v_text c with
  | None => ""
  | Some raw =>
      if decide (default "" (attr_t c) = "s") then
        match py_int raw ≫= py_index shared with
        | Some value => value
        | None => raw                      (* except Exception: value = raw *)
        end
      else raw
  end.

(** The coordinates of a [c] element. *)
Definition cell_rc (c : CellElem) : nat * nat :=
  _cell_ref_to_rc (default "" (attr_r c)).

(** The loop of [parse_sheet] over the [c] elements. *)
Definition parse_cells (shared : list string) (elems : list CellElem) : Grid :=
  foldl (λ (cells : Grid) c,
           <[cell_rc c := cell_value shared c]> cells)
        ∅ elems.

Fixpoint lstrip_char (ch : ascii) (s : string) : string :=
  match s with
  | EmptyString => EmptyString
  | String c s' => if decide (c = ch) then lstrip_char ch s' else s
  end.

Definition parse_sheet (pkg : Package) (sheet_target : string) : result Grid :=
  let path := "xl/" +:+ lstrip_char "/" sheet_target in
  match parts pkg !! path with
  | None => Raise (KeyError ("There is no item named '" +:+ path +:+ "' in the archive"))
  | Some elems => Ok (parse_cells (shared_strings pkg) elems)
  end.

Definition max_row (cells : Grid) : nat := max_list ((map_to_list cells).*1.*1).
Definition max_col (cells : Grid) : nat := max_list ((map_to_list cells).*1.*2).

(** [cells.get((r, c), "")] *)
Definition cell_at (cells : Grid) (r c : nat) : string := default "" (cells !! (r, c)).

(** The [Settings] sheet: labels in column 1, values in column 2. *)
Definition settings_kv (cells : Grid) : Row :=
  foldl (λ (kv : Row) r,
           let k := _strip (Some (cell_at cells r 1)) in
           let v := _strip (Some (cell_at cells r 2)) in
           if truthy k
              && negb (bool_decide (lower k ∈ ["field"; "mock 834 generator - settings"]))
           then <[k := v]> kv else kv)
        ∅ (seq 1 (max_row cells)).

(** Row 1 as headers. *)
Definition table_headers (cells : Grid) : list string :=
  foldl (λ headers c, headers ++ [_strip (Some (cell_at cells 1 c))])
        [] (seq 1 (max_col cells)).

(** The inner loop over the columns of data row [r]: the record and the
    flag [empty]. *)
Definition table_row (cells : Grid) (headers : list string) (r : nat) : Row * bool :=
  foldl (λ '(row, empty) c,
           let h := if bool_decide (c - 1 < length headers)%nat
                    then default "" (headers !! (c - 1)%nat) else "" in
           if negb (truthy h) then (row, empty)
           else
             let val := _strip (Some (cell_at cells r c)) in
             (<[h := val]> row, if bool_decide (val ≠ "") then false else empty))
        (∅, true) (seq 1 (max_col cells)).

(** The outer loop over the data rows 2..max_row. *)
Definition table_rows (cells : Grid) : list Row :=
  let headers := table_headers cells in
  foldl (λ table r,
           let '(row, empty) := table_row cells headers r in
           if negb empty then table ++ [row] else table)
        [] (seq 2 (max_row cells - 1)).

(** The projection of one worksheet grid. *)
Definition project_sheet (name : string) (cells : Grid) : list Row :=
  if bool_decide (cells = ∅) then []
  else if bool_decide (lower name = "settings") then [settings_kv cells]
  else table_rows cells.

Definition read_xlsx_tables (pkg : Package) : result Tables :=
  foldl (λ (acc : result Tables) '(name, rid),
           results ← acc;
           let target := default "" (rid_to_target pkg !! rid) in
           if negb (truthy target) || negb (startswith "worksheets/" target)
           then Ok results
           else
             cells ← parse_sheet pkg target;
             Ok (<[name := project_sheet name cells]> results))
        (Ok ∅) (sheets pkg).

(** ** The transaction assembler

    [Asm] threads the segment list [edi] and propagates exceptions. *)

Definition Asm (A : Type) : Type := list string → result (A * list string).

#[global] Instance asm_ret : MRet Asm := λ _ a edi, Ok (a, edi).
#[global] Instance asm_bind : MBind Asm := λ _ _ f c edi,
  match c edi with
  | Ok (a, edi') => f a edi'
  | Raise e => Raise e
  end.

(** [edi.append(s)] *)
Definition append (s : string) : Asm unit := λ edi, Ok (tt, edi ++ [s]).

(** [raise e] *)
Definition raise {A} (e : exn) : Asm A := λ _, Raise e.

(** A call to a fallible pure function. *)
Definition call {A} (r : result A) : Asm A := λ edi,
  match r with Ok a => Ok (a, edi) | Raise e => Raise e end.

(** [if b: c] *)
Definition when (b : bool) (c : Asm unit) : Asm unit := if b then c else mret tt.

(** [for x in l: body] *)
Fixpoint for_each {A} (l : list A) (body : A → Asm unit) : Asm unit :=
  match l with
  | [] => mret tt
  | x :: l' => body x;; for_each l' body
  end.

(** The segment list a computation leaves when started on an empty list. *)
Definition exec (c : Asm unit) : result (list string) :=
  match c [] with Ok (_, edi) => Ok edi | Raise e => Raise e end.

(** [next(i for i, s in enumerate(l) if p(s))] *)
Fixpoint index_where (p : string → bool) (l : list string) : option nat :=
  match l with
  | [] => None
  | x :: l' => if p x then Some 0%nat else S <$> index_where p l'
  end.

(** [o or d] for the result of a [dict.get]. *)
Definition opt_or (o : option string) (d : string) : string :=
  match o with Some v => if truthy v then v else d | None => d end.

(** [o or d] for a list returned by [dict.get]. *)
Definition opt_list_or {A} (o : option (list A)) (d : list A) : list A :=
  match o with Some (x :: l) => x :: l | _ => d end.

(** The wall clock: the formatted values of [datetime.now()]. *)
Record Clock : Type := {
  today_iso : string;   (* "%Y-%m-%d", the default as-of date *)
  isa_date : string;    (* "%y%m%d" *)
  isa_time : string;    (* "%H%M" *)
  gs_date : string;     (* "%Y%m%d" *)
  gs_time : string      (* "%H%M" *)
}.

(** [{"ADD":"001","CHG":"002","TERM":"024"}.get(action, "001")] *)
Definition maintenance_code (action : string) : string :=
  default "001"
    ((list_to_map [("ADD", "001"); ("CHG", "002"); ("TERM", "024")] : gmap string string)
       !! action).

(** [{"SPO":"01","CHD":"19"}.get(rel, "34")] *)
Definition relationship_code (rel : string) : string :=
  default "34"
    ((list_to_map [("SPO", "01"); ("CHD", "19")] : gmap string string) !! rel).

Definition plan_key_msg (plan_key : string) : string :=
  "Plan_Key '" +:+ plan_key +:+ "' not found in Plans sheet.".

(** The loop building [plan_map]: a later row with the same key wins. *)
Definition build_plan_map (plans : list Row) : gmap string (gmap string string) :=
  foldl (λ (plan_map : gmap string (gmap string string)) r,
           let key := _strip (r !! "Plan_Key") in
           if truthy key then <[key := r]> plan_map else plan_map)
        ∅ plans.

(** The loop building [deps_by_sub]. *)
Definition build_deps_by_sub (deps : list Row) : gmap string (list (gmap string string)) :=
  foldl (λ (deps_by_sub : gmap string (list (gmap string string))) d,
           let sid := _strip (d !! "Subscriber_ID") in
           if negb (truthy sid) then deps_by_sub
           else <[sid := default [] (deps_by_sub !! sid) ++ [d]]> deps_by_sub)
        ∅ deps.

(** ** Explicit form of the assembler's output

    The lemmas [dependent_block_run], [member_block_run] and [assemble_run]
    below show that the monadic code produces exactly these lists. *)

(** The segment appended by [if b: edi.append(s)]. *)
Definition opt_seg (b : bool) (s : string) : list string := if b then [s] else [].

(** The segments gathered from a list of independent blocks. *)
Fixpoint collect {A} (f : A → result (list string)) (l : list A) : result (list string) :=
  match l with
  | [] => Ok []
  | x :: l' => a ← f x; b ← collect f l'; Ok (a ++ b)
  end.

(** The benefit segments guarded by the plan lookup. *)
Definition plan_segments (plan_map : gmap string (gmap string string))
    (key tier start_ end_ : string) : result (list string) :=
  if truthy key then
    match plan_map !! key with
    | None => Raise (KeyError (plan_key_msg key))
    | Some pr =>
        Ok ([segs ["HD"; "030"; "";
                   str_or (_strip (pr !! "HD_Insurance_Line_Code"))
                          (_strip (pr !! "Benefit_Type_Code"));
                   str_or (_strip (pr !! "HD_Plan_Coverage_Desc")) key; tier]]
            ++ opt_seg (truthy start_) (segs ["DTP"; "348"; "D8"; start_])
            ++ opt_seg (truthy end_) (segs ["DTP"; "349"; "D8"; end_]))
    end
  else Ok [].

Definition tcn_of (settings : gmap string string) : string :=
  _strip (Some (default "1" (settings !! "Transaction_Control (ST02)"))).
Definition gcn_of (settings : gmap string string) : string :=
  _strip (Some (default "1" (settings !! "Group_Control (GS06)"))).
Definition icn_of (settings : gmap string string) : string :=
  zfill 9 (_strip (Some (default "1" (settings !! "Interchange_Control (ISA13)")))).

Definition st_segment (settings : gmap string string) : string :=
  segs ["ST"; "834"; tcn_of settings; "005010X220A1"].

Definition se_segment (settings : gmap string string) (count : Z) : string :=
  segs ["SE"; str_Z count; tcn_of settings].

Definition envelope_header (clock : Clock) (settings : gmap string string)
    (as_of : string) : list string :=
  let sender := _strip (Some (default "SENDERID" (settings !! "Sender_ID (ISA06)"))) in
  let receiver := _strip (Some (default "RECEIVERID" (settings !! "Receiver_ID (ISA08)"))) in
  [ segs ["ISA"; "00"; "          "; "00"; "          "; "ZZ";
          take_str 15 (ljust 15 sender); "ZZ"; take_str 15 (ljust 15 receiver);
          isa_date clock; isa_time clock; "^"; "00501"; icn_of settings; "0"; "P"; ">"];
    segs ["GS"; "BE"; sender; receiver; gs_date clock; gs_time clock; gcn_of settings;
          "X"; "005010X220A1"];
    st_segment settings;
    segs ["BGN"; "00"; tcn_of settings; gs_date clock; gs_time clock; ""; "";
          upper (_strip (Some (default "FULL" (settings !! "File_Type"))))];
    segs ["DTP"; "007"; "D8"; as_of];
    segs ["N1"; "P5"; _strip (Some (default "SPONSOR" (settings !! "Sponsor_Name (Employer)")));
          "FI"; _strip (Some (default "000000000" (settings !! "Sponsor_ID (Employer ID)")))];
    segs ["N1"; "IN"; _strip (Some (default "PAYER" (settings !! "Payer_Name (Carrier)")));
          "FI"; _strip (Some (default "999999" (settings !! "Payer_ID (Carrier ID)")))] ].

Definition envelope_trailer (settings : gmap string string) (count : Z) : list string :=
  [ se_segment settings count;
    segs ["GE"; "1"; gcn_of settings];
    segs ["IEA"; "1"; icn_of settings] ].

Section Assembler.
Variable yyyymmdd : string → result string.

(** Body of the loop over the dependents of one subscriber. *)
Definition dependent_block (plan_map : gmap string (gmap string string))
    (sub_id cov_start cov_end plan_key : string) (d : Row) : Asm unit :=
  let dep_id := _strip (d !! "Dep_ID") in
  let rel := _strip (d !! "Relationship") in
  let d_ssn := _strip (d !! "Dep_SSN") in
  let d_last := _strip (d !! "Dep_Last") in
  let d_first := _strip (d !! "Dep_First") in
  let d_mid := _strip (d !! "Dep_Middle") in
  d_dob ← call (yyyymmdd (_strip (d !! "Dep_DOB")));
  let d_gender := _strip (d !! "Dep_Gender") in
  let d_action := upper (_strip (Some (opt_or (d !! "Action") "ADD"))) in
  own_start ← call (yyyymmdd (_strip (d !! "Coverage_Start")));
  let d_start := str_or own_start cov_start in
  own_end ← call (yyyymmdd (_strip (d !! "Coverage_End")));
  let d_end := str_or own_end cov_end in
  let d_plan_key := str_or (_strip (d !! "Plan_Key")) plan_key in
  let d_mtc := maintenance_code d_action in
  let rel_code := relationship_code rel in
  append (segs ["INS"; "N"; rel_code; d_mtc; "XN"; "A"; "E"]);;
  (if isdigit d_ssn && (len d_ssn =? 9)
   then append (segs ["NM1"; "IL"; "1"; d_last; d_first; d_mid; ""; ""; "34"; d_ssn])
   else
     let comp := if truthy dep_id then sub_id +:+ "-" +:+ dep_id
                 else sub_id +:+ "-DEP" in
     append (segs ["NM1"; "IL"; "1"; d_last; d_first; d_mid; ""; ""; "ZZ"; comp]));;
  when (truthy d_dob || truthy d_gender)
    (append (segs ["DMG"; "D8"; d_dob; d_gender]));;
  when (truthy d_start) (append (segs ["DTP"; "356"; "D8"; d_start]));;
  when (truthy d_end) (append (segs ["DTP"; "357"; "D8"; d_end]));;
  when (truthy d_plan_key)
    (match plan_map !! d_plan_key with
     | None => raise (KeyError (plan_key_msg d_plan_key))
     | Some prd =>
         let line_d := str_or (_strip (prd !! "HD_Insurance_Line_Code"))
                              (_strip (prd !! "Benefit_Type_Code")) in
         let plan_desc_d := str_or (_strip (prd !! "HD_Plan_Coverage_Desc")) d_plan_key in
         append (segs ["HD"; "030"; ""; line_d; plan_desc_d; ""]);;
         when (truthy d_start) (append (segs ["DTP"; "348"; "D8"; d_start]));;
         when (truthy d_end) (append (segs ["DTP"; "349"; "D8"; d_end]))
     end).

(** Body of the loop over the member rows. *)
Definition member_block (plan_map : gmap string (gmap string string))
    (deps_by_sub : gmap string (list (gmap string string))) (m : Row) : Asm unit :=
  let sub_id := _strip (m !! "Subscriber_ID") in
  if negb (truthy sub_id) then mret tt      (* continue *)
  else
    let ssn := _strip (m !! "Subscriber_SSN") in
    let last := _strip (m !! "Sub_Last") in
    let first := _strip (m !! "Sub_First") in
    let middle := _strip (m !! "Sub_Middle") in
    dob ← call (yyyymmdd (_strip (m !! "Sub_DOB")));
    let gender := _strip (m !! "Sub_Gender") in
    let addr1 := _strip (m !! "Sub_Address1") in
    let city := _strip (m !! "Sub_City") in
    let state := _strip (m !! "Sub_State") in
    let zipc := _strip (m !! "Sub_Zip") in
    let emp_status := _strip (m !! "Employment_Status") in
    let action := upper (_strip (Some (opt_or (m !! "Action") "ADD"))) in
    cov_start ← call (yyyymmdd (_strip (m !! "Coverage_Start")));
    cov_end ← call (yyyymmdd (_strip (m !! "Coverage_End")));
    let plan_key := _strip (m !! "Plan_Key") in
    let tier := _strip (m !! "Coverage_Tier_Code") in
    let mtc := maintenance_code action in
    append (segs ["INS"; "Y"; "18"; mtc; "XN"; "A"; "E"; ""; ""; emp_status]);;
    (if isdigit ssn && (len ssn =? 9)
     then append (segs ["NM1"; "IL"; "1"; last; first; middle; ""; ""; "34"; ssn])
     else append (segs ["NM1"; "IL"; "1"; last; first; middle; ""; ""; "ZZ"; sub_id]));;
    when (truthy addr1) (append (segs ["N3"; addr1]));;
    when (truthy city || truthy state || truthy zipc)
      (append (segs ["N4"; city; state; zipc]));;
    when (truthy dob || truthy gender) (append (segs ["DMG"; "D8"; dob; gender]));;
    when (truthy cov_start) (append (segs ["DTP"; "356"; "D8"; cov_start]));;
    when (truthy cov_end) (append (segs ["DTP"; "357"; "D8"; cov_end]));;
    when (truthy plan_key)
      (match plan_map !! plan_key with
       | None => raise (KeyError (plan_key_msg plan_key))
       | Some pr =>
           let line := str_or (_strip (pr !! "HD_Insurance_Line_Code"))
                              (_strip (pr !! "Benefit_Type_Code")) in
           let plan_desc := str_or (_strip (pr !! "HD_Plan_Coverage_Desc")) plan_key in
           append (segs ["HD"; "030"; ""; line; plan_desc; tier]);;
           when (truthy cov_start) (append (segs ["DTP"; "348"; "D8"; cov_start]));;
           when (truthy cov_end) (append (segs ["DTP"; "349"; "D8"; cov_end]))
       end);;
    for_each (default [] (deps_by_sub !! sub_id))
      (dependent_block plan_map sub_id cov_start cov_end plan_key).

(** The trailer count and the replacement of the placeholder. *)
Definition patch_trailer (tcn : string) : Asm unit := λ edi,
  match index_where (startswith ("ST" +:+ ELEM_SEP)) edi with
  | None => Raise StopIteration
  | Some st_index =>
      match index_where (λ s, bool_decide (s = "SE_PLACEHOLDER")) edi with
      | None => Raise StopIteration
      | Some se_index =>
          let seg_count := (Z.of_nat se_index - Z.of_nat st_index) + 1 in
          Ok (tt, <[se_index := segs ["SE"; str_Z seg_count; tcn]]> edi)
      end
  end.

(** The assembler proper: everything after the tables are read. *)
Definition assemble (clock : Clock) (settings : Row)
    (plans members deps : list Row) : result (list string) :=
  let sender := _strip (Some (default "SENDERID" (settings !! "Sender_ID (ISA06)"))) in
  let receiver := _strip (Some (default "RECEIVERID" (settings !! "Receiver_ID (ISA08)"))) in
  let icn := zfill 9 (_strip (Some (default "1" (settings !! "Interchange_Control (ISA13)")))) in
  let gcn := _strip (Some (default "1" (settings !! "Group_Control (GS06)"))) in
  let tcn := _strip (Some (default "1" (settings !! "Transaction_Control (ST02)"))) in
  let sponsor_name := _strip (Some (default "SPONSOR" (settings !! "Sponsor_Name (Employer)"))) in
  let sponsor_id := _strip (Some (default "000000000" (settings !! "Sponsor_ID (Employer ID)"))) in
  let payer_name := _strip (Some (default "PAYER" (settings !! "Payer_Name (Carrier)"))) in
  let payer_id := _strip (Some (default "999999" (settings !! "Payer_ID (Carrier ID)"))) in
  let file_type := upper (_strip (Some (default "FULL" (settings !! "File_Type")))) in
  as_of ← yyyymmdd (_strip (Some (default (today_iso clock) (settings !! "As_Of_Date"))));
  let plan_map := build_plan_map plans in
  exec (
    append (segs ["ISA"; "00"; "          "; "00"; "          "; "ZZ";
                  take_str 15 (ljust 15 sender); "ZZ"; take_str 15 (ljust 15 receiver);
                  isa_date clock; isa_time clock; "^"; "00501"; icn; "0"; "P"; ">"]);;
    append (segs ["GS"; "BE"; sender; receiver; gs_date clock; gs_time clock; gcn;
                  "X"; "005010X220A1"]);;
    append (segs ["ST"; "834"; tcn; "005010X220A1"]);;
    append (segs ["BGN"; "00"; tcn; gs_date clock; gs_time clock; ""; ""; file_type]);;
    append (segs ["DTP"; "007"; "D8"; as_of]);;
    append (segs ["N1"; "P5"; sponsor_name; "FI"; sponsor_id]);;
    append (segs ["N1"; "IN"; payer_name; "FI"; payer_id]);;
    let deps_by_sub := build_deps_by_sub deps in
    for_each members (member_block plan_map deps_by_sub);;
    append "SE_PLACEHOLDER";;
    append (segs ["GE"; "1"; gcn]);;
    append (segs ["IEA"; "1"; icn]);;
    patch_trailer tcn).

(** From the tables returned by the reader to the segment list. *)
Definition generate (clock : Clock) (tables : Tables) : result (list string) :=
  let settings := default ∅ (head (opt_list_or (tables !! "Settings") [∅])) in
  let plans := opt_list_or (tables !! "Plans") [] in
  let members := opt_list_or (tables !! "Members") [] in
  let deps := opt_list_or (tables !! "Dependents") [] in
  assemble clock settings plans members deps.

(** The segments appended by [dependent_block]. *)
Definition dependent_nm1 (sub_id : string) (d : gmap string string) : string :=
  let d_ssn := _strip (d !! "Dep_SSN") in
  if isdigit d_ssn && (len d_ssn =? 9)
  then segs ["NM1"; "IL"; "1"; _strip (d !! "Dep_Last"); _strip (d !! "Dep_First");
             _strip (d !! "Dep_Middle"); ""; ""; "34"; d_ssn]
  else segs ["NM1"; "IL"; "1"; _strip (d !! "Dep_Last"); _strip (d !! "Dep_First");
             _strip (d !! "Dep_Middle"); ""; ""; "ZZ";
             if truthy (_strip (d !! "Dep_ID"))
             then sub_id +:+ "-" +:+ _strip (d !! "Dep_ID") else sub_id +:+ "-DEP"].

Definition dependent_segments (plan_map : gmap string (gmap string string))
    (sub_id cov_start cov_end plan_key : string) (d : gmap string string)
  : result (list string) :=
  d_dob ← yyyymmdd (_strip (d !! "Dep_DOB"));
  own_start ← yyyymmdd (_strip (d !! "Coverage_Start"));
  own_end ← yyyymmdd (_strip (d !! "Coverage_End"));
  let d_start := str_or own_start cov_start in
  let d_end := str_or own_end cov_end in
  let d_gender := _strip (d !! "Dep_Gender") in
  tail ← plan_segments plan_map (str_or (_strip (d !! "Plan_Key")) plan_key) "" d_start d_end;
  Ok ([segs ["INS"; "N"; relationship_code (_strip (d !! "Relationship"));
             maintenance_code (upper (_strip (Some (opt_or (d !! "Action") "ADD"))));
             "XN"; "A"; "E"];
       dependent_nm1 sub_id d]
      ++ opt_seg (truthy d_dob || truthy d_gender) (segs ["DMG"; "D8"; d_dob; d_gender])
      ++ opt_seg (truthy d_start) (segs ["DTP"; "356"; "D8"; d_start])
      ++ opt_seg (truthy d_end) (segs ["DTP"; "357"; "D8"; d_end])
      ++ tail).

(** The segments appended by [member_block], dependents included. *)
Definition member_nm1 (m : gmap string string) : string :=
  let ssn := _strip (m !! "Subscriber_SSN") in
  if isdigit ssn && (len ssn =? 9)
  then segs ["NM1"; "IL"; "1"; _strip (m !! "Sub_Last"); _strip (m !! "Sub_First");
             _strip (m !! "Sub_Middle"); ""; ""; "34"; ssn]
  else segs ["NM1"; "IL"; "1"; _strip (m !! "Sub_Last"); _strip (m !! "Sub_First");
             _strip (m !! "Sub_Middle"); ""; ""; "ZZ"; _strip (m !! "Subscriber_ID")].

Definition member_ins (m : gmap string string) : string :=
  segs ["INS"; "Y"; "18";
        maintenance_code (upper (_strip (Some (opt_or (m !! "Action") "ADD"))));
        "XN"; "A"; "E"; ""; ""; _strip (m !! "Employment_Status")].

Definition member_segments (plan_map : gmap string (gmap string string))
    (deps_by_sub : gmap string (list (gmap string string))) (m : gmap string string)
  : result (list string) :=
  let sub_id := _strip (m !! "Subscriber_ID") in
  if negb (truthy sub_id) then Ok []
  else
    dob ← yyyymmdd (_strip (m !! "Sub_DOB"));
    cov_start ← yyyymmdd (_strip (m !! "Coverage_Start"));
    cov_end ← yyyymmdd (_strip (m !! "Coverage_End"));
    let gender := _strip (m !! "Sub_Gender") in
    let addr1 := _strip (m !! "Sub_Address1") in
    let city := _strip (m !! "Sub_City") in
    let state := _strip (m !! "Sub_State") in
    let zipc := _strip (m !! "Sub_Zip") in
    let plan_key := _strip (m !! "Plan_Key") in
    tail ← plan_segments plan_map plan_key (_strip (m !! "Coverage_Tier_Code"))
             cov_start cov_end;
    deps_out ← collect (dependent_segments plan_map sub_id cov_start cov_end plan_key)
                 (default [] (deps_by_sub !! sub_id));
    Ok ([member_ins m; member_nm1 m]
        ++ opt_seg (truthy addr1) (segs ["N3"; addr1])
        ++ opt_seg (truthy city || truthy state || truthy zipc)
             (segs ["N4"; city; state; zipc])
        ++ opt_seg (truthy dob || truthy gender) (segs ["DMG"; "D8"; dob; gender])
        ++ opt_seg (truthy cov_start) (segs ["DTP"; "356"; "D8"; cov_start])
        ++ opt_seg (truthy cov_end) (segs ["DTP"; "357"; "D8"; cov_end])
        ++ tail ++ deps_out).
End Assembler.

(** ** The two programs *)

Definition NEWLINE : string := String "010"%char "".

(** The command-line generator imports only [datetime]: the name
    [timedelta] is unbound, so the [try] block always ends in a [NameError],
    which the handler swallows. *)
Module Generator.
Definition try_serial (i : string) (f : option string) : option string := None.
Definition yyyymmdd : string → result string := yyyymmdd_body try_serial.

(** The segment list built by [main]. *)
Definition main_edi (clock : Clock) (pkg : Package) : result (list string) :=
  tables ← read_xlsx_tables pkg;
  generate yyyymmdd clock tables.

(** [main]: the text written to the output file; on an exception nothing
    is written. *)
Definition main (clock : Clock) (pkg : Package) : result string :=
  edi ← main_edi clock pkg;
  Ok (join NEWLINE edi).
End Generator.

(** The single-file application imports [timedelta].  [float(s)] is exact
    for the integer part in the range that matters; the fractional part only
    contributes a time of day, which [strftime] drops (the float rounding of
    a fraction within half a microsecond of the next day is not modelled).
    An [OverflowError] from [timedelta] or from the addition is swallowed. *)
Module OneFile.
Definition EPOCH : Z := ymd2ord 1899 12 30.

Definition try_serial (i : string) (f : option string) : option string :=
  let days := digits_val i in
  if days >? MAX_DELTA_DAYS then None
  else if EPOCH + days >? MAXORDINAL then None
  else Some (strftime_Ymd (ord2ymd (EPOCH + days))).

Definition yyyymmdd : string → result string := yyyymmdd_body try_serial.

Definition generate_834_from_xlsx (clock : Clock) (pkg : Package)
  : result (list string) :=
  tables ← read_xlsx_tables pkg;
  generate yyyymmdd clock tables.
End OneFile.

(** ** Notions used in the statements *)

(** The subscriber identifier a dependent row is filed under. *)
Definition dep_sid (d : gmap string string) : string := _strip (d !! "Subscriber_ID").

(** The date texts the assembler normalizes. *)
Definition member_dates (m : gmap string string) : list string :=
  [_strip (m !! "Sub_DOB"); _strip (m !! "Coverage_Start"); _strip (m !! "Coverage_End")].

Definition dependent_dates (d : gmap string string) : list string :=
  [_strip (d !! "Dep_DOB"); _strip (d !! "Coverage_Start"); _strip (d !! "Coverage_End")].

Definition input_dates (clock : Clock) (settings : gmap string string)
    (members deps : list (gmap string string)) : list string :=
  _strip (Some (default (today_iso clock) (settings !! "As_Of_Date")))
  :: (members ≫= member_dates) ++ (deps ≫= dependent_dates).

(** The two kinds of fatal error of the assembler: one of the date texts
    [dates] is rejected by the normalizer, or a non-empty plan key is not
    held by [plan_map]. *)
Definition fatal (yyyymmdd : string → result string) (dates : list string)
    (plan_map : gmap string (gmap string string)) (e : exn) : Prop :=
  (∃ s, s ∈ dates ∧ yyyymmdd s = Raise e)
  ∨ (∃ k, k ≠ "" ∧ plan_map !! k = None ∧ e = KeyError (plan_key_msg k)).

(** ** The table of a list sheet, in the words of the specification *)

(** The label of column [c]: the trimmed text of its cell in row 1. *)
Definition header_at (cells : gmap (nat * nat) string) (c : nat) : string :=
  strip (cell_at cells 1 c).

Definition value_at (cells : gmap (nat * nat) string) (r c : nat) : string :=
  strip (cell_at cells r c).



(** Columns 1..max_col whose header is not empty. *)
Definition retained_columns (cells : gmap (nat * nat) string) : list nat :=
  filter (λ c, header_at cells c ≠ "") (seq 1 (max_col cells)).

(** The record of data row [r]: header label to cell text, a later column
    overriding an earlier one with the same label. *)
Definition record_of (cells : gmap (nat * nat) string) (r : nat) : gmap string string :=
  list_to_map (reverse ((λ c, (header_at cells c, value_at cells r c))
                          <$> retained_columns cells)).

(** Every retained value of row [r] is the empty string. *)
Definition row_is_blank (cells : gmap (nat * nat) string) (r : nat) : Prop :=
  Forall (λ c, value_at cells r c = "") (retained_columns cells).

#[global] Instance row_is_blank_dec cells r : Decision (row_is_blank cells r).
Proof. unfold row_is_blank. apply _. Defined.

Definition projected_table (cells : gmap (nat * nat) string) : list (gmap string string) :=
  record_of cells <$> filter (λ r, ¬ row_is_blank cells r) (seq 2 (max_row cells - 1)).

(** The inner loop, read with the header of each column. *)
Definition row_step (cells : gmap (nat * nat) string) (r : nat)
    (st : gmap string string * bool) (c : nat) : gmap string string * bool :=
  if decide (header_at cells c = "") then st
  else (<[header_at cells c := value_at cells r c]> st.1,
        if decide (value_at cells r c = "") then st.2 else false).

(** ** Reading a rendered segment *)

(** Tags of the segments of the subscriber and dependent loops. *)
Definition body_tag (s : string) : bool :=
  existsb (λ t, startswith t s) ["INS*"; "NM1*"; "N3*"; "N4*"; "DMG*"; "DTP*"; "HD*"].

Fixpoint last_char (s : string) : option ascii :=
  match s with
  | EmptyString => None
  | String c EmptyString => Some c
  | String _ s' => last_char s'
  end.

(** The pieces of a text between occurrences of [sep]. *)
Fixpoint split_on (sep : ascii) (s : string) : list string :=
  match s with
  | EmptyString => [""]
  | String c s' =>
      if decide (c = sep) then "" :: split_on sep s'
      else match split_on sep s' with
           | x :: l => String c x :: l
           | [] => [String c ""]
           end
  end.

(** The first data element of a segment: the text between the first and
    the second element separator. *)
Definition first_data_element (s : string) : option string :=
  split_on "*" s !! 1%nat.

(** The segments from position [i] through position [j] inclusive. *)
Definition span_segments (edi : list string) (i j : nat) : list string :=
  take (S j - i) (drop i edi).

(** ** Sample inputs *)

Definition sample_shared_cell : CellElem :=
  {| attr_r := Some "B2"; attr_t := Some "s"; v_text := Some "7" |}.

Definition sample_package : Package :=
  {| shared_strings := ["Plan_Key"; "PPO"];
     sheets := [("Plans", "rId1")];
     rid_to_target := {[ "rId1" := "worksheets/sheet1.xml" ]};
     parts := {[ "xl/worksheets/sheet1.xml" :=
                   [ {| attr_r := Some "A1"; attr_t := Some "s"; v_text := Some "0" |};
                     sample_shared_cell ] ]} |}.

Definition sample_clock : Clock :=
  {| today_iso := "2024-01-02"; isa_date := "240102"; isa_time := "1030";
     gs_date := "20240102"; gs_time := "1030" |}.

Definition sample_settings : gmap string string :=
  list_to_map [("Sender_ID (ISA06)", "ABC"); ("Receiver_ID (ISA08)", "XYZ");
               ("Interchange_Control (ISA13)", "7")].

Definition sample_plan : gmap string string :=
  list_to_map [("Plan_Key", "P1"); ("HD_Insurance_Line_Code", "HLT");
               ("HD_Plan_Coverage_Desc", "Gold PPO")].

Definition sample_member : gmap string string :=
  list_to_map [("Subscriber_ID", "1001"); ("Subscriber_SSN", "123456789");
               ("Sub_Last", "Doe"); ("Sub_First", "Jane");
               ("Coverage_Start", "2024-01-01"); ("Plan_Key", "P1");
               ("Coverage_Tier_Code", "FAM")].

Definition sample_dependent : gmap string string :=
  list_to_map [("Subscriber_ID", "1001"); ("Dep_ID", "1"); ("Relationship", "CHD");
               ("Dep_Last", "Doe"); ("Dep_First", "Sam")].

Definition sample_output : list string :=
  [ "ISA*00*          *00*          *ZZ*ABC            *ZZ*XYZ            *240102*1030*^*00501*000000007*0*P*>~";
    "GS*BE*ABC*XYZ*20240102*1030*1*X*005010X220A1~";
    "ST*834*1*005010X220A1~";
    "BGN*00*1*20240102*1030***FULL~";
    "DTP*007*D8*20240102~";
    "N1*P5*SPONSOR*FI*000000000~";
    "N1*IN*PAYER*FI*999999~";
    "INS*Y*18*001*XN*A*E***~";
    "NM1*IL*1*Doe*Jane****34*123456789~";
    "DTP*356*D8*20240101~";
    "HD*030**HLT*Gold PPO*FAM~";
    "DTP*348*D8*20240101~";
    "INS*N*19*001*XN*A*E~";
    "NM1*IL*1*Doe*Sam****ZZ*1001-1~";
    "DTP*356*D8*20240101~";
    "HD*030**HLT*Gold PPO*~";
    "DTP*348*D8*20240101~";
    "SE*16*1~";
    "GE*1*1~";
    "IEA*1*000000007~" ].

Definition blank_member : gmap string string :=
  list_to_map [("Subscriber_ID", "   "); ("Sub_Last", "Ghost"); ("Sub_DOB", "soon");
               ("Plan_Key", "GHOST")].

Definition ghost_plan_member : gmap string string :=
  list_to_map [("Subscriber_ID", "2002"); ("Plan_Key", "GHOST")].

Definition bad_date_member : gmap string string :=
  list_to_map [("Subscriber_ID", "3003"); ("Sub_DOB", "soon"); ("Plan_Key", "GHOST")].

Definition orphan_dependent : gmap string string :=
  list_to_map [("Subscriber_ID", "9999"); ("Dep_ID", "7"); ("Plan_Key", "GHOST")].

(** A member whose SSN is eight digits followed by the superscript two
    (U+00B2). *)
Definition superscript_member : gmap string string :=
  list_to_map [("Subscriber_ID", "4004");
               ("Subscriber_SSN", "12345678" +:+ String "178"%char "");
               ("Sub_Last", "Roe"); ("Sub_First", "Max")].

Definition sample_dependent_output : list string :=
  [ "INS*N*19*001*XN*A*E~";
    "NM1*IL*1*Doe*Sam****ZZ*1001-1~";
    "DTP*356*D8*20240101~";
    "HD*030**HLT*Gold PPO*~";
    "DTP*348*D8*20240101~" ].

Definition sample_grid : gmap (nat * nat) string :=
  list_to_map [ ((1, 1), "Plan_Key"); ((1, 2), ""); ((1, 3), " Desc ");
                ((2, 1), "P1"); ((2, 2), "note"); ((2, 3), "Gold");
                ((3, 1), "  "); ((3, 2), "kept out"); ((3, 3), "") ]%nat.

(** A workbook whose only cell is a shared-string reference with the
    index -1. *)
Definition negative_index_package : Package :=
  {| shared_strings := ["alpha"; "beta"];
     sheets := [("Plans", "rId1")];
     rid_to_target := {[ "rId1" := "worksheets/sheet1.xml" ]};
     parts := {[ "xl/worksheets/sheet1.xml" :=
                   [ {| attr_r := Some "A1"; attr_t := Some "s"; v_text := Some "-1" |} ] ]} |}.

(** A workbook whose Members sheet holds a date of birth stored as a
    spreadsheet serial number. *)
Definition serial_package : Package :=
  {| shared_strings := ["Subscriber_ID"; "Subscriber_SSN"; "Sub_DOB"];
     sheets := [("Members", "rId1")];
     rid_to_target := {[ "rId1" := "worksheets/sheet1.xml" ]};
     parts := {[ "xl/worksheets/sheet1.xml" :=
                   [ {| attr_r := Some "A1"; attr_t := Some "s"; v_text := Some "0" |};
                     {| attr_r := Some "B1"; attr_t := Some "s"; v_text := Some "1" |};
                     {| attr_r := Some "C1"; attr_t := Some "s"; v_text := Some "2" |};
                     {| attr_r := Some "A2"; attr_t := None; v_text := Some "1001" |};
                     {| attr_r := Some "B2"; attr_t := None; v_text := Some "123456789" |};
                     {| attr_r := Some "C2"; attr_t := None; v_text := Some "45000" |} ] ]} |}.

(** ** Further notions used in the statements *)

(** First character of a text. *)
Definition first_char (s : string) : option ascii :=
  match s with EmptyString => None | String c _ => Some c end.

Definition is_upper (c : ascii) : bool := (65 <=? code c) && (code c <=? 90).

(** The loop of [_col_letters_to_index], on the upper-cased text. *)
Fixpoint col_value (n : Z) (s : string) : Z :=
  match s with
  | EmptyString => n
  | String ch s' => col_value (n * 26 + (code ch - 65 + 1)) s'
  end.

(** The text holds no occurrence of the separator. *)
Definition no_sep (sep : ascii) (s : string) : bool :=
  str_all (λ c, bool_decide (c ≠ sep)) s.

(** A text of exactly eight digits. *)
Definition eight_digits (s : string) : bool :=
  (String.length s =? 8)%nat && str_all is_digit s.

(** A text of exactly eight characters, each accepted by [str.isdigit]. *)
Definition eight_isdigit (s : string) : bool :=
  (String.length s =? 8)%nat && str_all is_pydigit s.

(** The numerals counted up from [d] (least significant digit first), each
    zero-filled to [w] characters, are [w] digits long: checked for [fuel]
    successive numerals. *)
Fixpoint shape_upto (w fuel : nat) (d : Decimal.uint) : bool :=
  match fuel with
  | O => true
  | S fuel' =>
      let s := zfill w (NilEmpty.string_of_uint (Decimal.rev d)) in
      (String.length s =? w)%nat && str_all is_digit s
      && shape_upto w fuel' (Decimal.Little.succ d)
  end.

(** The label and the value of row [r] of the Settings sheet. *)
Definition setting_label (cells : gmap (nat * nat) string) (r : nat) : string :=
  strip (cell_at cells r 1).

Definition setting_value (cells : gmap (nat * nat) string) (r : nat) : string :=
  strip (cell_at cells r 2).

(** A label the Settings sheet accepts: not empty, and not one of the two
    heading texts. *)
Definition setting_key_ok (k : string) : Prop :=
  k ≠ "" ∧ lower k ∉ ["field"; "mock 834 generator - settings"].

(** One iteration of the loop of [settings_kv]. *)
Definition settings_step (cells : gmap (nat * nat) string)
    (kv : gmap string string) (r : nat) : gmap string string :=
  let k := _strip (Some (cell_at cells r 1)) in
  let v := _strip (Some (cell_at cells r 2)) in
  if truthy k
     && negb (bool_decide (lower k ∈ ["field"; "mock 834 generator - settings"]))
  then <[k := v]> kv else kv.

(** The relationship target of a declared sheet, and whether the reader
    takes it for a worksheet. *)
Definition sheet_target (pkg : Package) (rid : string) : string :=
  default "" (rid_to_target pkg !! rid).

Definition is_worksheet (pkg : Package) (rid : string) : bool :=
  truthy (sheet_target pkg rid) && startswith "worksheets/" (sheet_target pkg rid).

(** The archive path [parse_sheet] opens for a declared sheet. *)
Definition sheet_path (pkg : Package) (rid : string) : string :=
  "xl/" +:+ lstrip_char "/" (sheet_target pkg rid).

(** One iteration of the loop of [read_xlsx_tables] over the declared
    sheets. *)
Definition read_step (pkg : Package) (acc : result Tables) (sh : string * string)
    : result Tables :=
  let '(name, rid) := sh in
  results ← acc;
  let target := default "" (rid_to_target pkg !! rid) in
  if negb (truthy target) || negb (startswith "worksheets/" target)
  then Ok results
  else
    cells ← parse_sheet pkg target;
    Ok (<[name := project_sheet name cells]> results).

(** The table a worksheet part yields under the sheet name [name]. *)
Definition sheet_table (pkg : Package) (name rid : string) : option (list Row) :=
  elems ← parts pkg !! sheet_path pkg rid;
  Some (project_sheet name (parse_cells (shared_strings pkg) elems)).

(** A workbook declaring the sheet name Plans twice, with a chart sheet in
    between. *)
Definition layered_package : Package :=
  {| shared_strings := ["Plan_Key"; "PPO"; "HMO"];
     sheets := [("Plans", "rId1"); ("Chart", "rId2"); ("Plans", "rId3")];
     rid_to_target := {[ "rId1" := "worksheets/sheet1.xml";
                         "rId2" := "chartsheets/sheet2.xml";
                         "rId3" := "worksheets/sheet3.xml" ]};
     parts := {[ "xl/worksheets/sheet1.xml" :=
                   [ {| attr_r := Some "A1"; attr_t := Some "s"; v_text := Some "0" |};
                     {| attr_r := Some "A2"; attr_t := Some "s"; v_text := Some "1" |} ];
                 "xl/worksheets/sheet3.xml" :=
                   [ {| attr_r := Some "A1"; attr_t := Some "s"; v_text := Some "0" |};
                     {| attr_r := Some "A2"; attr_t := Some "s"; v_text := Some "2" |} ] ]} |}.

Definition layered_tables : Tables :=
  {[ "Plans" := [ ({[ "Plan_Key" := "HMO" ]} : Row) ] ]}.

(** The segments of a list that start with the prefix [tag]. *)
Definition with_tag (tag : string) (l : list string) : list string :=
  List.filter (startswith tag) l.

(** The persons a member row brings into the output: none when its
    identifier is empty, else the subscriber and the dependents filed under
    the identifier. *)
Definition persons_of (deps : list (gmap string string)) (m : gmap string string) : nat :=
  if truthy (_strip (m !! "Subscriber_ID"))
  then S (length (filter (λ d, dep_sid d = _strip (m !! "Subscriber_ID")) deps))
  else 0.

(** The street and the city segments of a member row. *)
Definition street_of (m : gmap string string) : list string :=
  if truthy (_strip (m !! "Subscriber_ID"))
  then opt_seg (truthy (_strip (m !! "Sub_Address1")))
         (segs ["N3"; _strip (m !! "Sub_Address1")])
  else [].

Definition city_of (m : gmap string string) : list string :=
  if truthy (_strip (m !! "Subscriber_ID"))
  then opt_seg (truthy (_strip (m !! "Sub_City")) || truthy (_strip (m !! "Sub_State"))
                || truthy (_strip (m !! "Sub_Zip")))
         (segs ["N4"; _strip (m !! "Sub_City"); _strip (m !! "Sub_State");
                _strip (m !! "Sub_Zip")])
  else [].

(** A segment that opens no person loop and carries no address. *)
Definition plain_tag (s : string) : bool :=
  negb (startswith "INS*" s || startswith "N3*" s || startswith "N4*" s).

(** * Properties *)

(** ** Strings *)

Lemma is_digit_pydigit c : is_digit c = true → is_pydigit c = true.
Proof. unfold is_pydigit. by intros ->. Qed.

Lemma is_pydigit_not_space c : is_pydigit c = true → isspace c = false.
Proof. destruct c as [[] [] [] [] [] [] [] []]; try reflexivity; discriminate. Qed.

Lemma is_digit_not_space c : is_digit c = true → isspace c = false.
Proof. intros H. by apply is_pydigit_not_space, is_digit_pydigit. Qed.

Lemma rstrip_no_space s : str_all (λ c, negb (isspace c)) s = true → rstrip s = s.
Proof.
  induction s as [|c s IH]; simpl; [done|].
  intros [Hc Hs]%andb_true_iff. rewrite (IH Hs).
  apply negb_true_iff in Hc. rewrite Hc. by destruct s.
Qed.

Lemma lstrip_no_space s : str_all (λ c, negb (isspace c)) s = true → lstrip s = s.
Proof.
  destruct s as [|c s]; simpl; [done|].
  intros [Hc _]%andb_true_iff. apply negb_true_iff in Hc. by rewrite Hc.
Qed.

Lemma str_all_impl (p q : ascii → bool) s :
  (∀ c, p c = true → q c = true) → str_all p s = true → str_all q s = true.
Proof.
  intros Hpq. induction s as [|c s IH]; simpl; [done|].
  intros [Hc Hs]%andb_true_iff. by rewrite (Hpq _ Hc), IH.
Qed.

Lemma strip_pydigits s : str_all is_pydigit s = true → strip s = s.
Proof.
  intros H.
  assert (str_all (λ c, negb (isspace c)) s = true) as Hns.
  { revert H. apply str_all_impl. intros c Hc. by rewrite is_pydigit_not_space. }
  unfold strip. by rewrite lstrip_no_space, rstrip_no_space.
Qed.

Lemma strip_digits s : str_all is_digit s = true → strip s = s.
Proof.
  intros H. apply strip_pydigits. revert H. apply str_all_impl, is_digit_pydigit.
Qed.

Lemma span_all p s : str_all p s = true → span p s = (s, "").
Proof.
  induction s as [|c s IH]; simpl; [done|].
  intros [Hc Hs]%andb_true_iff. by rewrite Hc, (IH Hs).
Qed.

(** The rest left by [span] does not begin with a character satisfying the
    predicate. *)
Lemma span_rest p s a r c r' : span p s = (a, r) → r = String c r' → p c = false.
Proof.
  revert a r. induction s as [|x s IH]; simpl; intros a r.
  - intros [= <- <-]. done.
  - destruct (p x) eqn:Hx.
    + destruct (span p s) as [a0 b0] eqn:Hs. intros [= <- <-]. by eapply IH.
    + intros [= <- <-] [= -> ->]. done.
Qed.

(** ** The date normalizer *)

Section NormalizerFacts.
Variable try_serial : string → option string → option string.

Lemma yyyymmdd_body_empty : yyyymmdd_body try_serial "" = Ok "".
Proof. reflexivity. Qed.

(** Eight characters that [str.isdigit] accepts pass through whatever the
    numeric branch would do. *)
Lemma yyyymmdd_body_eight_pydigits s :
  String.length s = 8%nat → str_all is_pydigit s = true →
  yyyymmdd_body try_serial s = Ok s.
Proof.
  intros Hlen Hdig. unfold yyyymmdd_body, _strip.
  rewrite (strip_pydigits _ Hdig).
  destruct s as [|c s]; [done|]. cbn [truthy negb].
  unfold isdigit, len. rewrite Hlen, Hdig. reflexivity.
Qed.

Lemma yyyymmdd_body_eight_digits s :
  String.length s = 8%nat → str_all is_digit s = true →
  yyyymmdd_body try_serial s = Ok s.
Proof.
  intros Hlen Hdig. apply yyyymmdd_body_eight_pydigits; [done|].
  revert Hdig. apply str_all_impl, is_digit_pydigit.
Qed.
End NormalizerFacts.

(** A string matched by the numeric pattern is matched by neither the ISO
    pattern nor the month/day/year pattern. *)
Lemma match_numeric_excludes s g :
  match_numeric s = Some g → match_iso s = None ∧ match_mdy s = None.
Proof.
  unfold match_numeric, match_iso, match_mdy.
  destruct (span is_digit s) as [i r1] eqn:Hspan.
  destruct (truthy i); cbn [negb]; [|done].
  destruct r1 as [|c r1']; [done|].
  destruct (at_end (String c r1')) eqn:Hend.
  - intros _. unfold at_end in Hend. destruct r1'; [|done].
    destruct (decide (c = "010"%char)) as [->|]; done.
  - destruct (decide (c = "."%char)) as [->|Hc]; [done|].
    intros H. exfalso. revert H.
    destruct c as [[] [] [] [] [] [] [] []]; done.
Qed.

Lemma match_numeric_truthy s g : match_numeric s = Some g → truthy s = true.
Proof. by destruct s. Qed.

(** In the command-line generator the numeric branch never returns: every
    purely numeric text that is not already eight digits is rejected. *)
Lemma generator_rejects_numeric s g :
  match_numeric (strip s) = Some g →
  (len (strip s) =? 8) && isdigit (strip s) = false →
  Generator.yyyymmdd s = Raise (ValueError (bad_date_msg (strip s))).
Proof.
  intros Hnum H8. unfold Generator.yyyymmdd, yyyymmdd_body, _strip.
  rewrite (match_numeric_truthy _ _ Hnum). cbn [negb]. rewrite H8.
  destruct (match_numeric_excludes _ _ Hnum) as [-> ->].
  rewrite Hnum. by destruct g.
Qed.

(** In the single-file application a whole-number serial within the range of
    [datetime] is converted to the date that many days after 1899-12-30;
    beyond the range the text is rejected. *)
Lemma onefile_serial_date s i :
  match_numeric (strip s) = Some (i, None) →
  (len (strip s) =? 8) && isdigit (strip s) = false →
  OneFile.yyyymmdd s =
    if digits_val i <=? MAXORDINAL - OneFile.EPOCH
    then Ok (strftime_Ymd (ord2ymd (OneFile.EPOCH + digits_val i)))
    else Raise (ValueError (bad_date_msg (strip s))).
Proof.
  intros Hnum H8. unfold OneFile.yyyymmdd, yyyymmdd_body, _strip.
  rewrite (match_numeric_truthy _ _ Hnum). cbn [negb]. rewrite H8.
  destruct (match_numeric_excludes _ _ Hnum) as [-> ->].
  rewrite Hnum. cbn [mbind option_bind]. unfold OneFile.try_serial.
  change OneFile.EPOCH with 693594. unfold MAXORDINAL, MAX_DELTA_DAYS.
  destruct (digits_val i >? 999999999) eqn:H1;
    destruct (693594 + digits_val i >? 3652059) eqn:H2;
    destruct (digits_val i <=? 3652059 - 693594) eqn:H3; try reflexivity; lia.
Qed.

(** C7: the date normalizer returns a text of exactly eight digits
    unchanged, in both programs; no calendar check is involved. *)
Theorem C7_eight_digits_unchanged (s : string) :
  String.length s = 8%nat → str_all is_digit s = true →
  Generator.yyyymmdd s = Ok s ∧ OneFile.yyyymmdd s = Ok s.
Proof.
  intros Hlen Hdig. split; by apply yyyymmdd_body_eight_digits.
Qed.

Lemma C7_eight_digits_unchanged_witness :
  Generator.yyyymmdd "20249931" = Ok "20249931"
  ∧ OneFile.yyyymmdd "20249931" = Ok "20249931".
Proof. apply (C7_eight_digits_unchanged "20249931"); reflexivity. Defined.

(** C3: a spreadsheet serial date.  The command-line generator rejects the
    purely numeric text 45000 with the bad-date error, although the text is
    meant to be read as a day count from 1899-12-30; the single-file
    application, which imports [timedelta], returns 2023-03-15.  A workbook
    with that serial in a date-of-birth cell therefore stops the
    command-line generator, while the single-file application renders it. *)
Theorem C3_serial_date_rejected_by_generator :
  match_numeric "45000" = Some ("45000", None)
  ∧ Generator.yyyymmdd "45000"
    = Raise (ValueError "Bad date '45000' (expected YYYYMMDD or YYYY-MM-DD)")
  ∧ OneFile.yyyymmdd "45000" = Ok "20230315"
  ∧ Generator.main sample_clock serial_package
    = Raise (ValueError "Bad date '45000' (expected YYYYMMDD or YYYY-MM-DD)")
  ∧ is_ok (OneFile.generate_834_from_xlsx sample_clock serial_package) = true.
Proof. repeat split; vm_compute; reflexivity. Qed.

Example onefile_serial_package :
  OneFile.generate_834_from_xlsx sample_clock serial_package
  = Ok [ "ISA*00*          *00*          *ZZ*SENDERID       *ZZ*RECEIVERID     *240102*1030*^*00501*000000001*0*P*>~";
         "GS*BE*SENDERID*RECEIVERID*20240102*1030*1*X*005010X220A1~";
         "ST*834*1*005010X220A1~";
         "BGN*00*1*20240102*1030***FULL~";
         "DTP*007*D8*20240102~";
         "N1*P5*SPONSOR*FI*000000000~";
         "N1*IN*PAYER*FI*999999~";
         "INS*Y*18*001*XN*A*E***~";
         "NM1*IL*1******34*123456789~";
         "DMG*D8*20230315*~";
         "SE*9*1~";
         "GE*1*1~";
         "IEA*1*000000001~" ].
Proof. vm_compute. reflexivity. Qed.

(** Sample evaluations. *)

Example epoch_ordinal : OneFile.EPOCH = 693594.
Proof. reflexivity. Qed.

Example yyyymmdd_iso : Generator.yyyymmdd " 2024-02-29 " = Ok "20240229".
Proof. reflexivity. Qed.

Example yyyymmdd_mdy : Generator.yyyymmdd "3/7/2024" = Ok "20240307".
Proof. reflexivity. Qed.

Example yyyymmdd_empty : Generator.yyyymmdd "   " = Ok "".
Proof. reflexivity. Qed.

Example yyyymmdd_serial_onefile : OneFile.yyyymmdd "45000" = Ok "20230315".
Proof. vm_compute. reflexivity. Qed.

Example yyyymmdd_serial_onefile_1 : OneFile.yyyymmdd "1" = Ok "18991231".
Proof. vm_compute. reflexivity. Qed.

Example yyyymmdd_serial_onefile_max : OneFile.yyyymmdd "2958465" = Ok "99991231".
Proof. vm_compute. reflexivity. Qed.

Example yyyymmdd_serial_onefile_leap : OneFile.yyyymmdd "45351" = Ok "20240229".
Proof. vm_compute. reflexivity. Qed.

(** ** The cell grid extractor *)

Lemma parse_cells_fold_keep (shared : list string) (acc : Grid) k v post :
  acc !! k = Some v →
  Forall (λ c', cell_rc c' ≠ k) post →
  foldl (λ (cells : Grid) c, <[cell_rc c := cell_value shared c]> cells) acc post !! k
  = Some v.
Proof.
  revert acc. induction post as [|c' post IH]; intros acc Hacc Hpost; [done|].
  inversion Hpost as [|? ? Hne Hrest]; subst. cbn [foldl].
  apply IH; [|done]. by rewrite lookup_insert_ne.
Qed.

(** The grid maps the coordinates of a cell to the value of the last [c]
    element carrying those coordinates. *)
Lemma parse_cells_lookup_last (shared : list string) pre c post :
  Forall (λ c', cell_rc c' ≠ cell_rc c) post →
  parse_cells shared (pre ++ c :: post) !! cell_rc c = Some (cell_value shared c).
Proof.
  intros Hpost. unfold parse_cells. rewrite foldl_app. cbn [foldl].
  apply (parse_cells_fold_keep shared); [|done].
  apply lookup_insert_eq.
Qed.

(** A shared-string cell whose text denotes the index [i ≥ 0]. *)
Lemma cell_value_shared (shared : list string) c raw i :
  attr_t c = Some "s" → v_text c = Some raw → py_int raw = Some i → 0 ≤ i →
  cell_value shared c = default raw (shared !! Z.to_nat i).
Proof.
  intros Ht Hv Hint Hi. unfold cell_value. rewrite Hv, Ht. cbn [default].
  rewrite decide_True by done. rewrite Hint. cbn [mbind option_bind].
  unfold py_index. destruct (0 <=? i) eqn:Hle; [|lia].
  by destruct (shared !! Z.to_nat i).
Qed.

(** A cell of any other type keeps its literal text. *)
Lemma cell_value_inline (shared : list string) c raw :
  default "" (attr_t c) ≠ "s" → v_text c = Some raw → cell_value shared c = raw.
Proof.
  intros Ht Hv. unfold cell_value. rewrite Hv. by rewrite decide_False.
Qed.

(** Python resolves a negative index from the end of the table. *)
Example cell_value_negative_index :
  cell_value ["alpha"; "beta"]
    {| attr_r := Some "A1"; attr_t := Some "s"; v_text := Some "-1" |} = "beta".
Proof. reflexivity. Qed.

(** The value of a shared-string cell: the entry Python's indexing finds,
    or the raw text when [int] or the indexing raises. *)
Lemma cell_value_shared_cases (shared : list string) c raw :
  attr_t c = Some "s" → v_text c = Some raw →
  cell_value shared c
  = match py_int raw with
    | None => raw
    | Some i => default raw (py_index shared i)
    end.
Proof.
  intros Ht Hv. unfold cell_value. rewrite Hv, Ht. cbn [default].
  rewrite decide_True by done.
  destruct (py_int raw) as [i|]; cbn [mbind option_bind]; [|done].
  by destruct (py_index shared i).
Qed.

(** C9 (amended): in a worksheet part, take a cell flagged as a
    shared-string reference (attribute t equal to s), the last [c] element
    with its coordinates, and let N be the number of shared strings.  The
    sheet always parses.  When the text of the cell is not an integer
    numeral, or denotes an integer [i] with [i ≥ N] or [i < -N], the cell is
    recorded with its raw text.  When [0 ≤ i < N] it is recorded with the
    shared string at [i].  When [-N ≤ i < 0] it is recorded with the shared
    string at [N + i]: Python's indexing counts a negative index from the
    end of the table. *)
Theorem C9_shared_string_index (pkg : Package) (target : string)
    (pre post : list CellElem) (c : CellElem) (raw : string) :
  parts pkg !! ("xl/" +:+ lstrip_char "/" target) = Some (pre ++ c :: post) →
  Forall (λ c', cell_rc c' ≠ cell_rc c) post →
  attr_t c = Some "s" → v_text c = Some raw →
  let n := Z.of_nat (length (shared_strings pkg)) in
  ∃ cells : Grid,
    parse_sheet pkg target = Ok cells
    ∧ (py_int raw = None → cells !! cell_rc c = Some raw)
    ∧ (∀ i, py_int raw = Some i →
         (n ≤ i ∨ i < - n → cells !! cell_rc c = Some raw)
         ∧ (0 ≤ i < n →
            ∃ text, shared_strings pkg !! Z.to_nat i = Some text
                    ∧ cells !! cell_rc c = Some text)
         ∧ (- n ≤ i < 0 →
            ∃ text, shared_strings pkg !! Z.to_nat (n + i) = Some text
                    ∧ cells !! cell_rc c = Some text)).
Proof.
  intros Hpart Hpost Ht Hv n.
  exists (parse_cells (shared_strings pkg) (pre ++ c :: post)).
  unfold parse_sheet. rewrite Hpart. split; [done|].
  rewrite (parse_cells_lookup_last _ _ _ _ Hpost).
  rewrite (cell_value_shared_cases _ _ _ Ht Hv).
  split; [by intros ->|].
  intros i ->. unfold py_index. fold n. split; [|split].
  - intros [Hge|Hlt].
    + destruct (0 <=? i) eqn:H0; [|lia].
      rewrite (lookup_ge_None_2 (shared_strings pkg) (Z.to_nat i)); [done|lia].
    + destruct (0 <=? i) eqn:H0; [lia|].
      destruct (0 <=? n + i) eqn:H1; [lia|done].
  - intros Hin. destruct (0 <=? i) eqn:H0; [|lia].
    destruct (lookup_lt_is_Some_2 (shared_strings pkg) (Z.to_nat i)) as [text Htext];
      [lia|].
    exists text. by rewrite Htext.
  - intros Hin. destruct (0 <=? i) eqn:H0; [lia|].
    destruct (0 <=? n + i) eqn:H1; [|lia].
    destruct (lookup_lt_is_Some_2 (shared_strings pkg) (Z.to_nat (n + i)))
      as [text Htext]; [lia|].
    exists text. by rewrite Htext.
Qed.

Lemma C9_shared_string_index_witness :
  let n := Z.of_nat (length (shared_strings sample_package)) in
  ∃ cells : Grid,
    parse_sheet sample_package "worksheets/sheet1.xml" = Ok cells
    ∧ (py_int "7" = None → cells !! cell_rc sample_shared_cell = Some "7")
    ∧ (∀ i, py_int "7" = Some i →
         (n ≤ i ∨ i < - n → cells !! cell_rc sample_shared_cell = Some "7")
         ∧ (0 ≤ i < n →
            ∃ text, shared_strings sample_package !! Z.to_nat i = Some text
                    ∧ cells !! cell_rc sample_shared_cell = Some text)
         ∧ (- n ≤ i < 0 →
            ∃ text, shared_strings sample_package !! Z.to_nat (n + i) = Some text
                    ∧ cells !! cell_rc sample_shared_cell = Some text)).
Proof.
  refine (C9_shared_string_index sample_package "worksheets/sheet1.xml"
            [ {| attr_r := Some "A1"; attr_t := Some "s"; v_text := Some "0" |} ]
            [] sample_shared_cell "7" _ _ _ _).
  - vm_compute. reflexivity.
  - constructor.
  - reflexivity.
  - reflexivity.
Defined.

(** C9 as stated fails for a negative index: -1 lies outside the bounds
    0..1 of a table of two shared strings, yet the cell is recorded with the
    last shared string and not with its raw text. *)
Lemma C9_counterexample :
  shared_strings negative_index_package = ["alpha"; "beta"]
  ∧ py_int "-1" = Some (-1)
  ∧ ¬ (0 ≤ -1 < Z.of_nat (length (shared_strings negative_index_package)))
  ∧ ∃ cells : Grid,
      parse_sheet negative_index_package "worksheets/sheet1.xml" = Ok cells
      ∧ cells !! _cell_ref_to_rc "A1" = Some "beta"
      ∧ cells !! _cell_ref_to_rc "A1" ≠ Some "-1".
Proof.
  split; [reflexivity|]. split; [reflexivity|]. split; [cbn; lia|].
  eexists. split; [vm_compute; reflexivity|]. split; [reflexivity|]. discriminate.
Qed.

(** ** The two programs *)

(** Both programs hand the four tables to the same assembler. *)
Lemma generate_assemble yyyymmdd clock (tables : gmap string (list (gmap string string))) :
  generate yyyymmdd clock tables
  = assemble yyyymmdd clock
      (default ∅ (head (opt_list_or (tables !! "Settings") [∅])))
      (opt_list_or (tables !! "Plans") [])
      (opt_list_or (tables !! "Members") [])
      (opt_list_or (tables !! "Dependents") []).
Proof. reflexivity. Qed.

(** A fatal error of the assembler leaves the command-line generator
    without output text. *)
Lemma main_no_output clock pkg tables e :
  read_xlsx_tables pkg = Ok tables →
  generate Generator.yyyymmdd clock tables = Raise e →
  Generator.main clock pkg = Raise e.
Proof.
  intros Hread Hgen. unfold Generator.main, Generator.main_edi.
  rewrite Hread. cbn [mbind result_bind]. by rewrite Hgen.
Qed.

(** On success the output text is the segments joined by newlines. *)
Lemma main_output clock pkg tables edi :
  read_xlsx_tables pkg = Ok tables →
  generate Generator.yyyymmdd clock tables = Ok edi →
  Generator.main clock pkg = Ok (join NEWLINE edi).
Proof.
  intros Hread Hgen. unfold Generator.main, Generator.main_edi.
  rewrite Hread. cbn [mbind result_bind]. by rewrite Hgen.
Qed.

(** ** The assembler monad *)

Lemma bind_run {A B} (c : Asm A) (k : A → Asm B) edi :
  (c ≫= k) edi = match c edi with Ok (a, edi') => k a edi' | Raise e => Raise e end.
Proof. reflexivity. Qed.

Lemma bind_assoc_run {A B C} (c : Asm A) (f : A → Asm B) (g : B → Asm C) edi :
  ((c ≫= f) ≫= g) edi = (c ≫= λ a, f a ≫= g) edi.
Proof. unfold mbind, asm_bind. by destruct (c edi) as [[a edi']|e]. Qed.

Lemma bind_ret_run {A B} (a : A) (k : A → Asm B) edi : (mret a ≫= k) edi = k a edi.
Proof. reflexivity. Qed.

Lemma bind_append {B} s (k : unit → Asm B) edi :
  (append s ≫= k) edi = k tt (edi ++ [s]).
Proof. reflexivity. Qed.

Lemma when_append_run b s edi : when b (append s) edi = Ok (tt, edi ++ opt_seg b s).
Proof. destruct b; cbn; [done|]. by rewrite app_nil_r. Qed.

Lemma bind_when_append {B} b s (k : unit → Asm B) edi :
  (when b (append s) ≫= k) edi = k tt (edi ++ opt_seg b s).
Proof. by rewrite bind_run, when_append_run. Qed.

Lemma if_append (b : bool) s1 s2 :
  (if b then append s1 else append s2) = append (if b then s1 else s2).
Proof. by destruct b. Qed.

Lemma bind_call {A B} (r : result A) (k : A → Asm B) edi :
  (call r ≫= k) edi = match r with Ok a => k a edi | Raise e => Raise e end.
Proof. by destruct r. Qed.

(** A loop whose body only appends gathers the segments of its iterations. *)
Lemma for_each_run {A} (body : A → Asm unit) (f : A → result (list string)) l edi :
  (∀ x edi, body x edi = out ← f x; Ok (tt, edi ++ out)) →
  for_each l body edi = out ← collect f l; Ok (tt, edi ++ out).
Proof.
  intros Hbody. revert edi. induction l as [|x l IH]; intros edi; cbn [for_each collect].
  - unfold mret, asm_ret. cbn. by rewrite app_nil_r.
  - rewrite bind_run, Hbody.
    destruct (f x) as [a|e]; [|done]. cbn [mbind result_bind].
    rewrite IH. destruct (collect f l) as [b|e]; [|done].
    cbn [mbind result_bind]. by rewrite app_assoc.
Qed.

Lemma collect_app {A} (f : A → result (list string)) l1 l2 :
  collect f (l1 ++ l2) = a ← collect f l1; b ← collect f l2; Ok (a ++ b).
Proof.
  induction l1 as [|x l1 IH]; cbn [collect app].
  - cbn. by destruct (collect f l2).
  - destruct (f x) as [a|e]; [|done]. cbn [mbind result_bind]. rewrite IH.
    destruct (collect f l1) as [b|e]; [|done]. cbn [mbind result_bind].
    destruct (collect f l2) as [c|e]; [|done]. cbn [mbind result_bind].
    by rewrite app_assoc.
Qed.

Lemma collect_ext {A} (f g : A → result (list string)) l :
  (∀ x, x ∈ l → f x = g x) → collect f l = collect g l.
Proof.
  induction l as [|x l IH]; intros H; [done|]. cbn [collect].
  rewrite (H x) by left. rewrite IH; [done|].
  intros y Hy. apply H. by right.
Qed.

Lemma collect_Forall {A} (P : string → Prop) (f : A → result (list string)) l out :
  (∀ x o, f x = Ok o → Forall P o) → collect f l = Ok out → Forall P out.
Proof.
  intros Hf. revert out. induction l as [|x l IH]; intros out; cbn [collect].
  - intros [= <-]. constructor.
  - destruct (f x) as [a|e] eqn:Hx; [|done]. cbn [mbind result_bind].
    destruct (collect f l) as [b|e]; [|done]. cbn [mbind result_bind].
    intros [= <-]. apply Forall_app. split; [by eapply Hf | by apply IH].
Qed.

(** A failing iteration makes the whole loop fail. *)
Lemma collect_raise {A} (f : A → result (list string)) l x :
  x ∈ l → is_ok (f x) = false → is_ok (collect f l) = false.
Proof.
  induction l as [|y l IH]; intros Hin Hx; [by apply elem_of_nil in Hin|].
  cbn [collect]. apply elem_of_cons in Hin as [->|Hin].
  - by destruct (f y).
  - destruct (f y); [|done]. cbn [mbind result_bind].
    specialize (IH Hin Hx). by destruct (collect f l).
Qed.

(** The segments of a successful iteration are part of the gathered list. *)
Lemma collect_elem {A} (f : A → result (list string)) l out x :
  collect f l = Ok out → x ∈ l →
  ∃ o pre post, f x = Ok o ∧ out = pre ++ o ++ post.
Proof.
  revert out. induction l as [|y l IH]; intros out Hc Hin; [by apply elem_of_nil in Hin|].
  cbn [collect] in Hc.
  destruct (f y) as [a|e] eqn:Hy; [|done]. cbn [mbind result_bind] in Hc.
  destruct (collect f l) as [b|e] eqn:Hl; [|done]. cbn [mbind result_bind] in Hc.
  injection Hc as <-.
  apply elem_of_cons in Hin as [->|Hin].
  - exists a, [], b. by rewrite Hy.
  - destruct (IH b eq_refl Hin) as (o & pre & post & Ho & ->).
    exists o, (a ++ pre), post. by rewrite Ho, <- app_assoc.
Qed.

(** ** The blocks of the assembler *)

Section AssemblerFacts.
Variable yyyymmdd : string → result string.

Lemma dependent_block_run plan_map sub_id cov_start cov_end plan_key d edi :
  dependent_block yyyymmdd plan_map sub_id cov_start cov_end plan_key d edi =
  out ← dependent_segments yyyymmdd plan_map sub_id cov_start cov_end plan_key d;
  Ok (tt, edi ++ out).
Proof.
  unfold dependent_block, dependent_segments, dependent_nm1, plan_segments.
  rewrite bind_call. destruct (yyyymmdd (_strip (d !! "Dep_DOB"))) as [d_dob|e]; [|done].
  rewrite bind_call.
  destruct (yyyymmdd (_strip (d !! "Coverage_Start"))) as [own_start|e]; [|done].
  rewrite bind_call.
  destruct (yyyymmdd (_strip (d !! "Coverage_End"))) as [own_end|e]; [|done].
  cbn [mbind result_bind].
  rewrite bind_append, if_append, bind_append, !bind_when_append.
  destruct (truthy (str_or (_strip (d !! "Plan_Key")) _)); cbn [when].
  - destruct (plan_map !! _); [|done].
    rewrite bind_append, bind_when_append, when_append_run.
    cbn [mbind result_bind]. by rewrite <- !app_assoc.
  - unfold mret, asm_ret. cbn [mbind result_bind].
    by rewrite app_nil_r, <- !app_assoc.
Qed.

Lemma member_block_run plan_map deps_by_sub m edi :
  member_block yyyymmdd plan_map deps_by_sub m edi =
  out ← member_segments yyyymmdd plan_map deps_by_sub m;
  Ok (tt, edi ++ out).
Proof.
  unfold member_block, member_segments, member_nm1, member_ins, plan_segments.
  destruct (truthy (_strip (m !! "Subscriber_ID"))); cbn [negb].
  2:{ unfold mret, asm_ret. cbn [mbind result_bind]. by rewrite app_nil_r. }
  rewrite bind_call. destruct (yyyymmdd (_strip (m !! "Sub_DOB"))) as [dob|e]; [|done].
  rewrite bind_call.
  destruct (yyyymmdd (_strip (m !! "Coverage_Start"))) as [cov_start|e]; [|done].
  rewrite bind_call.
  destruct (yyyymmdd (_strip (m !! "Coverage_End"))) as [cov_end|e]; [|done].
  cbn [mbind result_bind].
  rewrite bind_append, if_append, bind_append, !bind_when_append.
  destruct (truthy (_strip (m !! "Plan_Key"))); cbn [when].
  - destruct (plan_map !! _); [|done].
    rewrite bind_assoc_run, bind_append, bind_assoc_run, bind_when_append,
      bind_when_append.
    rewrite (for_each_run _ _ _ _ (dependent_block_run _ _ _ _ _)).
    cbn [mbind result_bind].
    destruct (collect _ _); [|done].
    cbn [mbind result_bind]. by rewrite <- !app_assoc.
  - rewrite bind_ret_run.
    rewrite (for_each_run _ _ _ _ (dependent_block_run _ _ _ _ _)).
    cbn [mbind result_bind].
    destruct (collect _ _); [|done].
    cbn [mbind result_bind]. by rewrite <- !app_assoc.
Qed.
End AssemblerFacts.

(** ** Rendered segments *)

Lemma str_app_assoc (a b c : string) : (a +:+ b) +:+ c = a +:+ (b +:+ c).
Proof.
  induction a as [|x a IH]; [done|].
  change ((String x a +:+ b) +:+ c) with (String x ((a +:+ b) +:+ c)).
  by rewrite IH.
Qed.

Lemma split_on_nonempty sep s : split_on sep s ≠ [].
Proof.
  destruct s as [|c s]; cbn [split_on]; [done|].
  destruct (decide (c = sep)); [done|]. by destruct (split_on sep s).
Qed.

Lemma split_on_prefix sep a r :
  str_all (λ c, bool_decide (c ≠ sep)) a = true →
  split_on sep (a +:+ String sep r) = a :: split_on sep r.
Proof.
  induction a as [|c a IH]; intros Ha.
  - change ("" +:+ String sep r) with (String sep r). cbn [split_on].
    by rewrite decide_True.
  - cbn [str_all] in Ha. apply andb_true_iff in Ha as [Hc Ha].
    apply bool_decide_eq_true in Hc.
    change (String c a +:+ String sep r) with (String c (a +:+ String sep r)).
    cbn [split_on]. rewrite decide_False by done. by rewrite (IH Ha).
Qed.

Lemma split_on_prefix' sep a r :
  str_all (λ c, bool_decide (c ≠ sep)) a = true →
  split_on sep (a +:+ String sep "" +:+ r) = a :: split_on sep r.
Proof. apply split_on_prefix. Qed.

Lemma string_of_uint_digits d : str_all is_digit (NilEmpty.string_of_uint d) = true.
Proof. induction d; cbn [NilEmpty.string_of_uint str_all]; by rewrite ?IHd. Qed.

Lemma digits_val_acc_uint d acc :
  digits_val_acc (Z.of_nat acc) (NilEmpty.string_of_uint d) = Z.of_nat (Nat.of_uint_acc d acc).
Proof.
  revert acc. induction d; intros acc; cbn [NilEmpty.string_of_uint digits_val_acc Nat.of_uint_acc];
    [done|..]; rewrite ?Nat.tail_mul_spec, <- IHd; f_equal; unfold digit_val, code; cbn; lia.
Qed.

(** The decimal text of a natural number reads back as that number. *)
Lemma digits_val_str_nat n : digits_val (str_nat n) = Z.of_nat n.
Proof.
  unfold digits_val, str_nat. rewrite (digits_val_acc_uint _ 0).
  change (Nat.of_uint_acc (Nat.to_uint n) 0) with (Nat.of_uint (Nat.to_uint n)).
  by rewrite Unsigned.of_to.
Qed.

Lemma str_Z_nonneg z : 0 ≤ z → str_Z z = str_nat (Z.to_nat z).
Proof. intros H. unfold str_Z. destruct (z <? 0) eqn:E; [lia|done]. Qed.

Lemma first_data_element_segs tag x rest :
  str_all (λ c, bool_decide (c ≠ "*"%char)) tag = true →
  str_all (λ c, bool_decide (c ≠ "*"%char)) x = true →
  rest ≠ [] →
  first_data_element (segs (tag :: x :: rest)) = Some x.
Proof.
  intros Htag Hx Hrest. unfold first_data_element, segs, seg.
  destruct rest as [|y rest]; [done|].
  cbn [fmap list_fmap map join].
  change ELEM_SEP with (String "*" "").
  rewrite !str_app_assoc.
  rewrite (split_on_prefix' _ tag) by done.
  cbn [lookup list_lookup].
  rewrite (split_on_prefix' _ x) by done. done.
Qed.

(** ** The envelope and the trailer count *)

Lemma last_char_append_term x : last_char (x +:+ SEG_TERM) = Some "~"%char.
Proof.
  induction x as [|c x IH]; [done|].
  change (String c x +:+ SEG_TERM) with (String c (x +:+ SEG_TERM)).
  cbn [last_char]. rewrite IH.
  destruct (x +:+ SEG_TERM) eqn:E; [|done]. by destruct x.
Qed.

Lemma seg_not_placeholder l : seg l ≠ "SE_PLACEHOLDER".
Proof.
  intros H. pose proof (last_char_append_term
    (join ELEM_SEP (map (λ e, match e with Some v => v | None => "" end) l))) as HL.
  unfold seg in H. rewrite H in HL. discriminate.
Qed.

Lemma body_tag_not_placeholder s : body_tag s = true → s ≠ "SE_PLACEHOLDER".
Proof. intros H ->. discriminate. Qed.

Lemma startswith_first p c s : startswith (String c p) s = true → ∃ s', s = String c s'.
Proof.
  destruct s as [|b s]; cbn; [done|]. destruct (decide (c = b)) as [->|]; [|done]. eauto.
Qed.

Lemma body_tag_not_envelope s :
  body_tag s = true →
  startswith "ST*" s = false ∧ startswith "SE*" s = false.
Proof.
  unfold body_tag. cbn [existsb]. rewrite !orb_true_iff.
  intros H. destruct s as [|c s]; [done|].
  cbn [startswith].
  destruct (decide ("S"%char = c)) as [<-|]; [|done].
  exfalso. cbn in H. intuition discriminate.
Qed.

Lemma index_where_app_found (p : string → bool) l1 x l2 :
  Forall (λ s, p s = false) l1 → p x = true →
  index_where p (l1 ++ x :: l2) = Some (length l1).
Proof.
  intros H Hx. induction H as [|y l1 Hy _ IH]; cbn [app index_where length].
  - by rewrite Hx.
  - by rewrite Hy, IH.
Qed.

Lemma index_where_app_l (p : string → bool) l1 l2 i :
  index_where p l1 = Some i → index_where p (l1 ++ l2) = Some i.
Proof.
  revert i. induction l1 as [|y l1 IH]; intros i; cbn [app index_where]; [done|].
  destruct (p y); [done|].
  destruct (index_where p l1) as [j|]; [|done]. by rewrite (IH j eq_refl).
Qed.

Lemma patch_trailer_run tcn pre suffix st :
  index_where (startswith ("ST" +:+ ELEM_SEP)) pre = Some st →
  Forall (λ s, s ≠ "SE_PLACEHOLDER") pre →
  patch_trailer tcn (pre ++ "SE_PLACEHOLDER" :: suffix) =
  Ok (tt, pre ++ segs ["SE"; str_Z (Z.of_nat (length pre) - Z.of_nat st + 1); tcn]
                 :: suffix).
Proof.
  intros Hst Hpre. unfold patch_trailer.
  rewrite (index_where_app_l _ _ _ _ Hst).
  rewrite index_where_app_found.
  - f_equal. f_equal.
    rewrite <- (Nat.add_0_r (length pre)) at 1.
    by rewrite (insert_app_r pre).
  - eapply Forall_impl; [exact Hpre|]. intros s Hs. by apply bool_decide_eq_false.
  - by apply bool_decide_eq_true.
Qed.

Lemma opt_seg_Forall (P : string → Prop) b s : P s → Forall P (opt_seg b s).
Proof. intros H. destruct b; repeat constructor; done. Qed.

Lemma plan_segments_tagged plan_map key tier start_ end_ out :
  plan_segments plan_map key tier start_ end_ = Ok out →
  Forall (λ s, body_tag s = true) out.
Proof.
  unfold plan_segments. destruct (truthy key); [|intros [= <-]; constructor].
  destruct (plan_map !! key); [|done]. intros [= <-].
  repeat first [apply Forall_app; split | apply opt_seg_Forall | apply Forall_cons; split
               | apply Forall_nil ]; reflexivity.
Qed.

Section AssemblerOutput.
Variable yyyymmdd : string → result string.

Lemma dependent_segments_tagged plan_map sub_id cov_start cov_end plan_key d out :
  dependent_segments yyyymmdd plan_map sub_id cov_start cov_end plan_key d = Ok out →
  Forall (λ s, body_tag s = true) out.
Proof.
  unfold dependent_segments.
  destruct (yyyymmdd (_strip (d !! "Dep_DOB"))) as [d_dob|e]; [|done].
  destruct (yyyymmdd (_strip (d !! "Coverage_Start"))) as [own_start|e]; [|done].
  destruct (yyyymmdd (_strip (d !! "Coverage_End"))) as [own_end|e]; [|done].
  cbn [mbind result_bind].
  destruct (plan_segments _ _ _ _ _) as [tail|e] eqn:Htail; [|done].
  cbn [mbind result_bind]. intros [= <-].
  apply plan_segments_tagged in Htail.
  repeat first [apply Forall_app; split | apply opt_seg_Forall | apply Forall_cons; split
               | exact Htail ]; try reflexivity.
  unfold dependent_nm1. by destruct (isdigit _ && _).
Qed.

Lemma member_segments_tagged plan_map deps_by_sub m out :
  member_segments yyyymmdd plan_map deps_by_sub m = Ok out →
  Forall (λ s, body_tag s = true) out.
Proof.
  unfold member_segments.
  destruct (truthy (_strip (m !! "Subscriber_ID"))); cbn [negb];
    [|intros [= <-]; constructor].
  destruct (yyyymmdd (_strip (m !! "Sub_DOB"))) as [dob|e]; [|done].
  destruct (yyyymmdd (_strip (m !! "Coverage_Start"))) as [cov_start|e]; [|done].
  destruct (yyyymmdd (_strip (m !! "Coverage_End"))) as [cov_end|e]; [|done].
  cbn [mbind result_bind].
  destruct (plan_segments _ _ _ _ _) as [tail|e] eqn:Htail; [|done].
  cbn [mbind result_bind].
  destruct (collect _ _) as [deps_out|e] eqn:Hdeps; [|done].
  cbn [mbind result_bind]. intros [= <-].
  apply plan_segments_tagged in Htail.
  apply collect_Forall with (P := λ s, body_tag s = true) in Hdeps;
    [|intros x o; apply dependent_segments_tagged].
  repeat first [apply Forall_app; split | apply opt_seg_Forall | apply Forall_cons; split
               | exact Htail | exact Hdeps ]; try reflexivity.
  unfold member_nm1. by destruct (isdigit _ && _).
Qed.

Lemma assemble_run clock settings plans members deps :
  assemble yyyymmdd clock settings plans members deps =
  as_of ← yyyymmdd (_strip (Some (default (today_iso clock) (settings !! "As_Of_Date"))));
  body ← collect (member_segments yyyymmdd (build_plan_map plans) (build_deps_by_sub deps))
            members;
  Ok (envelope_header clock settings as_of ++ body
      ++ envelope_trailer settings (Z.of_nat (length body) + 6)).
Proof.
  unfold assemble.
  destruct (yyyymmdd _) as [as_of|e]; [|done]. cbn [mbind result_bind].
  unfold exec. rewrite !bind_append. cbv zeta.
  rewrite bind_run, (for_each_run _ _ _ _ (member_block_run _ _ _)).
  destruct (collect _ members) as [body|e] eqn:Hbody; [|done]. cbn [mbind result_bind].
  rewrite !bind_append, <- !app_assoc. cbn [app].
  apply collect_Forall with (P := λ s, body_tag s = true) in Hbody;
    [|intros x o; apply member_segments_tagged].
  change (patch_trailer ?t _) with
    (patch_trailer t ((envelope_header clock settings as_of ++ body) ++
       "SE_PLACEHOLDER" :: [segs ["GE"; "1"; gcn_of settings];
                            segs ["IEA"; "1"; icn_of settings]])).
  rewrite (patch_trailer_run _ _ _ 2).
  - rewrite length_app. cbn [length envelope_header].
    replace (Z.of_nat (7 + length body) - Z.of_nat 2 + 1) with (Z.of_nat (length body) + 6)
      by lia.
    by rewrite <- app_assoc.
  - reflexivity.
  - apply Forall_app. split.
    + repeat (apply Forall_cons; split; [apply seg_not_placeholder|]). constructor.
    + eapply Forall_impl; [exact Hbody|]. apply body_tag_not_placeholder.
Qed.
End AssemblerOutput.

Lemma envelope_header_facts clock settings as_of :
  let h := envelope_header clock settings as_of in
  length h = 7%nat
  ∧ index_where (startswith "ST*") h = Some 2%nat
  ∧ h !! 2%nat = Some (st_segment settings)
  ∧ Forall (λ s, startswith "SE*" s = false) h
  ∧ Forall (λ s, s ≠ "SE_PLACEHOLDER") h.
Proof.
  repeat split.
  - repeat (apply Forall_cons; split; [reflexivity|]). constructor.
  - repeat (apply Forall_cons; split; [apply seg_not_placeholder|]). constructor.
Qed.

Example sample_run :
  assemble Generator.yyyymmdd sample_clock sample_settings [sample_plan]
    [sample_member] [sample_dependent] = Ok sample_output.
Proof. vm_compute. reflexivity. Qed.

(** C1: in every generated segment list the transaction-set header is the
    first segment beginning with ST, the trailer is the first beginning with
    SE, and the count written as the first data element of the trailer is
    the number of segments from the header through the trailer inclusive,
    that is (index of the trailer - index of the header) + 1, whatever the
    member and dependent rows are. *)
Theorem C1_trailer_count (yyyymmdd : string → result string) (clock : Clock)
    (settings : gmap string string) (plans members deps : list (gmap string string))
    (edi : list string) :
  assemble yyyymmdd clock settings plans members deps = Ok edi →
  ∃ (st se : nat) (count : Z),
    index_where (startswith "ST*") edi = Some st
    ∧ edi !! st = Some (st_segment settings)
    ∧ index_where (startswith "SE*") edi = Some se
    ∧ edi !! se = Some (se_segment settings count)
    ∧ first_data_element (se_segment settings count) = Some (str_Z count)
    ∧ digits_val (str_Z count) = count
    ∧ count = Z.of_nat se - Z.of_nat st + 1
    ∧ count = Z.of_nat (length (span_segments edi st se)).
Proof.
  rewrite assemble_run.
  destruct (yyyymmdd _) as [as_of|e]; [|done]. cbn [mbind result_bind].
  destruct (collect _ members) as [body|e] eqn:Hbody; [|done]. cbn [mbind result_bind].
  apply collect_Forall with (P := λ s, body_tag s = true) in Hbody;
    [|intros x o; apply member_segments_tagged].
  destruct (envelope_header_facts clock settings as_of) as (Hlen & Hst & Hst2 & Hse & _).
  set (h := envelope_header clock settings as_of) in *. clearbody h.
  intros [= <-].
  exists 2%nat, (7 + length body)%nat, (Z.of_nat (length body) + 6).
  assert (length (h ++ body) = (7 + length body)%nat) as Hlen'
    by (by rewrite length_app, Hlen).
  split; [by apply index_where_app_l|].
  split; [by apply lookup_app_l_Some|].
  split.
  { rewrite app_assoc. unfold envelope_trailer. rewrite <- Hlen'.
    apply index_where_app_found; [|done].
    apply Forall_app. split; [done|].
    eapply Forall_impl; [exact Hbody|]. intros s Hs.
    by destruct (body_tag_not_envelope s Hs). }
  split.
  { rewrite app_assoc. unfold envelope_trailer. by apply list_lookup_middle. }
  split.
  { unfold se_segment. apply first_data_element_segs; [done| |done].
    rewrite str_Z_nonneg by lia. unfold str_nat.
    eapply str_all_impl; [|apply string_of_uint_digits].
    intros c Hc. apply bool_decide_eq_true. intros ->. discriminate. }
  split.
  { rewrite str_Z_nonneg by lia. rewrite digits_val_str_nat. lia. }
  split; [lia|].
  unfold span_segments. rewrite length_take, length_drop, !length_app, Hlen.
  cbn [length envelope_trailer]. lia.
Qed.

Lemma C1_trailer_count_witness :
  ∃ (st se : nat) (count : Z),
    index_where (startswith "ST*") sample_output = Some st
    ∧ sample_output !! st = Some (st_segment sample_settings)
    ∧ index_where (startswith "SE*") sample_output = Some se
    ∧ sample_output !! se = Some (se_segment sample_settings count)
    ∧ first_data_element (se_segment sample_settings count) = Some (str_Z count)
    ∧ digits_val (str_Z count) = count
    ∧ count = Z.of_nat se - Z.of_nat st + 1
    ∧ count = Z.of_nat (length (span_segments sample_output st se)).
Proof.
  apply (C1_trailer_count Generator.yyyymmdd sample_clock sample_settings
           [sample_plan] [sample_member] [sample_dependent]).
  vm_compute. reflexivity.
Defined.

(** ** Joins, skipped rows and fatal errors *)

Lemma truthy_ne s : truthy s = true ↔ s ≠ "".
Proof. by destruct s. Qed.

Lemma truthy_false s : truthy s = false ↔ s = "".
Proof. by destruct s. Qed.

Lemma deps_by_sub_fold (acc : gmap string (list (gmap string string))) deps k :
  k ≠ "" →
  default [] (foldl (λ (deps_by_sub : gmap string (list (gmap string string))) d,
           let sid := _strip (d !! "Subscriber_ID") in
           if negb (truthy sid) then deps_by_sub
           else <[sid := default [] (deps_by_sub !! sid) ++ [d]]> deps_by_sub) acc deps !! k)
  = default [] (acc !! k) ++ filter (λ d, dep_sid d = k) deps.
Proof.
  intros Hk. revert acc. induction deps as [|d deps IH]; intros acc; cbn [foldl].
  - by rewrite filter_nil, app_nil_r.
  - rewrite IH, filter_cons. unfold dep_sid.
    destruct (truthy (_strip (d !! "Subscriber_ID"))) eqn:Ht; cbn [negb].
    + destruct (decide (_strip (d !! "Subscriber_ID") = k)) as [Heq|Hne].
      * rewrite Heq, lookup_insert_eq. cbn [default from_option]. unfold id at 1. by rewrite <- app_assoc.
      * by rewrite lookup_insert_ne.
    + apply truthy_false in Ht. rewrite decide_False; [done|]. by rewrite Ht.
Qed.

(** The index maps a subscriber identifier to the dependent rows filed under
    it, in input order. *)
Lemma deps_by_sub_lookup deps k :
  k ≠ "" →
  default [] (build_deps_by_sub deps !! k) = filter (λ d, dep_sid d = k) deps.
Proof. intros Hk. unfold build_deps_by_sub. by rewrite deps_by_sub_fold. Qed.

Lemma plan_map_fold (acc : gmap string (gmap string string)) plans k :
  k ≠ "" →
  foldl (λ (plan_map : gmap string (gmap string string)) r,
           let key := _strip (r !! "Plan_Key") in
           if truthy key then <[key := r]> plan_map else plan_map) acc plans !! k = None
  ↔ acc !! k = None ∧ Forall (λ r, _strip (r !! "Plan_Key") ≠ k) plans.
Proof.
  intros Hk. revert acc. induction plans as [|r plans IH]; intros acc; cbn [foldl].
  - split; [intros H; split; [done|constructor] | by intros [H _]].
  - rewrite IH, Forall_cons.
    destruct (truthy (_strip (r !! "Plan_Key"))) eqn:Ht.
    + destruct (decide (_strip (r !! "Plan_Key") = k)) as [->|Hne].
      * rewrite lookup_insert_eq. intuition congruence.
      * rewrite lookup_insert_ne by done. intuition congruence.
    + apply truthy_false in Ht. rewrite Ht. intuition congruence.
Qed.

(** A non-empty key is absent from [plan_map] exactly when no plan row
    carries it. *)
Lemma plan_map_lookup_None plans k :
  k ≠ "" →
  build_plan_map plans !! k = None ↔ Forall (λ r, _strip (r !! "Plan_Key") ≠ k) plans.
Proof.
  intros Hk. unfold build_plan_map. rewrite plan_map_fold by done.
  rewrite lookup_empty. intuition congruence.
Qed.

Lemma collect_skip {A} (f : A → result (list string)) l1 x l2 :
  f x = Ok [] → collect f (l1 ++ x :: l2) = collect f (l1 ++ l2).
Proof.
  intros Hx. rewrite !collect_app. cbn [collect]. rewrite Hx. cbn [mbind result_bind].
  destruct (collect f l1); [|done]. cbn [mbind result_bind].
  by destruct (collect f l2).
Qed.

Section MemberFacts.
Variable yyyymmdd : string → result string.

Lemma member_segments_skip plan_map deps_by_sub m :
  _strip (m !! "Subscriber_ID") = "" →
  member_segments yyyymmdd plan_map deps_by_sub m = Ok [].
Proof. intros H. unfold member_segments. by rewrite H. Qed.

(** The block of a member depends on the index only through the entry of
    that member's identifier. *)
Lemma member_segments_deps plan_map dbs1 dbs2 m :
  default [] (dbs1 !! _strip (m !! "Subscriber_ID"))
  = default [] (dbs2 !! _strip (m !! "Subscriber_ID")) →
  member_segments yyyymmdd plan_map dbs1 m = member_segments yyyymmdd plan_map dbs2 m.
Proof. intros H. unfold member_segments. by rewrite H. Qed.
End MemberFacts.

(** C6: a member row whose Subscriber_ID is empty after trimming appends
    nothing and raises nothing, whatever its other fields hold; the generated
    output (or the error of the run) is that of the input without the row. *)
Theorem C6_member_without_id_skipped (yyyymmdd : string → result string) (clock : Clock)
    (settings : gmap string string) (plans ms1 ms2 deps : list (gmap string string))
    (m : gmap string string) :
  _strip (m !! "Subscriber_ID") = "" →
  (∀ plan_map deps_by_sub edi,
     member_block yyyymmdd plan_map deps_by_sub m edi = Ok (tt, edi))
  ∧ assemble yyyymmdd clock settings plans (ms1 ++ m :: ms2) deps
    = assemble yyyymmdd clock settings plans (ms1 ++ ms2) deps.
Proof.
  intros Hid. split.
  - intros plan_map deps_by_sub edi.
    rewrite member_block_run, member_segments_skip by done.
    cbn [mbind result_bind]. by rewrite app_nil_r.
  - rewrite !assemble_run. by rewrite collect_skip by by apply member_segments_skip.
Qed.

(** C10: a dependent row whose Subscriber_ID is empty after trimming, or
    equals the Subscriber_ID of no member row, contributes nothing: the
    result of the run, segment list or error, is that of the input without
    the row. *)
Theorem C10_unmatched_dependent_omitted (yyyymmdd : string → result string)
    (clock : Clock) (settings : gmap string string)
    (plans members ds1 ds2 : list (gmap string string)) (d : gmap string string) :
  _strip (d !! "Subscriber_ID") = ""
  ∨ (∀ m, m ∈ members → _strip (m !! "Subscriber_ID") ≠ _strip (d !! "Subscriber_ID")) →
  assemble yyyymmdd clock settings plans members (ds1 ++ d :: ds2)
  = assemble yyyymmdd clock settings plans members (ds1 ++ ds2).
Proof.
  intros Hd. rewrite !assemble_run.
  destruct (yyyymmdd _) as [as_of|e]; [|done]. cbn [mbind result_bind].
  rewrite (collect_ext _ (member_segments yyyymmdd (build_plan_map plans)
                            (build_deps_by_sub (ds1 ++ ds2)))); [done|].
  intros m Hm.
  destruct (decide (_strip (m !! "Subscriber_ID") = "")) as [Hid|Hid].
  { by rewrite !member_segments_skip. }
  apply member_segments_deps.
  rewrite !deps_by_sub_lookup by done.
  rewrite !filter_app, filter_cons, decide_False; [done|].
  unfold dep_sid. destruct Hd as [Hd|Hd]; [by rewrite Hd|].
  intros Heq. by apply (Hd m Hm).
Qed.

Lemma nine_digits_iff ssn :
  isdigit ssn && (len ssn =? 9) = true
  ↔ String.length ssn = 9%nat ∧ str_all is_pydigit ssn = true.
Proof.
  unfold isdigit, len. rewrite !andb_true_iff, Z.eqb_eq.
  split.
  - intros [[_ Hd] Hl]. split; [lia|done].
  - intros [Hl Hd]. split; [split; [by destruct ssn|done]|lia].
Qed.

Section MemberHead.
Variable yyyymmdd : string → result string.

Lemma member_segments_head plan_map deps_by_sub m out :
  member_segments yyyymmdd plan_map deps_by_sub m = Ok out →
  _strip (m !! "Subscriber_ID") ≠ "" →
  ∃ rest, out = member_ins m :: member_nm1 m :: rest.
Proof.
  unfold member_segments. intros H Hid. apply truthy_ne in Hid. rewrite Hid in H.
  cbn [negb] in H.
  destruct (yyyymmdd (_strip (m !! "Sub_DOB"))) as [dob|e]; [|done].
  destruct (yyyymmdd (_strip (m !! "Coverage_Start"))) as [cov_start|e]; [|done].
  destruct (yyyymmdd (_strip (m !! "Coverage_End"))) as [cov_end|e]; [|done].
  cbn [mbind result_bind] in H.
  destruct (plan_segments _ _ _ _ _) as [tail|e]; [|done].
  cbn [mbind result_bind] in H.
  destruct (collect _ _) as [deps_out|e]; [|done].
  cbn [mbind result_bind] in H. injection H as <-. eauto.
Qed.
End MemberHead.

(** C4 (amended): in a generated segment list, the INS segment of every
    processed member is followed by its NM1 segment; that segment carries
    the qualifier 34 and the SSN when the trimmed SSN has exactly nine
    characters, each one accepted by [str.isdigit] (the digits 0 to 9, and
    also digit characters such as the superscript two), and the qualifier ZZ
    and the Subscriber_ID for any other SSN. *)
Theorem C4_subscriber_identity (yyyymmdd : string → result string) (clock : Clock)
    (settings : gmap string string) (plans members deps : list (gmap string string))
    (m : gmap string string) (edi : list string) :
  assemble yyyymmdd clock settings plans members deps = Ok edi →
  m ∈ members →
  _strip (m !! "Subscriber_ID") ≠ "" →
  let ssn := _strip (m !! "Subscriber_SSN") in
  let nm1 qualifier ident :=
    segs ["NM1"; "IL"; "1"; _strip (m !! "Sub_Last"); _strip (m !! "Sub_First");
          _strip (m !! "Sub_Middle"); ""; ""; qualifier; ident] in
  (String.length ssn = 9%nat ∧ str_all is_pydigit ssn = true →
   ∃ pre post, edi = pre ++ member_ins m :: nm1 "34" ssn :: post)
  ∧ (¬ (String.length ssn = 9%nat ∧ str_all is_pydigit ssn = true) →
     ∃ pre post,
       edi = pre ++ member_ins m :: nm1 "ZZ" (_strip (m !! "Subscriber_ID")) :: post).
Proof.
  rewrite assemble_run. intros Hrun Hm Hid ssn nm1.
  destruct (yyyymmdd _) as [as_of|e]; [|done]. cbn [mbind result_bind] in Hrun.
  destruct (collect _ members) as [body|e] eqn:Hbody; [|done].
  cbn [mbind result_bind] in Hrun. injection Hrun as <-.
  destruct (collect_elem _ _ _ _ Hbody Hm) as (o & pre & post & Ho & ->).
  destruct (member_segments_head _ _ _ _ _ Ho Hid) as [rest ->].
  assert (∀ x, x = member_nm1 m →
            ∃ pre0 post0, envelope_header clock settings as_of
              ++ (pre ++ (member_ins m :: member_nm1 m :: rest) ++ post)
              ++ envelope_trailer settings
                   (Z.of_nat (length (pre ++ (member_ins m :: member_nm1 m :: rest) ++ post)) + 6)
              = pre0 ++ member_ins m :: x :: post0) as Hpos.
  { intros x ->. eexists (envelope_header clock settings as_of ++ pre), _.
    rewrite <- !app_assoc. cbn [app]. reflexivity. }
  split; intros H9; apply Hpos; unfold member_nm1; fold ssn.
  - apply nine_digits_iff in H9. by rewrite H9.
  - destruct (isdigit ssn && (len ssn =? 9)) eqn:E; [|done].
    by apply nine_digits_iff in E.
Qed.

(** A prefix test that computes to [false] contradicts its being [true]. *)
Ltac prefix_clash H :=
  exfalso; revert H;
  match goal with |- ?b = true → False => change (false = true → False) end;
  discriminate.

Ltac forall_segments :=
  repeat first [ apply Forall_app_2 | apply Forall_cons_2 | apply Forall_nil_2
               | apply opt_seg_Forall ].

(** The loop body of a dependent, run with the values [cov_start],
    [cov_end] and [plan_key] handed down by the member loop: when the
    dependent's own coverage start (end, plan key) is empty, its date and
    benefit segments carry the value handed down, and when that value is
    empty too there is no such segment in what the body appends. *)
Lemma dependent_block_fallback (try_serial : string → option string → option string)
    (plan_map : gmap string (gmap string string))
    (sub_id cov_start cov_end plan_key : string) (d : gmap string string)
    (edi edi' : list string) :
  dependent_block (yyyymmdd_body try_serial) plan_map sub_id cov_start cov_end plan_key d edi
    = Ok (tt, edi') →
  let dtp code date := segs ["DTP"; code; "D8"; date] in
  let d_plan_key := str_or (_strip (d !! "Plan_Key")) plan_key in
  ∃ out, edi' = edi ++ out
    ∧ (_strip (d !! "Coverage_Start") = "" →
       (cov_start ≠ "" → dtp "356" cov_start ∈ out
                         ∧ (d_plan_key ≠ "" → dtp "348" cov_start ∈ out))
       ∧ Forall (λ s, startswith "DTP*356*" s = true ∨ startswith "DTP*348*" s = true →
                      cov_start ≠ "" ∧ (s = dtp "356" cov_start ∨ s = dtp "348" cov_start)) out)
    ∧ (_strip (d !! "Coverage_End") = "" →
       (cov_end ≠ "" → dtp "357" cov_end ∈ out
                       ∧ (d_plan_key ≠ "" → dtp "349" cov_end ∈ out))
       ∧ Forall (λ s, startswith "DTP*357*" s = true ∨ startswith "DTP*349*" s = true →
                      cov_end ≠ "" ∧ (s = dtp "357" cov_end ∨ s = dtp "349" cov_end)) out)
    ∧ (_strip (d !! "Plan_Key") = "" →
       (plan_key ≠ "" →
        ∃ pr, plan_map !! plan_key = Some pr
          ∧ segs ["HD"; "030"; "";
                  str_or (_strip (pr !! "HD_Insurance_Line_Code"))
                         (_strip (pr !! "Benefit_Type_Code"));
                  str_or (_strip (pr !! "HD_Plan_Coverage_Desc")) plan_key; ""] ∈ out)
       ∧ (plan_key = "" →
          Forall (λ s, startswith "HD*" s = false ∧ startswith "DTP*348*" s = false
                       ∧ startswith "DTP*349*" s = false) out)).
Proof.
  rewrite dependent_block_run. intros Hrun dtp d_plan_key.
  destruct (dependent_segments _ _ _ _ _ _ _) as [out|e] eqn:Hout; [|done].
  cbn [mbind result_bind] in Hrun. injection Hrun as <-.
  exists out. split; [done|].
  unfold dependent_segments in Hout.
  destruct (yyyymmdd_body try_serial (_strip (d !! "Dep_DOB"))) as [d_dob|e]; [|done].
  destruct (yyyymmdd_body try_serial (_strip (d !! "Coverage_Start")))
    as [own_start|e] eqn:Hs; [|done].
  destruct (yyyymmdd_body try_serial (_strip (d !! "Coverage_End")))
    as [own_end|e] eqn:He; [|done].
  cbn [mbind result_bind] in Hout. fold d_plan_key in Hout.
  destruct (plan_segments _ _ _ _ _) as [tail|e] eqn:Htail; [|done].
  cbn [mbind result_bind] in Hout. injection Hout as <-.
  unfold plan_segments in Htail.
  split; [|split].
  - intros Hown. rewrite Hown, yyyymmdd_body_empty in Hs. injection Hs as <-.
    change (str_or "" cov_start) with cov_start in *.
    split.
    + intros Hcs. apply truthy_ne in Hcs. rewrite Hcs in *. split.
      * set_solver.
      * intros Hk. apply truthy_ne in Hk. rewrite Hk in Htail.
        destruct (plan_map !! d_plan_key); [|done]. injection Htail as <-.
        set_solver.
    + assert (Forall (λ s, startswith "DTP*356*" s = true ∨ startswith "DTP*348*" s = true →
                cov_start ≠ "" ∧ (s = dtp "356" cov_start ∨ s = dtp "348" cov_start)) tail)
        as Htl.
      { destruct (truthy d_plan_key); [|injection Htail as <-; constructor].
        destruct (plan_map !! d_plan_key); [|done]. injection Htail as <-.
        destruct (truthy cov_start) eqn:Hcs; [apply truthy_ne in Hcs|];
          cbn [opt_seg]; forall_segments; try (intros [Hp|Hp]; prefix_clash Hp).
        intros _; split; [done|by right]. }
      unfold dependent_nm1. destruct (isdigit _ && _);
        (destruct (truthy cov_start) eqn:Hcs; [apply truthy_ne in Hcs|]);
        cbn [opt_seg]; forall_segments; try done;
        try (intros [Hp|Hp]; prefix_clash Hp).
      all: intros _; split; [done|by left].
  - intros Hown. rewrite Hown, yyyymmdd_body_empty in He. injection He as <-.
    change (str_or "" cov_end) with cov_end in *.
    split.
    + intros Hce. apply truthy_ne in Hce. rewrite Hce in *. split.
      * set_solver.
      * intros Hk. apply truthy_ne in Hk. rewrite Hk in Htail.
        destruct (plan_map !! d_plan_key); [|done]. injection Htail as <-.
        set_solver.
    + assert (Forall (λ s, startswith "DTP*357*" s = true ∨ startswith "DTP*349*" s = true →
                cov_end ≠ "" ∧ (s = dtp "357" cov_end ∨ s = dtp "349" cov_end)) tail) as Htl.
      { destruct (truthy d_plan_key); [|injection Htail as <-; constructor].
        destruct (plan_map !! d_plan_key); [|done]. injection Htail as <-.
        destruct (truthy cov_end) eqn:Hce; [apply truthy_ne in Hce|];
          cbn [opt_seg]; forall_segments; try (intros [Hp|Hp]; prefix_clash Hp).
        intros _; split; [done|by right]. }
      unfold dependent_nm1. destruct (isdigit _ && _);
        (destruct (truthy cov_end) eqn:Hce; [apply truthy_ne in Hce|]);
        cbn [opt_seg]; forall_segments; try done;
        try (intros [Hp|Hp]; prefix_clash Hp).
      all: intros _; split; [done|by left].
  - intros Hown. unfold d_plan_key in *. rewrite Hown in *.
    change (str_or "" plan_key) with plan_key in *.
    split.
    + intros Hk. apply truthy_ne in Hk. rewrite Hk in Htail.
      destruct (plan_map !! plan_key) as [pr|]; [|done]. injection Htail as <-.
      exists pr. split; [done|]. set_solver.
    + intros ->. cbn in Htail. injection Htail as <-.
      unfold dependent_nm1. destruct (isdigit _ && _);
        forall_segments; repeat split; reflexivity.
Qed.

Section DependentBlocks.
Variable yyyymmdd : string → result string.

(** The block of a processed member ends with the blocks of the dependents
    filed under its identifier, each built with the member's own normalized
    coverage dates and its plan key. *)
Lemma member_segments_dependents plan_map deps_by_sub m out :
  member_segments yyyymmdd plan_map deps_by_sub m = Ok out →
  _strip (m !! "Subscriber_ID") ≠ "" →
  ∃ own cov_start cov_end deps_out,
    yyyymmdd (_strip (m !! "Coverage_Start")) = Ok cov_start
    ∧ yyyymmdd (_strip (m !! "Coverage_End")) = Ok cov_end
    ∧ out = own ++ deps_out
    ∧ collect (dependent_segments yyyymmdd plan_map (_strip (m !! "Subscriber_ID"))
                 cov_start cov_end (_strip (m !! "Plan_Key")))
        (default [] (deps_by_sub !! _strip (m !! "Subscriber_ID"))) = Ok deps_out.
Proof.
  unfold member_segments. intros H Hid. apply truthy_ne in Hid. rewrite Hid in H.
  cbn [negb] in H.
  destruct (yyyymmdd (_strip (m !! "Sub_DOB"))) as [dob|e]; [|done].
  destruct (yyyymmdd (_strip (m !! "Coverage_Start"))) as [cov_start|e]; [|done].
  destruct (yyyymmdd (_strip (m !! "Coverage_End"))) as [cov_end|e]; [|done].
  cbn [mbind result_bind] in H.
  destruct (plan_segments _ _ _ _ _) as [tail|e]; [|done].
  cbn [mbind result_bind] in H.
  destruct (collect (dependent_segments _ _ _ _ _ _) _) as [deps_out|e] eqn:Hdeps;
    [|done].
  cbn [mbind result_bind] in H.
  exists ([member_ins m; member_nm1 m]
          ++ opt_seg (truthy (_strip (m !! "Sub_Address1")))
               (segs ["N3"; _strip (m !! "Sub_Address1")])
          ++ opt_seg (truthy (_strip (m !! "Sub_City")) || truthy (_strip (m !! "Sub_State"))
                      || truthy (_strip (m !! "Sub_Zip")))
               (segs ["N4"; _strip (m !! "Sub_City"); _strip (m !! "Sub_State");
                      _strip (m !! "Sub_Zip")])
          ++ opt_seg (truthy dob || truthy (_strip (m !! "Sub_Gender")))
               (segs ["DMG"; "D8"; dob; _strip (m !! "Sub_Gender")])
          ++ opt_seg (truthy cov_start) (segs ["DTP"; "356"; "D8"; cov_start])
          ++ opt_seg (truthy cov_end) (segs ["DTP"; "357"; "D8"; cov_end])
          ++ tail), cov_start, cov_end, deps_out.
  split; [done|]. split; [done|]. split; [|exact Hdeps].
  rewrite <- !app_assoc. symmetry. by injection H.
Qed.

Lemma dependent_segments_head plan_map sub_id cov_start cov_end plan_key d out :
  dependent_segments yyyymmdd plan_map sub_id cov_start cov_end plan_key d = Ok out →
  ∃ rest,
    out = segs ["INS"; "N"; relationship_code (_strip (d !! "Relationship"));
                maintenance_code (upper (_strip (Some (opt_or (d !! "Action") "ADD"))));
                "XN"; "A"; "E"]
          :: dependent_nm1 sub_id d :: rest.
Proof.
  unfold dependent_segments.
  destruct (yyyymmdd (_strip (d !! "Dep_DOB"))) as [d_dob|e]; [|done].
  destruct (yyyymmdd (_strip (d !! "Coverage_Start"))) as [own_start|e]; [|done].
  destruct (yyyymmdd (_strip (d !! "Coverage_End"))) as [own_end|e]; [|done].
  cbn [mbind result_bind].
  destruct (plan_segments _ _ _ _ _) as [tail|e]; [|done].
  cbn [mbind result_bind]. intros H.
  eexists. symmetry. by injection H.
Qed.

(** In a generated list, the block of every dependent filed under a
    processed member is what the loop body appends when run with that
    member's normalized coverage dates and plan key. *)
Lemma assemble_dependent_block clock settings plans members deps m d edi :
  assemble yyyymmdd clock settings plans members deps = Ok edi →
  m ∈ members → d ∈ deps →
  _strip (m !! "Subscriber_ID") ≠ "" →
  dep_sid d = _strip (m !! "Subscriber_ID") →
  ∃ cov_start cov_end pre out post,
    yyyymmdd (_strip (m !! "Coverage_Start")) = Ok cov_start
    ∧ yyyymmdd (_strip (m !! "Coverage_End")) = Ok cov_end
    ∧ edi = pre ++ out ++ post
    ∧ dependent_segments yyyymmdd (build_plan_map plans) (_strip (m !! "Subscriber_ID"))
        cov_start cov_end (_strip (m !! "Plan_Key")) d = Ok out.
Proof.
  rewrite assemble_run. intros Hrun Hm Hd Hid Hsid.
  destruct (yyyymmdd (_strip (Some _))) as [as_of|e]; [|done].
  cbn [mbind result_bind] in Hrun.
  destruct (collect _ members) as [body|e] eqn:Hbody; [|done].
  cbn [mbind result_bind] in Hrun.
  assert (edi = envelope_header clock settings as_of ++ body
                ++ envelope_trailer settings (Z.of_nat (length body) + 6)) as ->
    by congruence.
  clear Hrun.
  destruct (collect_elem _ _ _ _ Hbody Hm) as (o & pre & post & Ho & Hb).
  destruct (member_segments_dependents _ _ _ _ Ho Hid)
    as (own & cov_start & cov_end & deps_out & Hcs & Hce & -> & Hdeps).
  rewrite deps_by_sub_lookup in Hdeps by done.
  assert (d ∈ filter (λ d0, dep_sid d0 = _strip (m !! "Subscriber_ID")) deps) as Hin.
  { by apply list_elem_of_filter. }
  destruct (collect_elem _ _ _ _ Hdeps Hin) as (od & pre' & post' & Hod & ->).
  exists cov_start, cov_end,
    (envelope_header clock settings as_of ++ pre ++ own ++ pre'), od,
    (post' ++ post ++ envelope_trailer settings (Z.of_nat (length body) + 6)).
  split; [done|]. split; [done|]. split; [|done].
  rewrite Hb, <- ?app_assoc. reflexivity.
Qed.
End DependentBlocks.

(** C5: in a generated segment list, every dependent row filed under a
    processed member has its block built with the values of that member:
    the block is what the loop body appends when it is handed the member's
    normalized Coverage_Start and Coverage_End and the member's Plan_Key,
    and it begins with the dependent's INS and NM1 segments.  When the
    dependent's own coverage start (end, plan key) is empty, its DTP 356 and
    DTP 348 (DTP 357 and DTP 349, HD) segments carry the member's value, and
    when the member's value is empty too the block holds no such segment. *)
Theorem C5_dependent_fallback (try_serial : string → option string → option string)
    (clock : Clock) (settings : gmap string string)
    (plans members deps : list (gmap string string))
    (m d : gmap string string) (edi : list string) :
  assemble (yyyymmdd_body try_serial) clock settings plans members deps = Ok edi →
  m ∈ members → d ∈ deps →
  _strip (m !! "Subscriber_ID") ≠ "" →
  dep_sid d = _strip (m !! "Subscriber_ID") →
  let dtp code date := segs ["DTP"; code; "D8"; date] in
  let sub_id := _strip (m !! "Subscriber_ID") in
  let plan_key := _strip (m !! "Plan_Key") in
  let plan_map := build_plan_map plans in
  let d_plan_key := str_or (_strip (d !! "Plan_Key")) plan_key in
  ∃ cov_start cov_end pre out post,
    yyyymmdd_body try_serial (_strip (m !! "Coverage_Start")) = Ok cov_start
    ∧ yyyymmdd_body try_serial (_strip (m !! "Coverage_End")) = Ok cov_end
    ∧ edi = pre ++ out ++ post
    ∧ dependent_block (yyyymmdd_body try_serial) plan_map sub_id cov_start cov_end
        plan_key d [] = Ok (tt, out)
    ∧ (∃ rest,
         out = segs ["INS"; "N"; relationship_code (_strip (d !! "Relationship"));
                     maintenance_code
                       (upper (_strip (Some (opt_or (d !! "Action") "ADD"))));
                     "XN"; "A"; "E"]
               :: dependent_nm1 sub_id d :: rest)
    ∧ (_strip (d !! "Coverage_Start") = "" →
       (cov_start ≠ "" → dtp "356" cov_start ∈ out
                         ∧ (d_plan_key ≠ "" → dtp "348" cov_start ∈ out))
       ∧ Forall (λ s, startswith "DTP*356*" s = true ∨ startswith "DTP*348*" s = true →
                      cov_start ≠ "" ∧ (s = dtp "356" cov_start ∨ s = dtp "348" cov_start)) out)
    ∧ (_strip (d !! "Coverage_End") = "" →
       (cov_end ≠ "" → dtp "357" cov_end ∈ out
                       ∧ (d_plan_key ≠ "" → dtp "349" cov_end ∈ out))
       ∧ Forall (λ s, startswith "DTP*357*" s = true ∨ startswith "DTP*349*" s = true →
                      cov_end ≠ "" ∧ (s = dtp "357" cov_end ∨ s = dtp "349" cov_end)) out)
    ∧ (_strip (d !! "Plan_Key") = "" →
       (plan_key ≠ "" →
        ∃ pr, plan_map !! plan_key = Some pr
          ∧ segs ["HD"; "030"; "";
                  str_or (_strip (pr !! "HD_Insurance_Line_Code"))
                         (_strip (pr !! "Benefit_Type_Code"));
                  str_or (_strip (pr !! "HD_Plan_Coverage_Desc")) plan_key; ""] ∈ out)
       ∧ (plan_key = "" →
          Forall (λ s, startswith "HD*" s = false ∧ startswith "DTP*348*" s = false
                       ∧ startswith "DTP*349*" s = false) out)).
Proof.
  intros Hrun Hm Hd Hid Hsid dtp sub_id plan_key plan_map d_plan_key.
  destruct (assemble_dependent_block _ _ _ _ _ _ _ _ _ Hrun Hm Hd Hid Hsid)
    as (cov_start & cov_end & pre & out & post & Hcs & Hce & -> & Hout).
  exists cov_start, cov_end, pre, out, post.
  split; [done|]. split; [done|]. split; [done|].
  assert (dependent_block (yyyymmdd_body try_serial) plan_map sub_id cov_start cov_end
            plan_key d [] = Ok (tt, out)) as Hblock.
  { rewrite dependent_block_run. fold plan_map sub_id plan_key in Hout.
    by rewrite Hout. }
  split; [exact Hblock|].
  split; [exact (dependent_segments_head _ _ _ _ _ _ _ _ Hout)|].
  pose proof (dependent_block_fallback try_serial plan_map sub_id cov_start cov_end
                plan_key d [] out Hblock) as Hfb.
  cbv zeta in Hfb. destruct Hfb as (out' & Heq & H1 & H2 & H3).
  cbn [app] in Heq. subst out'. done.
Qed.

Lemma collect_raise_inv {A} (f : A → result (list string)) l e :
  collect f l = Raise e → ∃ x, x ∈ l ∧ f x = Raise e.
Proof.
  induction l as [|y l IH]; cbn [collect]; [done|].
  destruct (f y) as [a|e'] eqn:Hy; cbn [mbind result_bind].
  - destruct (collect f l) as [b|e'']; [done|]. cbn [mbind result_bind].
    intros [= ->]. destruct (IH eq_refl) as (x & Hx & Hfx).
    exists x. split; [by right|done].
  - intros [= ->]. exists y. split; [by left|done].
Qed.

Lemma plan_segments_raise_inv plan_map key tier start_ end_ e :
  plan_segments plan_map key tier start_ end_ = Raise e →
  key ≠ "" ∧ plan_map !! key = None ∧ e = KeyError (plan_key_msg key).
Proof.
  unfold plan_segments. destruct (truthy key) eqn:Hk; [|done].
  apply truthy_ne in Hk. destruct (plan_map !! key); [done|]. by intros [= <-].
Qed.

Lemma plan_segments_missing plan_map key tier start_ end_ :
  key ≠ "" → plan_map !! key = None →
  plan_segments plan_map key tier start_ end_ = Raise (KeyError (plan_key_msg key)).
Proof.
  intros Hk Hnone. unfold plan_segments. apply truthy_ne in Hk. by rewrite Hk, Hnone.
Qed.

Section FatalErrors.
Variable yyyymmdd : string → result string.

Lemma fatal_mono dates dates' plan_map e :
  dates ⊆ dates' → fatal yyyymmdd dates plan_map e → fatal yyyymmdd dates' plan_map e.
Proof.
  intros Hsub [(s & Hs & Hr)|Hk]; [left|by right].
  exists s. split; [by apply Hsub|done].
Qed.

Lemma dependent_segments_raise_inv plan_map sub_id cov_start cov_end plan_key d e :
  dependent_segments yyyymmdd plan_map sub_id cov_start cov_end plan_key d = Raise e →
  fatal yyyymmdd (dependent_dates d) plan_map e.
Proof.
  unfold dependent_segments, fatal, dependent_dates.
  destruct (yyyymmdd (_strip (d !! "Dep_DOB"))) as [d_dob|e1] eqn:H1;
    [|intros [= <-]; left; eexists; split; [|exact H1]; set_solver].
  destruct (yyyymmdd (_strip (d !! "Coverage_Start"))) as [own_start|e1] eqn:H2;
    [|intros [= <-]; left; eexists; split; [|exact H2]; set_solver].
  destruct (yyyymmdd (_strip (d !! "Coverage_End"))) as [own_end|e1] eqn:H3;
    [|intros [= <-]; left; eexists; split; [|exact H3]; set_solver].
  cbn [mbind result_bind].
  destruct (plan_segments _ _ _ _ _) as [tail|e1] eqn:Htail; [done|].
  cbn [mbind result_bind]. intros [= <-].
  apply plan_segments_raise_inv in Htail. right. eauto.
Qed.

Lemma member_segments_raise_inv plan_map deps_by_sub m e :
  member_segments yyyymmdd plan_map deps_by_sub m = Raise e →
  fatal yyyymmdd
    (member_dates m
     ++ (default [] (deps_by_sub !! _strip (m !! "Subscriber_ID")) ≫= dependent_dates))
    plan_map e.
Proof.
  unfold member_segments, member_dates.
  destruct (truthy (_strip (m !! "Subscriber_ID"))); cbn [negb]; [|done].
  destruct (yyyymmdd (_strip (m !! "Sub_DOB"))) as [dob|e1] eqn:H1;
    [|intros [= <-]; left; eexists; split; [|exact H1]; set_solver].
  destruct (yyyymmdd (_strip (m !! "Coverage_Start"))) as [cov_start|e1] eqn:H2;
    [|intros [= <-]; left; eexists; split; [|exact H2]; set_solver].
  destruct (yyyymmdd (_strip (m !! "Coverage_End"))) as [cov_end|e1] eqn:H3;
    [|intros [= <-]; left; eexists; split; [|exact H3]; set_solver].
  cbn [mbind result_bind].
  destruct (plan_segments _ _ _ _ _) as [tail|e1] eqn:Htail; cbn [mbind result_bind].
  - destruct (collect _ _) as [deps_out|e1] eqn:Hdeps; [done|].
    cbn [mbind result_bind]. intros [= <-].
    apply collect_raise_inv in Hdeps as (d & Hin & Hd).
    apply dependent_segments_raise_inv in Hd.
    eapply fatal_mono; [|exact Hd].
    intros s Hs. apply elem_of_app. right. apply list_elem_of_bind. eauto.
  - intros [= <-]. apply plan_segments_raise_inv in Htail. right. eauto.
Qed.

Lemma dependent_segments_missing plan_map sub_id cov_start cov_end plan_key d :
  _strip (d !! "Plan_Key") ≠ "" →
  plan_map !! _strip (d !! "Plan_Key") = None →
  is_ok (dependent_segments yyyymmdd plan_map sub_id cov_start cov_end plan_key d) = false.
Proof.
  intros Hk Hnone. unfold dependent_segments.
  destruct (yyyymmdd (_strip (d !! "Dep_DOB"))); [|done].
  destruct (yyyymmdd (_strip (d !! "Coverage_Start"))); [|done].
  destruct (yyyymmdd (_strip (d !! "Coverage_End"))); [|done].
  cbn [mbind result_bind].
  assert (str_or (_strip (d !! "Plan_Key")) plan_key = _strip (d !! "Plan_Key")) as ->.
  { unfold str_or. apply truthy_ne in Hk. by rewrite Hk. }
  by rewrite plan_segments_missing.
Qed.

Lemma member_segments_missing plan_map deps_by_sub m :
  _strip (m !! "Subscriber_ID") ≠ "" →
  (_strip (m !! "Plan_Key") ≠ "" ∧ plan_map !! _strip (m !! "Plan_Key") = None)
  ∨ (∃ d, d ∈ default [] (deps_by_sub !! _strip (m !! "Subscriber_ID"))
          ∧ _strip (d !! "Plan_Key") ≠ ""
          ∧ plan_map !! _strip (d !! "Plan_Key") = None) →
  is_ok (member_segments yyyymmdd plan_map deps_by_sub m) = false.
Proof.
  intros Hid Hmiss. unfold member_segments. apply truthy_ne in Hid. rewrite Hid.
  cbn [negb].
  destruct (yyyymmdd (_strip (m !! "Sub_DOB"))); [|done].
  destruct (yyyymmdd (_strip (m !! "Coverage_Start"))) as [cov_start|]; [|done].
  destruct (yyyymmdd (_strip (m !! "Coverage_End"))) as [cov_end|]; [|done].
  cbn [mbind result_bind].
  destruct Hmiss as [[Hk Hnone]|(d & Hd & Hk & Hnone)].
  - by rewrite plan_segments_missing.
  - destruct (plan_segments _ _ _ _ _); [|done]. cbn [mbind result_bind].
    pose proof (collect_raise
      (dependent_segments yyyymmdd plan_map (_strip (m !! "Subscriber_ID"))
         cov_start cov_end (_strip (m !! "Plan_Key"))) _ d Hd
      (dependent_segments_missing _ _ _ _ _ _ Hk Hnone)) as Hc.
    by destruct (collect _ _).
Qed.

Lemma assemble_raise_inv clock settings plans members deps e :
  assemble yyyymmdd clock settings plans members deps = Raise e →
  fatal yyyymmdd (input_dates clock settings members deps) (build_plan_map plans) e.
Proof.
  rewrite assemble_run. unfold input_dates.
  destruct (yyyymmdd _) as [as_of|e1] eqn:H1;
    [|intros [= <-]; left; eexists; split; [|exact H1]; by left].
  cbn [mbind result_bind].
  destruct (collect _ members) as [body|e1] eqn:Hbody; [done|].
  cbn [mbind result_bind]. intros [= <-].
  apply collect_raise_inv in Hbody as (m & Hm & Hr).
  assert (_strip (m !! "Subscriber_ID") ≠ "") as Hid.
  { intros Hid. by rewrite member_segments_skip in Hr. }
  apply member_segments_raise_inv in Hr.
  eapply fatal_mono; [|exact Hr].
  intros s Hs. right. apply elem_of_app in Hs as [Hs|Hs]; apply elem_of_app.
  - left. apply list_elem_of_bind. eauto.
  - right. apply list_elem_of_bind in Hs as (d & Hs & Hd).
    rewrite deps_by_sub_lookup in Hd by done.
    apply list_elem_of_filter in Hd as [_ Hd].
    apply list_elem_of_bind. eauto.
Qed.
End FatalErrors.

(** C2 (amended): when a member row with a non-empty Subscriber_ID, or a
    dependent row filed under such a member, carries a non-empty plan key
    that no row of Plans has, the run produces no segment list: it ends in
    a fatal error, which is the lookup error naming a non-empty plan key
    absent from the Plans sheet, unless the normalizer rejects one of the
    date texts of the input first, in which case it is that error. *)
Theorem C2_missing_plan_key_is_fatal (yyyymmdd : string → result string)
    (clock : Clock) (settings : gmap string string)
    (plans members deps : list (gmap string string)) (k : string) :
  k ≠ "" →
  Forall (λ r, _strip (r !! "Plan_Key") ≠ k) plans →
  (∃ m, m ∈ members ∧ _strip (m !! "Subscriber_ID") ≠ ""
        ∧ (_strip (m !! "Plan_Key") = k
           ∨ ∃ d, d ∈ deps
                  ∧ _strip (d !! "Subscriber_ID") = _strip (m !! "Subscriber_ID")
                  ∧ _strip (d !! "Plan_Key") = k)) →
  ∃ e, assemble yyyymmdd clock settings plans members deps = Raise e
       ∧ ((∃ s, s ∈ input_dates clock settings members deps ∧ yyyymmdd s = Raise e)
          ∨ (∃ k', k' ≠ ""
                   ∧ Forall (λ r, _strip (r !! "Plan_Key") ≠ k') plans
                   ∧ e = KeyError (plan_key_msg k'))).
Proof.
  intros Hk Hplans (m & Hm & Hid & Hcase).
  apply plan_map_lookup_None in Hplans; [|done].
  assert (is_ok (assemble yyyymmdd clock settings plans members deps) = false) as Hfail.
  { rewrite assemble_run. destruct (yyyymmdd _); [|done]. cbn [mbind result_bind].
    assert (is_ok (collect (member_segments yyyymmdd (build_plan_map plans)
                              (build_deps_by_sub deps)) members) = false) as Hc.
    { apply (collect_raise _ _ m Hm). apply member_segments_missing; [done|].
      destruct Hcase as [Hmk|(d & Hd & Hsid & Hdk)].
      - left. by rewrite Hmk.
      - right. exists d. rewrite deps_by_sub_lookup by done.
        split; [|by rewrite Hdk].
        apply list_elem_of_filter. split; [done|done]. }
    by destruct (collect _ _). }
  destruct (assemble yyyymmdd clock settings plans members deps) as [edi|e] eqn:Hrun;
    [done|].
  exists e. split; [done|].
  destruct (assemble_raise_inv _ _ _ _ _ _ _ Hrun) as [Hdate|(k' & Hk' & Hnone & ->)];
    [by left|right].
  exists k'. split; [done|]. split; [|done]. by apply plan_map_lookup_None.
Qed.

Lemma C6_member_without_id_skipped_witness :
  (∀ plan_map deps_by_sub edi,
     member_block Generator.yyyymmdd plan_map deps_by_sub blank_member edi = Ok (tt, edi))
  ∧ assemble Generator.yyyymmdd sample_clock sample_settings [sample_plan]
      ([sample_member] ++ blank_member :: []) [sample_dependent]
    = assemble Generator.yyyymmdd sample_clock sample_settings [sample_plan]
        ([sample_member] ++ []) [sample_dependent].
Proof.
  apply (C6_member_without_id_skipped Generator.yyyymmdd sample_clock sample_settings
           [sample_plan] [sample_member] [] [sample_dependent] blank_member).
  vm_compute. reflexivity.
Defined.

Lemma C10_unmatched_dependent_omitted_witness :
  assemble Generator.yyyymmdd sample_clock sample_settings [sample_plan] [sample_member]
    ([sample_dependent] ++ orphan_dependent :: [])
  = assemble Generator.yyyymmdd sample_clock sample_settings [sample_plan] [sample_member]
      ([sample_dependent] ++ []).
Proof.
  apply (C10_unmatched_dependent_omitted Generator.yyyymmdd sample_clock sample_settings
           [sample_plan] [sample_member] [sample_dependent] [] orphan_dependent).
  right. intros m Hm. apply list_elem_of_singleton in Hm. subst m.
  vm_compute. discriminate.
Defined.

(** C4 as stated fails for an SSN of nine characters that are not all
    among the digits 0 to 9: the identifier test is [str.isdigit], which
    also accepts the superscript two, so such an SSN is sent with the
    qualifier 34 and not with ZZ and the Subscriber_ID. *)
Lemma C4_counterexample :
  String.length (_strip (superscript_member !! "Subscriber_SSN")) = 9%nat
  ∧ str_all is_digit (_strip (superscript_member !! "Subscriber_SSN")) = false
  ∧ _strip (superscript_member !! "Subscriber_ID") = "4004"
  ∧ ∃ edi,
      assemble Generator.yyyymmdd sample_clock sample_settings [] [superscript_member] []
      = Ok edi
      ∧ edi !! 7%nat = Some (member_ins superscript_member)
      ∧ edi !! 8%nat
        = Some (segs ["NM1"; "IL"; "1"; "Roe"; "Max"; ""; ""; ""; "34";
                      "12345678" +:+ String "178"%char ""])
      ∧ segs ["NM1"; "IL"; "1"; "Roe"; "Max"; ""; ""; ""; "ZZ"; "4004"] ∉ edi.
Proof.
  split; [reflexivity|]. split; [reflexivity|]. split; [reflexivity|].
  eexists. split; [vm_compute; reflexivity|].
  split; [reflexivity|]. split; [reflexivity|].
  intros Hin. repeat (apply elem_of_cons in Hin as [Hin|Hin]; [discriminate Hin|]).
  by apply elem_of_nil in Hin.
Qed.

Lemma C4_subscriber_identity_witness :
  (String.length "123456789" = 9%nat ∧ str_all is_pydigit "123456789" = true →
   ∃ pre post,
     sample_output
     = pre ++ member_ins sample_member
           :: segs ["NM1"; "IL"; "1"; "Doe"; "Jane"; ""; ""; ""; "34"; "123456789"] :: post)
  ∧ (¬ (String.length "123456789" = 9%nat ∧ str_all is_pydigit "123456789" = true) →
     ∃ pre post,
       sample_output
       = pre ++ member_ins sample_member
             :: segs ["NM1"; "IL"; "1"; "Doe"; "Jane"; ""; ""; ""; "ZZ"; "1001"] :: post).
Proof.
  apply (C4_subscriber_identity Generator.yyyymmdd sample_clock sample_settings
           [sample_plan] [sample_member] [sample_dependent] sample_member sample_output).
  - vm_compute. reflexivity.
  - apply list_elem_of_singleton. reflexivity.
  - vm_compute. discriminate.
Defined.

Example sample_dependent_run :
  dependent_block (yyyymmdd_body Generator.try_serial) (build_plan_map [sample_plan])
    "1001" "20240101" "" "P1" sample_dependent []
  = Ok (tt, sample_dependent_output).
Proof. vm_compute. reflexivity. Qed.

Lemma C5_dependent_fallback_witness :
  let dtp code date := segs ["DTP"; code; "D8"; date] in
  let sub_id := _strip (sample_member !! "Subscriber_ID") in
  let plan_key := _strip (sample_member !! "Plan_Key") in
  let plan_map := build_plan_map [sample_plan] in
  let d_plan_key := str_or (_strip (sample_dependent !! "Plan_Key")) plan_key in
  ∃ cov_start cov_end pre out post,
    yyyymmdd_body Generator.try_serial (_strip (sample_member !! "Coverage_Start"))
    = Ok cov_start
    ∧ yyyymmdd_body Generator.try_serial (_strip (sample_member !! "Coverage_End"))
      = Ok cov_end
    ∧ sample_output = pre ++ out ++ post
    ∧ dependent_block (yyyymmdd_body Generator.try_serial) plan_map sub_id cov_start
        cov_end plan_key sample_dependent [] = Ok (tt, out)
    ∧ (∃ rest,
         out = segs ["INS"; "N";
                     relationship_code (_strip (sample_dependent !! "Relationship"));
                     maintenance_code
                       (upper (_strip (Some (opt_or (sample_dependent !! "Action") "ADD"))));
                     "XN"; "A"; "E"]
               :: dependent_nm1 sub_id sample_dependent :: rest)
    ∧ (_strip (sample_dependent !! "Coverage_Start") = "" →
       (cov_start ≠ "" → dtp "356" cov_start ∈ out
                         ∧ (d_plan_key ≠ "" → dtp "348" cov_start ∈ out))
       ∧ Forall (λ s, startswith "DTP*356*" s = true ∨ startswith "DTP*348*" s = true →
                      cov_start ≠ "" ∧ (s = dtp "356" cov_start ∨ s = dtp "348" cov_start)) out)
    ∧ (_strip (sample_dependent !! "Coverage_End") = "" →
       (cov_end ≠ "" → dtp "357" cov_end ∈ out
                       ∧ (d_plan_key ≠ "" → dtp "349" cov_end ∈ out))
       ∧ Forall (λ s, startswith "DTP*357*" s = true ∨ startswith "DTP*349*" s = true →
                      cov_end ≠ "" ∧ (s = dtp "357" cov_end ∨ s = dtp "349" cov_end)) out)
    ∧ (_strip (sample_dependent !! "Plan_Key") = "" →
       (plan_key ≠ "" →
        ∃ pr, plan_map !! plan_key = Some pr
          ∧ segs ["HD"; "030"; "";
                  str_or (_strip (pr !! "HD_Insurance_Line_Code"))
                         (_strip (pr !! "Benefit_Type_Code"));
                  str_or (_strip (pr !! "HD_Plan_Coverage_Desc")) plan_key; ""] ∈ out)
       ∧ (plan_key = "" →
          Forall (λ s, startswith "HD*" s = false ∧ startswith "DTP*348*" s = false
                       ∧ startswith "DTP*349*" s = false) out)).
Proof.
  refine (C5_dependent_fallback Generator.try_serial sample_clock sample_settings
            [sample_plan] [sample_member] [sample_dependent]
            sample_member sample_dependent sample_output _ _ _ _ _).
  - vm_compute. reflexivity.
  - left.
  - left.
  - vm_compute. discriminate.
  - vm_compute. reflexivity.
Defined.

(** The dependent of the sample run has no coverage dates and no plan key
    of its own: its block carries the member's start date and plan. *)
Example sample_dependent_inherits :
  _strip (sample_dependent !! "Coverage_Start") = ""
  ∧ _strip (sample_dependent !! "Plan_Key") = ""
  ∧ ∃ pre post, sample_output = pre ++ sample_dependent_output ++ post.
Proof.
  split; [reflexivity|]. split; [reflexivity|].
  exists (take 12 sample_output), (drop 17 sample_output). reflexivity.
Qed.

(** C2 as stated fails in three ways.  A dependent filed under no member
    and a member row without identifier are never looked at, so their
    unknown plan key raises nothing and the run succeeds; and a member whose
    date of birth is rejected stops the run with the bad-date error before
    its unknown plan key is looked up. *)
Lemma C2_counterexample :
  (orphan_dependent ∈ [sample_dependent; orphan_dependent]
   ∧ _strip (orphan_dependent !! "Plan_Key") = "GHOST"
   ∧ Forall (λ r, _strip (r !! "Plan_Key") ≠ "GHOST") [sample_plan]
   ∧ assemble Generator.yyyymmdd sample_clock sample_settings [sample_plan]
       [sample_member] [sample_dependent; orphan_dependent] = Ok sample_output)
  ∧ (_strip (blank_member !! "Plan_Key") = "GHOST"
     ∧ assemble Generator.yyyymmdd sample_clock sample_settings [sample_plan]
         [sample_member; blank_member] [sample_dependent] = Ok sample_output)
  ∧ (_strip (bad_date_member !! "Plan_Key") = "GHOST"
     ∧ _strip (bad_date_member !! "Subscriber_ID") = "3003"
     ∧ assemble Generator.yyyymmdd sample_clock sample_settings [sample_plan]
         [bad_date_member] []
       = Raise (ValueError "Bad date 'soon' (expected YYYYMMDD or YYYY-MM-DD)")).
Proof.
  repeat split; try (vm_compute; reflexivity).
  - apply list_elem_of_In. right. left. reflexivity.
  - repeat constructor. vm_compute. discriminate.
Qed.

Lemma C2_missing_plan_key_is_fatal_witness :
  ∃ e, assemble Generator.yyyymmdd sample_clock sample_settings [sample_plan]
         [sample_member; ghost_plan_member] [sample_dependent] = Raise e
       ∧ ((∃ s, s ∈ input_dates sample_clock sample_settings
                        [sample_member; ghost_plan_member] [sample_dependent]
                ∧ Generator.yyyymmdd s = Raise e)
          ∨ (∃ k', k' ≠ ""
                   ∧ Forall (λ r, _strip (r !! "Plan_Key") ≠ k') [sample_plan]
                   ∧ e = KeyError (plan_key_msg k'))).
Proof.
  apply (C2_missing_plan_key_is_fatal Generator.yyyymmdd sample_clock sample_settings
           [sample_plan] [sample_member; ghost_plan_member] [sample_dependent] "GHOST").
  - discriminate.
  - repeat constructor. vm_compute. discriminate.
  - exists ghost_plan_member. split; [|split].
    + apply list_elem_of_In. right. left. reflexivity.
    + vm_compute. discriminate.
    + left. vm_compute. reflexivity.
Defined.

Example ghost_plan_run :
  assemble Generator.yyyymmdd sample_clock sample_settings [sample_plan]
    [sample_member; ghost_plan_member] [sample_dependent]
  = Raise (KeyError "Plan_Key 'GHOST' not found in Plans sheet.").
Proof. vm_compute. reflexivity. Qed.

(** ** The table projector *)

Lemma foldl_snoc_map {A B} (f : A → B) (l : list A) (acc : list B) :
  foldl (λ acc x, acc ++ [f x]) acc l = acc ++ (f <$> l).
Proof.
  revert acc. induction l as [|x l IH]; intros acc; cbn [foldl fmap list_fmap].
  - by rewrite app_nil_r.
  - by rewrite IH, <- app_assoc.
Qed.

Lemma foldl_ext_in {A B} (f g : A → B → A) (l : list B) (acc : A) :
  (∀ a x, x ∈ l → f a x = g a x) → foldl f acc l = foldl g acc l.
Proof.
  revert acc. induction l as [|x l IH]; intros acc H; [done|]. cbn [foldl].
  rewrite (H acc x) by left. apply IH. intros a y Hy. apply H. by right.
Qed.

Lemma table_headers_map cells :
  table_headers cells = header_at cells <$> seq 1 (max_col cells).
Proof. unfold table_headers. by rewrite foldl_snoc_map. Qed.

Lemma table_headers_lookup cells c :
  c ∈ seq 1 (max_col cells) →
  table_headers cells !! (c - 1)%nat = Some (header_at cells c).
Proof.
  intros Hc. apply elem_of_seq in Hc. rewrite table_headers_map, list_lookup_fmap.
  rewrite lookup_seq_lt by lia. cbn. f_equal. f_equal. lia.
Qed.

Lemma table_row_steps cells r :
  table_row cells (table_headers cells) r
  = foldl (row_step cells r) (∅, true) (seq 1 (max_col cells)).
Proof.
  unfold table_row. apply foldl_ext_in. intros [row empty] c Hc.
  rewrite (table_headers_lookup _ _ Hc). cbn [default].
  rewrite bool_decide_eq_true_2.
  2:{ apply elem_of_seq in Hc. rewrite table_headers_map, length_fmap, length_seq. lia. }
  unfold row_step, header_at, value_at, _strip, id. cbn [fst snd].
  destruct (decide (strip (cell_at cells 1 c) = "")) as [->|Hh]; [done|].
  apply truthy_ne in Hh as Ht. rewrite Ht. cbn [negb].
  destruct (decide (strip (cell_at cells r c) = "")) as [->|Hv]; [done|].
  by rewrite bool_decide_eq_true_2.
Qed.

Lemma row_steps_fold cells r (l : list nat) (st : gmap string string * bool) :
  foldl (row_step cells r) st l
  = (list_to_map (reverse ((λ c, (header_at cells c, value_at cells r c))
                             <$> filter (λ c, header_at cells c ≠ "") l)) ∪ st.1,
     st.2 && bool_decide (Forall (λ c, value_at cells r c = "")
                            (filter (λ c, header_at cells c ≠ "") l))).
Proof.
  revert st. induction l as [|c l IH]; intros [row empty]; cbn [foldl].
  - cbn. rewrite (left_id_L ∅ (∪)). by rewrite andb_true_r.
  - rewrite IH, filter_cons. unfold row_step. cbn [fst snd].
    destruct (decide (header_at cells c = "")) as [Hh|Hh].
    { assert (¬ header_at cells c ≠ "") as Hn by (intros HH; exact (HH Hh)).
      by rewrite !(decide_False _ _ Hn). }
    rewrite !(decide_True _ _ Hh).
    cbn [fst snd fmap list_fmap].
    rewrite reverse_cons, list_to_map_app. cbn [list_to_map foldr]. cbn [fst snd].
    f_equal.
    + rewrite <- (assoc_L (∪)). f_equal.
      by rewrite insert_union_singleton_l, insert_empty.
    + destruct (decide (value_at cells r c = "")) as [Hv|Hv].
      * f_equal. apply bool_decide_ext. rewrite Forall_cons. tauto.
      * rewrite (bool_decide_eq_false_2 (Forall _ (c :: _))).
        -- by rewrite andb_false_r.
        -- rewrite Forall_cons. tauto.
Qed.

Lemma table_row_spec cells r :
  table_row cells (table_headers cells) r
  = (record_of cells r, bool_decide (row_is_blank cells r)).
Proof.
  rewrite table_row_steps, row_steps_fold. cbn [fst snd andb].
  by rewrite (right_id_L ∅ (∪)).
Qed.

Lemma table_rows_fold cells (rows : list nat) (acc : list (gmap string string)) :
  foldl (λ table r,
           let '(row, empty) := table_row cells (table_headers cells) r in
           if negb empty then table ++ [row] else table) acc rows
  = acc ++ (record_of cells <$> filter (λ r, ¬ row_is_blank cells r) rows).
Proof.
  revert acc. induction rows as [|r rows IH]; intros acc; cbn [foldl].
  - by rewrite app_nil_r.
  - rewrite IH, table_row_spec, filter_cons.
    destruct (decide (row_is_blank cells r)) as [Hb|Hb].
    + rewrite bool_decide_eq_true_2 by done. cbn [negb].
      by rewrite decide_False by tauto.
    + rewrite bool_decide_eq_false_2 by done. cbn [negb].
      rewrite decide_True by done. cbn [fmap list_fmap]. by rewrite <- app_assoc.
Qed.

Lemma table_rows_spec cells : table_rows cells = projected_table cells.
Proof. unfold table_rows, projected_table. by rewrite table_rows_fold. Qed.


Lemma retained_columns_split cells c :
  (1 ≤ c ≤ max_col cells)%nat → header_at cells c ≠ "" →
  ∃ pre post, retained_columns cells = pre ++ c :: post
              ∧ Forall (λ c', (c < c' ≤ max_col cells)%nat) post.
Proof.
  intros Hc Hh. unfold retained_columns.
  assert (seq 1 (max_col cells)
          = seq 1 (c - 1) ++ c :: seq (S c) (max_col cells - c)) as ->.
  { transitivity (seq 1 ((c - 1) + S (max_col cells - c))); [f_equal; lia|].
    rewrite seq_app. cbn [seq]. repeat f_equal; lia. }
  rewrite filter_app, filter_cons, (decide_True _ _ Hh).
  eexists _, _. split; [reflexivity|].
  apply Forall_forall. intros c' Hc'. apply list_elem_of_filter in Hc' as [_ Hc'].
  apply elem_of_seq in Hc'. lia.
Qed.

(** The record maps the label of a retained column to the text of the last
    column carrying that label. *)
Lemma record_of_last_wins cells r c :
  (1 ≤ c ≤ max_col cells)%nat → header_at cells c ≠ "" →
  (∀ c', (c < c' ≤ max_col cells)%nat → header_at cells c' ≠ header_at cells c) →
  record_of cells r !! header_at cells c = Some (value_at cells r c).
Proof.
  intros Hc Hh Hlast.
  destruct (retained_columns_split cells c Hc Hh) as (pre & post & Hsplit & Hpost).
  unfold record_of. rewrite Hsplit, fmap_app, fmap_cons, reverse_app, reverse_cons.
  rewrite <- app_assoc. cbn [app]. rewrite list_to_map_app.
  rewrite lookup_union_r.
  - cbn [list_to_map foldr]. cbn [fst snd]. apply lookup_insert_eq.
  - apply not_elem_of_list_to_map_1. rewrite fmap_reverse, elem_of_reverse.
    rewrite <- list_fmap_compose. intros Hin.
    apply list_elem_of_fmap in Hin as (c' & Heq & Hc').
    rewrite Forall_forall in Hpost. cbn in Heq.
    by apply (Hlast c' (Hpost c' Hc')).
Qed.

Lemma projected_table_empty : projected_table ∅ = [].
Proof. reflexivity. Qed.

Lemma grid_bounds (cells : Grid) r c v :
  cells !! (r, c) = Some v → (r ≤ max_row cells)%nat ∧ (c ≤ max_col cells)%nat.
Proof.
  intros H. apply elem_of_map_to_list in H. unfold max_row, max_col. split.
  - apply max_list_elem_of_le.
    apply list_elem_of_fmap. exists (r, c). split; [done|].
    apply list_elem_of_fmap. by exists (r, c, v).
  - apply max_list_elem_of_le.
    apply list_elem_of_fmap. exists (r, c). split; [done|].
    apply list_elem_of_fmap. by exists (r, c, v).
Qed.






(** The bounds of the sample grid. *)
Example sample_grid_bounds : max_row sample_grid = 3%nat ∧ max_col sample_grid = 3%nat.
Proof. split; vm_compute; reflexivity. Qed.

Example sample_grid_table :
  project_sheet "Plans" sample_grid
  = [ list_to_map [("Plan_Key", "P1"); ("Desc", "Gold")] ].
Proof. vm_compute. reflexivity. Qed.

(** * Further properties of the code *)

(** ** Trimming *)



Lemma rstrip_idem s : rstrip (rstrip s) = rstrip s.
Proof.
  induction s as [|c s IH]; [done|]. cbn [rstrip].
  destruct (rstrip s) as [|d r] eqn:Hr.
  - destruct (isspace c) eqn:Hc; [done|]. cbn [rstrip]. by rewrite Hc.
  - change (rstrip (String c (String d r)))
      with (match rstrip (String d r) with
            | "" => if isspace c then "" else String c ""
            | String a b => String c (String a b)
            end).
    by rewrite IH.
Qed.

Lemma rstrip_last s c : last_char (rstrip s) = Some c → isspace c = false.
Proof.
  induction s as [|x s IH]; [done|]. cbn [rstrip].
  destruct (rstrip s) as [|d r] eqn:Hr.
  - destruct (isspace x) eqn:Hx; [done|]. cbn. by intros [= <-].
  - intros H. apply IH. exact H.
Qed.

Lemma rstrip_first s c :
  first_char s = Some c → isspace c = false → first_char (rstrip s) = Some c.
Proof.
  destruct s as [|x s]; [done|]. cbn. intros [= ->] Hc.
  destruct (rstrip s); [by rewrite Hc|done].
Qed.

Lemma lstrip_first s c : first_char (lstrip s) = Some c → isspace c = false.
Proof.
  induction s as [|x s IH]; [done|]. cbn [lstrip].
  destruct (isspace x) eqn:Hx; [done|]. cbn. by intros [= <-].
Qed.

Lemma lstrip_fixed s :
  (∀ c, first_char s = Some c → isspace c = false) → lstrip s = s.
Proof.
  destruct s as [|x s]; [done|]. intros H. cbn. by rewrite (H x eq_refl).
Qed.

Lemma strip_first s c : first_char (strip s) = Some c → isspace c = false.
Proof.
  unfold strip. destruct (lstrip s) as [|x t] eqn:Hl; [done|].
  assert (isspace x = false) as Hx by (apply (lstrip_first s); by rewrite Hl).
  rewrite (rstrip_first (String x t) x eq_refl Hx). by intros [= <-].
Qed.

Lemma strip_idem s : strip (strip s) = strip s.
Proof.
  unfold strip at 1. rewrite (lstrip_fixed (strip s)) by apply strip_first.
  unfold strip. apply rstrip_idem.
Qed.

Lemma lstrip_empty_iff s : lstrip s = "" ↔ str_all isspace s = true.
Proof.
  induction s as [|x s IH]; [done|]. cbn. destruct (isspace x); [done|]. cbn. split; done.
Qed.

Lemma rstrip_empty_iff s : rstrip s = "" ↔ str_all isspace s = true.
Proof.
  induction s as [|x s IH]; [done|]. cbn.
  destruct (rstrip s) eqn:Hr.
  - destruct (isspace x); cbn; [by rewrite <- IH|split; done].
  - split; [done|]. intros [_ H]%andb_true_iff. apply IH in H. done.
Qed.

Lemma lstrip_all_space s : str_all isspace s = true → str_all isspace (lstrip s) = true.
Proof. intros H. by rewrite (proj2 (lstrip_empty_iff s) H). Qed.

Lemma str_all_lstrip p s : str_all p s = true → str_all p (lstrip s) = true.
Proof.
  induction s as [|x s IH]; [done|]. cbn. intros [Hx Hs]%andb_true_iff.
  destruct (isspace x); [by apply IH|]. cbn. by rewrite Hx, Hs.
Qed.

Lemma strip_empty_iff s : strip s = "" ↔ str_all isspace s = true.
Proof.
  unfold strip. rewrite rstrip_empty_iff. split.
  - induction s as [|x s IH]; [done|]. cbn. destruct (isspace x) eqn:Hx; [done|].
    cbn. by rewrite Hx.
  - apply str_all_lstrip.
Qed.

(** X1: [_strip] returns a text in normal form: the result has no
    whitespace at either end, trimming it again changes nothing, and it is
    empty exactly when the value is [None] or consists of whitespace only. *)
Theorem X_strip_normal_form (o : option string) :
  _strip (Some (_strip o)) = _strip o
  ∧ (∀ c, first_char (_strip o) = Some c → isspace c = false)
  ∧ (∀ c, last_char (_strip o) = Some c → isspace c = false)
  ∧ (_strip o = "" ↔ o = None ∨ ∃ v, o = Some v ∧ str_all isspace v = true).
Proof.
  destruct o as [v|]; cbn [_strip].
  - split; [apply strip_idem|]. split; [apply strip_first|].
    split; [apply rstrip_last|].
    rewrite strip_empty_iff. split; [eauto|]. by intros [|(w & [= <-] & H)].
  - repeat split; try done. eauto.
Qed.

(** ** Cell references *)



Lemma col_index_value col : _col_letters_to_index col = Z.to_nat (col_value 0 (upper col)).
Proof. reflexivity. Qed.

Lemma code_inj c d : code c = code d → c = d.
Proof.
  unfold code. intros H. apply N2Z.inj in H.
  rewrite <- (ascii_N_embedding c), <- (ascii_N_embedding d). by rewrite H.
Qed.

Lemma upper_char_idem c : upper_char (upper_char c) = upper_char c.
Proof. destruct c as [[] [] [] [] [] [] [] []]; reflexivity. Qed.

Lemma upper_idem s : upper (upper s) = upper s.
Proof. induction s as [|c s IH]; [done|]. cbn. by rewrite upper_char_idem, IH. Qed.

Lemma upper_char_alpha c : is_alpha c = true → is_upper (upper_char c) = true.
Proof. destruct c as [[] [] [] [] [] [] [] []]; try reflexivity; discriminate. Qed.

Lemma upper_alpha s : str_all is_alpha s = true → str_all is_upper (upper s) = true.
Proof.
  induction s as [|c s IH]; [done|]. cbn. intros [Hc Hs]%andb_true_iff.
  by rewrite upper_char_alpha, IH.
Qed.

Lemma upper_length s : String.length (upper s) = String.length s.
Proof. induction s as [|c s IH]; [done|]. cbn. by rewrite IH. Qed.

(** Appending one letter multiplies by 26 and adds the rank of the letter. *)
Lemma col_value_snoc n s ch :
  col_value n (s +:+ String ch "") = col_value n s * 26 + (code ch - 65 + 1).
Proof.
  revert n. induction s as [|c s IH]; intros n; [done|].
  change (String c s +:+ String ch "") with (String c (s +:+ String ch "")).
  cbn [col_value]. apply IH.
Qed.

Lemma col_value_bounds n s :
  0 ≤ n → str_all is_upper s = true → n ≤ col_value n s ∧ (s ≠ "" → n < col_value n s).
Proof.
  revert n. induction s as [|c s IH]; intros n Hn Hs; [done|].
  cbn in Hs. apply andb_true_iff in Hs as [Hc Hs].
  unfold is_upper in Hc. apply andb_true_iff in Hc as [H1 H2].
  apply Z.leb_le in H1. apply Z.leb_le in H2. cbn [col_value].
  destruct (IH (n * 26 + (code c - 65 + 1)) ltac:(lia) Hs) as [Hle _]. lia.
Qed.

Lemma string_snoc_cases (s : string) : s = "" ∨ ∃ t c, s = t +:+ String c "".
Proof.
  induction s as [|x s IH]; [by left|right].
  destruct IH as [->|(t & c & ->)].
  - by exists "", x.
  - by exists (String x t), c.
Qed.

Lemma str_all_snoc p t c :
  str_all p (t +:+ String c "") = str_all p t && p c.
Proof.
  induction t as [|x t IH].
  - change ("" +:+ String c "") with (String c ""). cbn. by destruct (p c).
  - change (String x t +:+ String c "") with (String x (t +:+ String c "")).
    cbn [str_all]. by rewrite IH, andb_assoc.
Qed.

Lemma snoc_length t c : String.length (t +:+ String c "") = S (String.length t).
Proof.
  induction t as [|x t IH]; [done|].
  change (String x t +:+ String c "") with (String x (t +:+ String c "")).
  cbn [String.length]. by rewrite IH.
Qed.

Lemma col_value_inj_len (k : nat) : ∀ a b,
  String.length a = k →
  str_all is_upper a = true → str_all is_upper b = true →
  col_value 0 a = col_value 0 b → a = b.
Proof.
  induction k as [|k IH]; intros a b Hlen Ha Hb Heq.
  - destruct a; [|done]. destruct b as [|c b]; [done|].
    destruct (col_value_bounds 0 (String c b) ltac:(lia) Hb) as [_ Hlt].
    cbn in Heq. specialize (Hlt ltac:(done)). cbn in Hlt. lia.
  - destruct (string_snoc_cases a) as [->|(a' & c & ->)]; [done|].
    destruct (string_snoc_cases b) as [->|(b' & d & ->)].
    + destruct (col_value_bounds 0 (a' +:+ String c "") ltac:(lia) Ha) as [_ Hlt].
      assert (a' +:+ String c "" ≠ "") as Hne by (by destruct a').
      specialize (Hlt Hne). cbn in Heq. lia.
    + rewrite str_all_snoc in Ha, Hb.
      apply andb_true_iff in Ha as [Ha Hc]. apply andb_true_iff in Hb as [Hb Hd].
      rewrite !col_value_snoc in Heq.
      unfold is_upper in Hc, Hd.
      apply andb_true_iff in Hc as [Hc1 Hc2]. apply andb_true_iff in Hd as [Hd1 Hd2].
      apply Z.leb_le in Hc1, Hc2, Hd1, Hd2.
      assert (code c = code d ∧ col_value 0 a' = col_value 0 b') as [Hcd Hab] by lia.
      apply code_inj in Hcd as ->.
      rewrite snoc_length in Hlen. injection Hlen as Hlen.
      by rewrite (IH a' b' Hlen Ha Hb Hab).
Qed.

(** X2: on texts made of letters the column index ignores the letter
    case, is at least 1 for a non-empty text, determines the text up to
    case (two column names with the same index are the same name), and reads
    the name as a base-26 numeral: appending a letter multiplies the index by
    26 and adds the index of the letter. *)
Theorem X_col_letters_to_index (a b : string) :
  str_all is_alpha a = true → str_all is_alpha b = true →
  _col_letters_to_index (upper a) = _col_letters_to_index a
  ∧ (a ≠ "" → (1 ≤ _col_letters_to_index a)%nat)
  ∧ (_col_letters_to_index a = _col_letters_to_index b → upper a = upper b)
  ∧ (∀ ch, is_alpha ch = true →
       _col_letters_to_index (a +:+ String ch "")
       = (26 * _col_letters_to_index a + _col_letters_to_index (String ch ""))%nat).
Proof.
  intros Ha Hb. rewrite !col_index_value, upper_idem.
  pose proof (upper_alpha a Ha) as Hua. pose proof (upper_alpha b Hb) as Hub.
  destruct (col_value_bounds 0 (upper a) ltac:(lia) Hua) as [Ha0 Ha1].
  destruct (col_value_bounds 0 (upper b) ltac:(lia) Hub) as [Hb0 _].
  split; [done|]. split; [|split].
  - intros Hne. assert (upper a ≠ "") as Hne' by (by destruct a). specialize (Ha1 Hne'). lia.
  - intros Heq. apply (col_value_inj_len (String.length (upper a))); try done. lia.
  - intros ch Hch. rewrite !col_index_value.
    assert (upper (a +:+ String ch "") = upper a +:+ String (upper_char ch) "") as ->.
    { clear. induction a as [|x a IH]; [done|].
      change (String x a +:+ String ch "") with (String x (a +:+ String ch "")).
      cbn. by rewrite IH. }
    rewrite col_value_snoc. cbn [upper str_map col_value].
    pose proof (upper_char_alpha ch Hch) as Hu. unfold is_upper in Hu.
    apply andb_true_iff in Hu as [H1 H2]. apply Z.leb_le in H1, H2. lia.
Qed.

Lemma X_col_letters_to_index_witness :
  _col_letters_to_index (upper "aZ") = _col_letters_to_index "aZ"
  ∧ ("aZ" ≠ "" → (1 ≤ _col_letters_to_index "aZ")%nat)
  ∧ (_col_letters_to_index "aZ" = _col_letters_to_index "Az" → upper "aZ" = upper "Az")
  ∧ (∀ ch, is_alpha ch = true →
       _col_letters_to_index ("aZ" +:+ String ch "")
       = (26 * _col_letters_to_index "aZ" + _col_letters_to_index (String ch ""))%nat).
Proof. apply (X_col_letters_to_index "aZ" "Az"); reflexivity. Defined.

Example col_letters_samples :
  _col_letters_to_index "A" = 1%nat ∧ _col_letters_to_index "z" = 26%nat
  ∧ _col_letters_to_index "AA" = 27%nat ∧ _col_letters_to_index "ZZ" = 702%nat.
Proof. repeat split; vm_compute; reflexivity. Qed.



Lemma span_app p a b :
  str_all p a = true → (∀ c, first_char b = Some c → p c = false) →
  span p (a +:+ b) = (a, b).
Proof.
  intros Ha Hb. induction a as [|x a IH].
  - change ("" +:+ b) with b. destruct b as [|c b]; [done|].
    cbn. by rewrite (Hb c eq_refl).
  - change (String x a +:+ b) with (String x (a +:+ b)).
    cbn in Ha. apply andb_true_iff in Ha as [Hx Ha]. cbn [span].
    by rewrite Hx, (IH Ha).
Qed.

Lemma span_prefix_all p s a r : span p s = (a, r) → str_all p a = true ∧ s = a +:+ r.
Proof.
  revert a r. induction s as [|x s IH]; intros a r; cbn [span].
  - by intros [= <- <-].
  - destruct (p x) eqn:Hx.
    + destruct (span p s) as [a0 r0] eqn:Hs. intros [= <- <-].
      destruct (IH a0 r0 eq_refl) as [Ha ->]. cbn. by rewrite Hx, Ha.
    + by intros [= <- <-].
Qed.

Lemma is_digit_not_alpha c : is_digit c = true → is_alpha c = false.
Proof. destruct c as [[] [] [] [] [] [] [] []]; try reflexivity; discriminate. Qed.

Lemma digits_val_acc_nonneg acc s : 0 ≤ acc → str_all is_digit s = true → 0 ≤ digits_val_acc acc s.
Proof.
  revert acc. induction s as [|c s IH]; intros acc Hacc Hs; [done|].
  cbn in Hs. apply andb_true_iff in Hs as [Hc Hs]. cbn [digits_val_acc].
  apply IH; [|done]. unfold digit_val, is_digit in *.
  apply andb_true_iff in Hc as [H1 H2]. apply Z.leb_le in H1, H2. lia.
Qed.

(** X3: a reference made of one or more letters followed by one or more
    digits is parsed into the row denoted by the digits and the column index
    of the letters; the row is the decimal value of the digits, leading
    zeros included. *)
Theorem X_cell_ref_to_rc (letters digits : string) :
  letters ≠ "" → str_all is_alpha letters = true →
  digits ≠ "" → str_all is_digit digits = true →
  _cell_ref_to_rc (letters +:+ digits)
  = (Z.to_nat (digits_val digits), _col_letters_to_index letters)
  ∧ Z.of_nat (_cell_ref_to_rc (letters +:+ digits)).1 = digits_val digits.
Proof.
  intros Hl Hla Hd Hda.
  assert (_cell_ref_to_rc (letters +:+ digits)
          = (Z.to_nat (digits_val digits), _col_letters_to_index letters)) as ->.
  { unfold _cell_ref_to_rc, match_cell_ref.
    rewrite (span_app is_alpha letters digits Hla).
    2:{ intros c Hc. destruct digits as [|x ds]; [done|]. injection Hc as <-.
        cbn in Hda. apply andb_true_iff in Hda as [Hx _]. by apply is_digit_not_alpha. }
    rewrite (span_all _ _ Hda).
    destruct letters; [done|]. destruct digits; [done|]. reflexivity. }
  split; [done|]. cbn [fst]. rewrite Z2Nat.id; [done|].
  by apply digits_val_acc_nonneg.
Qed.

Lemma X_cell_ref_to_rc_witness :
  _cell_ref_to_rc ("AB" +:+ "12") = (Z.to_nat (digits_val "12"), _col_letters_to_index "AB")
  ∧ Z.of_nat (_cell_ref_to_rc ("AB" +:+ "12")).1 = digits_val "12".
Proof. apply (X_cell_ref_to_rc "AB" "12"); done. Defined.


Lemma match_cell_ref_Some ref letters digits :
  match_cell_ref ref = Some (letters, digits) →
  letters ≠ "" ∧ str_all is_alpha letters = true
  ∧ digits ≠ "" ∧ str_all is_digit digits = true.
Proof.
  unfold match_cell_ref.
  destruct (span is_alpha ref) as [l r1] eqn:H1.
  destruct (span is_digit r1) as [d r2] eqn:H2.
  destruct (truthy l) eqn:Hl; [|done]. destruct (truthy d) eqn:Hd; [|done].
  destruct (at_end r2); [|done]. cbn. intros [= <- <-].
  destruct (span_prefix_all _ _ _ _ H1) as [Hla _].
  destruct (span_prefix_all _ _ _ _ H2) as [Hda _].
  by destruct l, d.
Qed.

(** X4: a reference the pattern rejects lands on (0, 0); column 0 is reserved
    for it, since a parsed reference has a column of at least 1; and a
    reference that does not begin with a letter is rejected. *)
Theorem X_cell_ref_unparsed (ref : string) :
  (match_cell_ref ref = None → _cell_ref_to_rc ref = (0%nat, 0%nat))
  ∧ ((_cell_ref_to_rc ref).2 = 0%nat → match_cell_ref ref = None)
  ∧ ((∀ c, first_char ref = Some c → is_alpha c = false) →
     _cell_ref_to_rc ref = (0%nat, 0%nat)).
Proof.
  split; [|split].
  - intros H. unfold _cell_ref_to_rc. by rewrite H.
  - unfold _cell_ref_to_rc.
    destruct (match_cell_ref ref) as [[letters digits]|] eqn:Hm; [|done].
    destruct (match_cell_ref_Some _ _ _ Hm) as (Hl & Hla & _ & _).
    cbn [snd]. rewrite col_index_value. intros H0. exfalso.
    destruct (col_value_bounds 0 (upper letters) ltac:(lia) (upper_alpha _ Hla)) as [_ Hlt].
    assert (upper letters ≠ "") as Hne by (by destruct letters).
    specialize (Hlt Hne). lia.
  - intros Hfirst. unfold _cell_ref_to_rc, match_cell_ref.
    destruct ref as [|c ref]; [done|].
    cbn [span]. rewrite (Hfirst c eq_refl).
    by destruct (span is_digit (String c ref)).
Qed.

(** ** The segment encoder *)


Lemma split_on_free sep s : no_sep sep s = true → split_on sep s = [s].
Proof.
  unfold no_sep. induction s as [|c s IH]; [done|]. cbn [str_all split_on].
  intros [Hc Hs]%andb_true_iff. apply bool_decide_eq_true in Hc.
  rewrite decide_False by done. by rewrite (IH Hs).
Qed.

Lemma split_on_join sep l :
  l ≠ [] → Forall (λ s, no_sep sep s = true) l →
  split_on sep (join (String sep "") l) = l.
Proof.
  induction l as [|x l IH]; [done|]. intros _ Hall.
  apply Forall_cons in Hall as [Hx Hl].
  destruct l as [|y l].
  - cbn [join]. by apply split_on_free.
  - change (join (String sep "") (x :: y :: l))
      with (x +:+ String sep "" +:+ join (String sep "") (y :: l)).
    rewrite split_on_prefix' by exact Hx. by rewrite IH.
Qed.

Lemma join_snoc_append sep pre x t :
  join sep (pre ++ [x]) +:+ t = join sep (pre ++ [x +:+ t]).
Proof.
  induction pre as [|y pre IH]; [done|].
  destruct pre as [|z pre].
  - cbn [app join]. by rewrite !str_app_assoc.
  - change (join sep ((y :: z :: pre) ++ [x]))
      with (y +:+ sep +:+ join sep ((z :: pre) ++ [x])).
    change (join sep ((y :: z :: pre) ++ [x +:+ t]))
      with (y +:+ sep +:+ join sep ((z :: pre) ++ [x +:+ t])).
    by rewrite !str_app_assoc, IH.
Qed.

Lemma no_sep_app sep a b : no_sep sep (a +:+ b) = no_sep sep a && no_sep sep b.
Proof.
  unfold no_sep. induction a as [|c a IH]; [done|].
  change (String c a +:+ b) with (String c (a +:+ b)). cbn [str_all].
  by rewrite IH, andb_assoc.
Qed.

Lemma rendered_some (l : list string) :
  map (λ e : option string, match e with Some v => v | None => "" end) (Some <$> l) = l.
Proof. induction l as [|x l IH]; [done|]. cbn. by f_equal. Qed.

(** X5: a rendered segment can be read back.  When no element contains the
    separator, splitting the segment at the separators returns the elements
    in order, the last one followed by the terminator; so the position of
    every element is kept, empty elements included.  An absent element
    renders as the empty text, and every segment ends with the terminator. *)
Theorem X_seg_elements_roundtrip (pre : list string) (x : string) :
  Forall (λ s, no_sep "*" s = true) (pre ++ [x]) →
  split_on "*" (segs (pre ++ [x])) = pre ++ [x +:+ SEG_TERM]
  ∧ length (split_on "*" (segs (pre ++ [x]))) = length (pre ++ [x])
  ∧ (∀ l1 l2, seg (l1 ++ None :: l2) = seg (l1 ++ Some "" :: l2))
  ∧ (∀ l, last_char (seg l) = Some "~"%char).
Proof.
  intros Hall.
  assert (split_on "*" (segs (pre ++ [x])) = pre ++ [x +:+ SEG_TERM]) as Hsplit.
  { unfold segs, seg. rewrite rendered_some, join_snoc_append.
    apply (split_on_join "*"); [by destruct pre|].
    apply Forall_app in Hall as [Hpre Hx]. apply Forall_app. split; [done|].
    apply Forall_cons in Hx as [Hx _]. repeat constructor.
    by rewrite no_sep_app, Hx. }
  split; [done|]. split; [by rewrite Hsplit, !length_app|]. split.
  - intros l1 l2. unfold seg. by rewrite !map_app.
  - intros l. apply last_char_append_term.
Qed.

Lemma X_seg_elements_roundtrip_witness :
  split_on "*" (segs (["BGN"; "00"; ""; ""] ++ ["FULL"])) = ["BGN"; "00"; ""; ""] ++ ["FULL" +:+ SEG_TERM]
  ∧ length (split_on "*" (segs (["BGN"; "00"; ""; ""] ++ ["FULL"])))
    = length (["BGN"; "00"; ""; ""] ++ ["FULL"])
  ∧ (∀ l1 l2, seg (l1 ++ None :: l2) = seg (l1 ++ Some "" :: l2))
  ∧ (∀ l, last_char (seg l) = Some "~"%char).
Proof.
  apply (X_seg_elements_roundtrip ["BGN"; "00"; ""; ""] "FULL").
  repeat constructor.
Defined.

(** ** The date normalizer, continued *)

Lemma str_length_app a b : String.length (a +:+ b) = (String.length a + String.length b)%nat.
Proof.
  induction a as [|c a IH]; [done|].
  change (String c a +:+ b) with (String c (a +:+ b)). cbn [String.length]. by rewrite IH.
Qed.

Lemma str_all_app p a b : str_all p (a +:+ b) = str_all p a && str_all p b.
Proof.
  induction a as [|c a IH]; [done|].
  change (String c a +:+ b) with (String c (a +:+ b)). cbn [str_all].
  by rewrite IH, andb_assoc.
Qed.

Lemma eight_digits_spec s :
  eight_digits s = true ↔ String.length s = 8%nat ∧ str_all is_digit s = true.
Proof. unfold eight_digits. by rewrite andb_true_iff, Nat.eqb_eq. Qed.

Lemma eight_isdigit_spec s :
  eight_isdigit s = true ↔ String.length s = 8%nat ∧ str_all is_pydigit s = true.
Proof. unfold eight_isdigit. by rewrite andb_true_iff, Nat.eqb_eq. Qed.

Lemma eight_digits_isdigit s : eight_digits s = true → eight_isdigit s = true.
Proof.
  rewrite eight_digits_spec, eight_isdigit_spec. intros [Hl Hd]. split; [done|].
  revert Hd. apply str_all_impl, is_digit_pydigit.
Qed.

Lemma len_eq s (n : nat) : (len s =? Z.of_nat n) = (String.length s =? n)%nat.
Proof.
  unfold len. destruct (String.length s =? n)%nat eqn:E.
  - apply Nat.eqb_eq in E. apply Z.eqb_eq. lia.
  - apply Nat.eqb_neq in E. apply Z.eqb_neq. lia.
Qed.

(** What the pattern groups look like. *)
Lemma match_iso_groups s y m d :
  match_iso s = Some (y, m, d) →
  String.length y = 4%nat ∧ String.length m = 2%nat ∧ String.length d = 2%nat
  ∧ str_all is_digit y = true ∧ str_all is_digit m = true ∧ str_all is_digit d = true.
Proof.
  unfold match_iso.
  destruct (span is_digit s) as [y0 r1] eqn:H1.
  destruct r1 as [|c1 r2]; [done|].
  destruct (decide (c1 = "-"%char)) as [->|Hne].
  2:{ destruct c1 as [[] [] [] [] [] [] [] []]; done. }
  destruct (span is_digit r2) as [m0 r3] eqn:H2.
  destruct r3 as [|c3 r4]; [done|].
  destruct (decide (c3 = "-"%char)) as [->|Hne].
  2:{ destruct c3 as [[] [] [] [] [] [] [] []]; done. }
  destruct (span is_digit r4) as [d0 r5] eqn:H3.
  change 4 with (Z.of_nat 4). change 2 with (Z.of_nat 2). rewrite !len_eq.
  destruct (String.length y0 =? 4)%nat eqn:Ey; [|done].
  destruct (String.length m0 =? 2)%nat eqn:Em; [|done].
  destruct (String.length d0 =? 2)%nat eqn:Ed; [|done].
  destruct (at_end r5); [|done]. cbn. intros [= <- <- <-].
  apply Nat.eqb_eq in Ey, Em, Ed.
  destruct (span_prefix_all _ _ _ _ H1) as [? _].
  destruct (span_prefix_all _ _ _ _ H2) as [? _].
  destruct (span_prefix_all _ _ _ _ H3) as [? _]. done.
Qed.

Lemma match_mdy_groups s mm dd yy :
  match_mdy s = Some (mm, dd, yy) →
  (1 ≤ String.length mm ≤ 2)%nat ∧ (1 ≤ String.length dd ≤ 2)%nat
  ∧ String.length yy = 4%nat
  ∧ str_all is_digit mm = true ∧ str_all is_digit dd = true ∧ str_all is_digit yy = true.
Proof.
  unfold match_mdy.
  destruct (span is_digit s) as [m0 r1] eqn:H1.
  destruct r1 as [|c1 r2]; [done|].
  destruct (decide (c1 = "/"%char)) as [->|Hne].
  2:{ destruct c1 as [[] [] [] [] [] [] [] []]; done. }
  destruct (span is_digit r2) as [d0 r3] eqn:H2.
  destruct r3 as [|c3 r4]; [done|].
  destruct (decide (c3 = "/"%char)) as [->|Hne].
  2:{ destruct c3 as [[] [] [] [] [] [] [] []]; done. }
  destruct (span is_digit r4) as [y0 r5] eqn:H3.
  change 4 with (Z.of_nat 4). rewrite len_eq. unfold len.
  destruct (1 <=? Z.of_nat (String.length m0)) eqn:E1; [|done].
  destruct (Z.of_nat (String.length m0) <=? 2) eqn:E2; [|done].
  destruct (1 <=? Z.of_nat (String.length d0)) eqn:E3; [|done].
  destruct (Z.of_nat (String.length d0) <=? 2) eqn:E4; [|done].
  destruct (String.length y0 =? 4)%nat eqn:Ey; [|done].
  destruct (at_end r5); [|done]. cbn. intros [= <- <- <-].
  apply Nat.eqb_eq in Ey. apply Z.leb_le in E1, E2, E3, E4.
  destruct (span_prefix_all _ _ _ _ H1) as [? _].
  destruct (span_prefix_all _ _ _ _ H2) as [? _].
  destruct (span_prefix_all _ _ _ _ H3) as [? _].
  repeat split; try done; lia.
Qed.

(** Two-digit and four-digit zero padding, checked over the whole range. *)
Lemma fmt_02d_shape n :
  0 ≤ n < 100 →
  String.length (fmt_0d 2 n) = 2%nat ∧ str_all is_digit (fmt_0d 2 n) = true.
Proof.
  intros Hn.
  assert (forallb (λ k, (String.length (fmt_0d 2 k) =? 2)%nat
                        && str_all is_digit (fmt_0d 2 k)) (seqZ 0 100) = true) as Hall
    by (vm_compute; reflexivity).
  rewrite forallb_forall in Hall.
  specialize (Hall n). rewrite <- list_elem_of_In, elem_of_seqZ in Hall.
  specialize (Hall ltac:(lia)). apply andb_true_iff in Hall as [H1 H2].
  by apply Nat.eqb_eq in H1.
Qed.

Lemma shape_upto_spec w fuel d k :
  shape_upto w fuel d = true → (k < fuel)%nat →
  String.length (zfill w (NilEmpty.string_of_uint (Decimal.rev (Nat.to_little_uint k d))))
  = w
  ∧ str_all is_digit
      (zfill w (NilEmpty.string_of_uint (Decimal.rev (Nat.to_little_uint k d)))) = true.
Proof.
  revert d k. induction fuel as [|fuel IH]; intros d k H Hk; [lia|].
  cbn [shape_upto] in H. apply andb_true_iff in H as [H Hrest].
  apply andb_true_iff in H as [Hlen Hdig]. apply Nat.eqb_eq in Hlen.
  destruct k as [|k]; [done|].
  cbn [Nat.to_little_uint]. apply IH; [done|lia].
Qed.

Lemma fmt_04d_shape n :
  0 ≤ n < 10000 →
  String.length (fmt_0d 4 n) = 4%nat ∧ str_all is_digit (fmt_0d 4 n) = true.
Proof.
  intros Hn. unfold fmt_0d, str_Z.
  destruct (Z.ltb_spec n 0) as [Hneg|_]; [lia|].
  apply (shape_upto_spec 4 (100 * 100) Decimal.zero (Z.to_nat n)).
  - vm_compute. reflexivity.
  - lia.
Qed.

Lemma digit_val_range c : is_digit c = true → 0 ≤ digit_val c ≤ 9.
Proof.
  unfold is_digit, digit_val. intros [H1 H2]%andb_true_iff.
  apply Z.leb_le in H1, H2. lia.
Qed.

Lemma digits_val_two s :
  (String.length s ≤ 2)%nat → str_all is_digit s = true → 0 ≤ digits_val s < 100.
Proof.
  intros Hlen Hd. destruct s as [|c1 [|c2 [|c3 s]]]; cbn in Hlen; try lia.
  - cbn. lia.
  - cbn in Hd. apply andb_true_iff in Hd as [H1 _].
    pose proof (digit_val_range _ H1). unfold digits_val. cbn [digits_val_acc]. lia.
  - cbn in Hd. apply andb_true_iff in Hd as [H1 Hd]. apply andb_true_iff in Hd as [H2 _].
    pose proof (digit_val_range _ H1). pose proof (digit_val_range _ H2).
    unfold digits_val. cbn [digits_val_acc]. lia.
Qed.

Lemma match_numeric_digits s i f :
  match_numeric s = Some (i, f) → str_all is_digit i = true.
Proof.
  unfold match_numeric. destruct (span is_digit s) as [i0 r1] eqn:H1.
  destruct (span_prefix_all _ _ _ _ H1) as [Hd _].
  destruct (truthy i0); cbn [negb]; [|done].
  destruct (at_end r1); [by intros [= <- <-]|].
  destruct r1 as [|c r2]; [done|].
  destruct (decide (c = "."%char)) as [->|Hne].
  2:{ destruct c as [[] [] [] [] [] [] [] []]; done. }
  destruct (span is_digit r2) as [f0 r3]. destruct (truthy f0 && at_end r3); [|done].
  by intros [= <- <-].
Qed.

Section NormalizerShape.
Variable try_serial : string → option string → option string.
Hypothesis try_serial_shape :
  ∀ i f r, str_all is_digit i = true → try_serial i f = Some r → eight_digits r = true.

(** The test of the second branch. *)
Lemma eight_test s : (len s =? 8) && isdigit s = eight_isdigit s.
Proof.
  unfold eight_isdigit, isdigit. change 8 with (Z.of_nat 8). rewrite len_eq.
  destruct (String.length s =? 8)%nat eqn:E; [|done]. cbn [andb].
  apply Nat.eqb_eq in E. by destruct s.
Qed.

(** Every returned text is empty or made of eight characters that
    [str.isdigit] accepts, and it is empty only for a blank input. *)
Lemma yyyymmdd_body_shape s r :
  yyyymmdd_body try_serial s = Ok r →
  (r = "" ∧ strip s = "") ∨ (eight_isdigit r = true ∧ strip s ≠ "").
Proof.
  unfold yyyymmdd_body, _strip.
  destruct (truthy (strip s)) eqn:Ht; cbn [negb].
  2:{ intros [= <-]. left. by apply truthy_false in Ht. }
  apply truthy_ne in Ht. intros H. right. split; [|done]. revert H.
  rewrite eight_test.
  destruct (eight_isdigit (strip s)) eqn:H8.
  { by intros [= <-]. }
  destruct (match_iso (strip s)) as [[[y m] d]|] eqn:Hiso.
  { intros [= <-]. destruct (match_iso_groups _ _ _ _ Hiso) as (Ly & Lm & Ld & Dy & Dm & Dd).
    apply eight_digits_isdigit, eight_digits_spec.
    rewrite !str_length_app, !str_all_app, Ly, Lm, Ld, Dy, Dm, Dd.
    done. }
  destruct (match_numeric (strip s) ≫= _) as [r0|] eqn:Hnum.
  { intros [= <-]. destruct (match_numeric (strip s)) as [[i f]|] eqn:Hm; [|done].
    cbn in Hnum. apply eight_digits_isdigit. eapply try_serial_shape; [|exact Hnum].
    by apply (match_numeric_digits _ _ _ Hm). }
  destruct (match_mdy (strip s)) as [[[mm dd] yy]|] eqn:Hmdy; [|done].
  intros [= <-]. destruct (match_mdy_groups _ _ _ _ Hmdy) as (Lm & Ld & Ly & Dm & Dd & Dy).
  destruct (fmt_02d_shape (digits_val mm)) as [L1 D1];
    [apply digits_val_two; [lia|done]|].
  destruct (fmt_02d_shape (digits_val dd)) as [L2 D2];
    [apply digits_val_two; [lia|done]|].
  apply eight_digits_isdigit, eight_digits_spec.
  rewrite !str_length_app, !str_all_app, Ly, L1, L2, Dy, D1, D2.
  done.
Qed.

(** Normalizing a returned text again returns it unchanged. *)
Lemma yyyymmdd_body_idempotent s r :
  yyyymmdd_body try_serial s = Ok r → yyyymmdd_body try_serial r = Ok r.
Proof.
  intros H. destruct (yyyymmdd_body_shape s r H) as [[-> _]|[H8 _]]; [done|].
  apply eight_isdigit_spec in H8 as [Hl Hd]. by apply yyyymmdd_body_eight_pydigits.
Qed.
End NormalizerShape.

Section NormalizerAny.
Variable try_serial : string → option string → option string.

(** Surrounding whitespace never changes the result. *)
Lemma yyyymmdd_body_trim s :
  yyyymmdd_body try_serial (strip s) = yyyymmdd_body try_serial s.
Proof. unfold yyyymmdd_body, _strip. by rewrite strip_idem. Qed.

(** The only exception is the bad-date [ValueError], which quotes the
    trimmed input; it is raised exactly when the trimmed input is not empty
    and every branch declines it. *)
Lemma yyyymmdd_body_raise s e :
  yyyymmdd_body try_serial s = Raise e
  ↔ e = ValueError (bad_date_msg (strip s)) ∧ strip s ≠ ""
    ∧ eight_isdigit (strip s) = false
    ∧ match_iso (strip s) = None ∧ match_mdy (strip s) = None
    ∧ (∀ i f, match_numeric (strip s) = Some (i, f) → try_serial i f = None).
Proof.
  unfold yyyymmdd_body, _strip. rewrite eight_test.
  destruct (truthy (strip s)) eqn:Ht; cbn [negb].
  2:{ apply truthy_false in Ht. split; [done|]. by intros (_ & H & _). }
  apply truthy_ne in Ht.
  destruct (eight_isdigit (strip s)); [split; [done|by intros (_ & _ & H & _)]|].
  destruct (match_iso (strip s)) as [[[y m] d]|];
    [split; [done|by intros (_ & _ & _ & H & _)]|].
  destruct (match_numeric (strip s)) as [[i f]|]; cbn [mbind option_bind].
  - destruct (try_serial i f) as [r|] eqn:Hser.
    + split; [done|]. intros (_ & _ & _ & _ & _ & H).
      specialize (H i f eq_refl). congruence.
    + destruct (match_mdy (strip s)) as [[[mm dd] yy]|];
        [split; [done|by intros (_ & _ & _ & _ & H & _)]|].
      split.
      * intros [= <-]. repeat split; try done. by intros i' f' [= <- <-].
      * by intros (-> & _).
  - destruct (match_mdy (strip s)) as [[[mm dd] yy]|];
      [split; [done|by intros (_ & _ & _ & _ & H & _)]|].
    split.
    + intros [= <-]. repeat split; done.
    + by intros (-> & _).
Qed.
End NormalizerAny.

(** ** The calendar conversion *)

Lemma days_before_month_values y :
  days_before_month y 1 = 0
  ∧ days_before_month y 2 = 31
  ∧ days_before_month y 3 = 31 + days_in_month y 2
  ∧ days_before_month y 4 = 62 + days_in_month y 2
  ∧ days_before_month y 5 = 92 + days_in_month y 2
  ∧ days_before_month y 6 = 123 + days_in_month y 2
  ∧ days_before_month y 7 = 153 + days_in_month y 2
  ∧ days_before_month y 8 = 184 + days_in_month y 2
  ∧ days_before_month y 9 = 215 + days_in_month y 2
  ∧ days_before_month y 10 = 245 + days_in_month y 2
  ∧ days_before_month y 11 = 276 + days_in_month y 2
  ∧ days_before_month y 12 = 306 + days_in_month y 2.
Proof.
  repeat split; cbv -[is_leap]; destruct (is_leap y); reflexivity.
Qed.

Lemma days_in_february y : 28 ≤ days_in_month y 2 ≤ 29.
Proof. unfold days_in_month. cbn. destruct (is_leap y); lia. Qed.

Lemma days_in_month_values y :
  days_in_month y 1 = 31 ∧ days_in_month y 3 = 31 ∧ days_in_month y 4 = 30
  ∧ days_in_month y 5 = 31 ∧ days_in_month y 6 = 30 ∧ days_in_month y 7 = 31
  ∧ days_in_month y 8 = 31 ∧ days_in_month y 9 = 30 ∧ days_in_month y 10 = 31
  ∧ days_in_month y 11 = 30 ∧ days_in_month y 12 = 31.
Proof. repeat split; reflexivity. Qed.

(** Within the range of [datetime] the conversion yields a year of at most
    four digits, a month and a day of the month. *)
Lemma ord2ymd_bounds n :
  1 ≤ n ≤ MAXORDINAL →
  ∃ y m d, ord2ymd n = (y, m, d) ∧ 1 ≤ y ≤ 9999 ∧ 1 ≤ m ≤ 12 ∧ 1 ≤ d ≤ 31.
Proof.
  unfold MAXORDINAL, ord2ymd. intros Hn.
  set (n0 := n - 1).
  set (n400 := n0 / 146097). set (r1 := n0 mod 146097).
  set (n100 := r1 / 36524). set (r2 := r1 mod 36524).
  set (n4 := r2 / 1461). set (r3 := r2 mod 1461).
  set (n1 := r3 / 365). set (r4 := r3 mod 365).
  set (year := n400 * 400 + 1 + n100 * 100 + n4 * 4 + n1).
  assert (0 ≤ n400 ∧ 0 ≤ n100 ≤ 4 ∧ 0 ≤ n4 ≤ 24 ∧ 0 ≤ n1 ≤ 4 ∧ 0 ≤ r4 ≤ 364
          ∧ 1 ≤ year ∧ (n1 ≠ 4 → n100 ≠ 4 → year ≤ 9999)
          ∧ (n1 = 4 ∨ n100 = 4 → year - 1 ≤ 9999 ∧ 1 ≤ year - 1)) as Hq.
  { subst year n400 r1 n100 r2 n4 r3 n1 r4 n0. Z.div_mod_to_equations. lia. }
  destruct Hq as (H400 & H100 & H4 & H1 & Hr4 & Hy1 & Hy & Hy').
  destruct ((n1 =? 4) || (n100 =? 4)) eqn:Hspecial.
  { exists (year - 1), 12, 31. split; [done|].
    apply orb_true_iff in Hspecial as [E|E]; apply Z.eqb_eq in E; lia. }
  apply orb_false_iff in Hspecial as [E1 E2]. apply Z.eqb_neq in E1, E2.
  specialize (Hy E1 E2).
  rewrite Z.shiftr_div_pow2 by lia. change (2 ^ 5) with 32.
  set (month := (r4 + 50) / 32).
  assert (1 ≤ month ≤ 12 ∧ 32 * month - 50 ≤ r4 ≤ 32 * month - 19) as [Hm Hr].
  { subst month. Z.div_mod_to_equations. lia. }
  pose proof (days_before_month_values year) as (B1&B2&B3&B4&B5&B6&B7&B8&B9&B10&B11&B12).
  pose proof (days_in_month_values year) as (M1&M3&M4&M5&M6&M7&M8&M9&M10&M11&M12).
  pose proof (days_in_february year) as Hfeb.
  assert (month = 1 ∨ month = 2 ∨ month = 3 ∨ month = 4 ∨ month = 5 ∨ month = 6
          ∨ month = 7 ∨ month = 8 ∨ month = 9 ∨ month = 10 ∨ month = 11 ∨ month = 12)
    as Hcases by lia.
  clearbody month year r4.
  destruct Hcases as [->|[->|[->|[->|[->|[->|[->|[->|[->|[->|[->| ->]]]]]]]]]]];
    repeat match goal with
           | |- context [Z.pos ?p - 1] =>
               let v := eval vm_compute in (Z.pos p - 1) in
               change (Z.pos p - 1) with v
           end;
    rewrite ?B1, ?B2, ?B3, ?B4, ?B5, ?B6, ?B7, ?B8, ?B9, ?B10, ?B11, ?B12;
    match goal with
    | |- context [?a >? ?b] => destruct (Z.gtb_spec a b) as [Hgt|Hgt]
    end;
    eexists _, _, _; (split; [reflexivity|]);
    rewrite ?M1, ?M3, ?M4, ?M5, ?M6, ?M7, ?M8, ?M9, ?M10, ?M11, ?M12; lia.
Qed.

Lemma strftime_shape y m d :
  1 ≤ y ≤ 9999 → 1 ≤ m ≤ 12 → 1 ≤ d ≤ 31 → eight_digits (strftime_Ymd (y, m, d)) = true.
Proof.
  intros Hy Hm Hd. unfold strftime_Ymd.
  destruct (fmt_04d_shape y ltac:(lia)) as [Ly Dy].
  destruct (fmt_02d_shape m ltac:(lia)) as [Lm Dm].
  destruct (fmt_02d_shape d ltac:(lia)) as [Ld Dd].
  apply eight_digits_spec. by rewrite !str_length_app, !str_all_app, Ly, Lm, Ld, Dy, Dm, Dd.
Qed.

Lemma digits_val_nonneg s : str_all is_digit s = true → 0 ≤ digits_val s.
Proof. apply digits_val_acc_nonneg. lia. Qed.

Lemma onefile_try_serial_None i f :
  str_all is_digit i = true →
  (OneFile.try_serial i f = None ↔ MAXORDINAL - OneFile.EPOCH < digits_val i).
Proof.
  intros _. unfold OneFile.try_serial.
  change OneFile.EPOCH with 693594. unfold MAXORDINAL, MAX_DELTA_DAYS.
  destruct (digits_val i >? 999999999) eqn:H1;
    destruct (693594 + digits_val i >? 3652059) eqn:H2; split; try done; lia.
Qed.

Lemma onefile_try_serial_shape i f r :
  str_all is_digit i = true → OneFile.try_serial i f = Some r → eight_digits r = true.
Proof.
  intros Hi. unfold OneFile.try_serial. pose proof (digits_val_nonneg i Hi) as H0.
  destruct (digits_val i >? MAX_DELTA_DAYS); [done|].
  destruct (Z.gtb_spec (OneFile.EPOCH + digits_val i) MAXORDINAL) as [|Hle]; [done|].
  intros [= <-].
  destruct (ord2ymd_bounds (OneFile.EPOCH + digits_val i)) as (y & m & d & -> & Hy & Hm & Hd).
  { change OneFile.EPOCH with 693594 in *. lia. }
  by apply strftime_shape.
Qed.

Lemma generator_try_serial_shape i f r :
  str_all is_digit i = true → Generator.try_serial i f = Some r → eight_digits r = true.
Proof. done. Qed.

(** X6: in both programs every text the date normalizer returns is either
    empty or made of exactly eight characters that [str.isdigit] accepts
    (the digits 0 to 9, and also digit characters such as the superscript
    two, which the eight-character branch lets through unchanged); it is
    empty exactly when the input is blank. *)
Theorem X_yyyymmdd_result_shape (s r : string) :
  Generator.yyyymmdd s = Ok r ∨ OneFile.yyyymmdd s = Ok r →
  (r = "" ∧ strip s = "") ∨ (eight_isdigit r = true ∧ strip s ≠ "").
Proof.
  intros [H|H].
  - exact (yyyymmdd_body_shape _ generator_try_serial_shape s r H).
  - exact (yyyymmdd_body_shape _ onefile_try_serial_shape s r H).
Qed.

Lemma X_yyyymmdd_result_shape_witness :
  ("20240307" = "" ∧ strip " 3/7/2024" = "")
  ∨ (eight_isdigit "20240307" = true ∧ strip " 3/7/2024" ≠ "").
Proof.
  apply (X_yyyymmdd_result_shape " 3/7/2024" "20240307"). left. vm_compute. reflexivity.
Defined.

(** A text of eight characters ending in the superscript two is returned
    unchanged by both programs. *)
Example yyyymmdd_superscript :
  Generator.yyyymmdd ("2024010" +:+ String "178"%char "")
  = Ok ("2024010" +:+ String "178"%char "")
  ∧ OneFile.yyyymmdd ("2024010" +:+ String "178"%char "")
    = Ok ("2024010" +:+ String "178"%char "").
Proof. split; vm_compute; reflexivity. Qed.

(** X7: the date normalizer is idempotent and ignores surrounding
    whitespace: in both programs a returned text is returned unchanged when
    normalized again, and trimming the input first changes nothing. *)
Theorem X_yyyymmdd_idempotent (s : string) :
  (∀ r, Generator.yyyymmdd s = Ok r → Generator.yyyymmdd r = Ok r)
  ∧ (∀ r, OneFile.yyyymmdd s = Ok r → OneFile.yyyymmdd r = Ok r)
  ∧ Generator.yyyymmdd (strip s) = Generator.yyyymmdd s
  ∧ OneFile.yyyymmdd (strip s) = OneFile.yyyymmdd s.
Proof.
  split; [|split; [|split]].
  - intros r. apply (yyyymmdd_body_idempotent _ generator_try_serial_shape).
  - intros r. apply (yyyymmdd_body_idempotent _ onefile_try_serial_shape).
  - apply yyyymmdd_body_trim.
  - apply yyyymmdd_body_trim.
Qed.

(** X8: the only exception of the date normalizer is the [ValueError] whose
    message quotes the trimmed input.  Call a text declined when its trimmed
    form is not empty, is not a text of eight characters accepted by
    [str.isdigit], and matches neither YYYY-MM-DD nor M/D/YYYY.  The
    command-line generator raises exactly on the declined texts.  The
    single-file application raises only on declined texts, and never on a
    number whose whole part is below 2958465, the last day [datetime] can
    hold counted from 1899-12-30; it raises on every declined text that is
    not a number or is a number whose whole part exceeds 2958465. *)
Theorem X_yyyymmdd_error (s : string) (e : exn) :
  let declined :=
    e = ValueError ("Bad date '" +:+ strip s +:+ "' (expected YYYYMMDD or YYYY-MM-DD)")
    ∧ strip s ≠ "" ∧ eight_isdigit (strip s) = false
    ∧ match_iso (strip s) = None ∧ match_mdy (strip s) = None in
  (Generator.yyyymmdd s = Raise e ↔ declined)
  ∧ (OneFile.yyyymmdd s = Raise e →
     declined ∧ ∀ i f, match_numeric (strip s) = Some (i, f) → 2958465 ≤ digits_val i)
  ∧ (declined →
     (∀ i f, match_numeric (strip s) = Some (i, f) → 2958465 < digits_val i) →
     OneFile.yyyymmdd s = Raise e).
Proof.
  intros declined. unfold Generator.yyyymmdd, OneFile.yyyymmdd.
  rewrite !yyyymmdd_body_raise. fold (bad_date_msg (strip s)). subst declined.
  split; [|split].
  - split; [tauto|]. intros (H1 & H2 & H3 & H4 & H5). by repeat split.
  - intros (H1 & H2 & H3 & H4 & H5 & H6). split; [tauto|].
    intros i f Hm. specialize (H6 i f Hm).
    apply (onefile_try_serial_None i f (match_numeric_digits _ _ _ Hm)) in H6.
    change (MAXORDINAL - OneFile.EPOCH) with 2958465 in H6. lia.
  - intros (H1 & H2 & H3 & H4 & H5) H6. repeat split; try done.
    intros i f Hm.
    apply (onefile_try_serial_None i f (match_numeric_digits _ _ _ Hm)).
    exact (H6 i f Hm).
Qed.

(** A text nobody can read as a date, and a serial number beyond the last
    day. *)
Example yyyymmdd_declined :
  Generator.yyyymmdd " next week "
  = Raise (ValueError "Bad date 'next week' (expected YYYYMMDD or YYYY-MM-DD)")
  ∧ OneFile.yyyymmdd "2958466"
    = Raise (ValueError "Bad date '2958466' (expected YYYYMMDD or YYYY-MM-DD)")
  ∧ OneFile.yyyymmdd "2958465" = Ok "99991231".
Proof. repeat split; vm_compute; reflexivity. Qed.

Lemma strip_no_space s : str_all (λ c, negb (isspace c)) s = true → strip s = s.
Proof. intros H. unfold strip. by rewrite lstrip_no_space, rstrip_no_space. Qed.

Lemma digits_no_space s :
  str_all is_digit s = true → str_all (λ c, negb (isspace c)) s = true.
Proof. apply str_all_impl. intros c Hc. by rewrite is_digit_not_space. Qed.

Lemma is_digit_cases c :
  is_digit c = true →
  c ∈ ["0"; "1"; "2"; "3"; "4"; "5"; "6"; "7"; "8"; "9"]%char.
Proof.
  destruct c as [[] [] [] [] [] [] [] []]; try discriminate; intros _;
    repeat (first [left; reflexivity | right]).
Qed.

(** Zero padding of a month or day of one or two digits. *)
Lemma fmt_02d_digits s :
  (1 ≤ String.length s ≤ 2)%nat → str_all is_digit s = true →
  fmt_0d 2 (digits_val s) = if (String.length s =? 1)%nat then "0" +:+ s else s.
Proof.
  intros Hlen Hd. destruct s as [|c1 [|c2 [|c3 s]]]; cbn in Hlen; try lia.
  - cbn in Hd. apply andb_true_iff in Hd as [H1 _].
    apply is_digit_cases in H1.
    repeat (apply elem_of_cons in H1 as [->|H1]; [vm_compute; reflexivity|]).
    by apply elem_of_nil in H1.
  - cbn in Hd. apply andb_true_iff in Hd as [H1 Hd]. apply andb_true_iff in Hd as [H2 _].
    apply is_digit_cases in H1. apply is_digit_cases in H2.
    repeat (apply elem_of_cons in H1 as [->|H1];
            [repeat (apply elem_of_cons in H2 as [->|H2]; [vm_compute; reflexivity|]);
             by apply elem_of_nil in H2|]).
    by apply elem_of_nil in H1.
Qed.

(** X9: a text of the form YYYY-MM-DD is turned into the eight digits
    YYYYMMDD by dropping the hyphens, in both programs and for any digits:
    month and day are not checked against the calendar. *)
Theorem X_yyyymmdd_iso (y m d : string) :
  String.length y = 4%nat → String.length m = 2%nat → String.length d = 2%nat →
  str_all is_digit y = true → str_all is_digit m = true → str_all is_digit d = true →
  Generator.yyyymmdd (y +:+ "-" +:+ m +:+ "-" +:+ d) = Ok (y +:+ m +:+ d)
  ∧ OneFile.yyyymmdd (y +:+ "-" +:+ m +:+ "-" +:+ d) = Ok (y +:+ m +:+ d).
Proof.
  intros Ly Lm Ld Dy Dm Dd.
  assert (∀ ts, yyyymmdd_body ts (y +:+ "-" +:+ m +:+ "-" +:+ d) = Ok (y +:+ m +:+ d)) as H.
  { intros ts. unfold yyyymmdd_body, _strip.
    rewrite strip_no_space.
    2:{ rewrite !str_all_app, !(digits_no_space _ Dy), !(digits_no_space _ Dm),
          !(digits_no_space _ Dd). reflexivity. }
    assert (truthy (y +:+ "-" +:+ m +:+ "-" +:+ d) = true) as -> by (by destruct y).
    cbn [negb].
    assert ((len (y +:+ "-" +:+ m +:+ "-" +:+ d) =? 8) = false) as ->.
    { unfold len. rewrite !str_length_app, Ly, Lm, Ld. reflexivity. }
    cbn [andb].
    assert (match_iso (y +:+ "-" +:+ m +:+ "-" +:+ d) = Some (y, m, d)) as ->; [|done].
    unfold match_iso.
    rewrite (span_app is_digit y) by (done || by intros c [= <-]).
    change ("-" +:+ m +:+ "-" +:+ d) with (String "-" (m +:+ "-" +:+ d)). cbv iota beta.
    rewrite (span_app is_digit m) by (done || by intros c [= <-]).
    change ("-" +:+ d) with (String "-" d). cbv iota beta.
    rewrite (span_all _ _ Dd).
    unfold len. rewrite Ly, Lm, Ld. reflexivity. }
  split; apply H.
Qed.

Lemma X_yyyymmdd_iso_witness :
  Generator.yyyymmdd ("2024" +:+ "-" +:+ "13" +:+ "-" +:+ "45") = Ok ("2024" +:+ "13" +:+ "45")
  ∧ OneFile.yyyymmdd ("2024" +:+ "-" +:+ "13" +:+ "-" +:+ "45") = Ok ("2024" +:+ "13" +:+ "45").
Proof. apply (X_yyyymmdd_iso "2024" "13" "45"); reflexivity. Defined.

(** X10: a text of the form M/D/YYYY, with a month and a day of one or two
    digits, is turned into YYYY followed by the month and the day padded
    with a zero to two digits, in both programs. *)
Theorem X_yyyymmdd_mdy (mm dd yy : string) :
  (1 ≤ String.length mm ≤ 2)%nat → (1 ≤ String.length dd ≤ 2)%nat →
  String.length yy = 4%nat →
  str_all is_digit mm = true → str_all is_digit dd = true → str_all is_digit yy = true →
  let pad s := if (String.length s =? 1)%nat then "0" +:+ s else s in
  Generator.yyyymmdd (mm +:+ "/" +:+ dd +:+ "/" +:+ yy) = Ok (yy +:+ pad mm +:+ pad dd)
  ∧ OneFile.yyyymmdd (mm +:+ "/" +:+ dd +:+ "/" +:+ yy) = Ok (yy +:+ pad mm +:+ pad dd).
Proof.
  intros Lm Ld Ly Dm Dd Dy pad.
  assert (∀ ts, yyyymmdd_body ts (mm +:+ "/" +:+ dd +:+ "/" +:+ yy)
                = Ok (yy +:+ pad mm +:+ pad dd)) as H.
  { intros ts. unfold yyyymmdd_body, _strip.
    rewrite strip_no_space.
    2:{ rewrite !str_all_app, !(digits_no_space _ Dy), !(digits_no_space _ Dm),
          !(digits_no_space _ Dd). reflexivity. }
    assert (truthy (mm +:+ "/" +:+ dd +:+ "/" +:+ yy) = true) as -> by (by destruct mm).
    cbn [negb].
    assert (isdigit (mm +:+ "/" +:+ dd +:+ "/" +:+ yy) = false) as ->.
    { unfold isdigit. rewrite !str_all_app. cbn. by rewrite !andb_false_r. }
    rewrite andb_false_r.
    assert (span is_digit (mm +:+ "/" +:+ dd +:+ "/" +:+ yy)
            = (mm, String "/" (dd +:+ "/" +:+ yy))) as Hspan.
    { apply (span_app is_digit mm); [done|]. by intros c [= <-]. }
    assert (match_iso (mm +:+ "/" +:+ dd +:+ "/" +:+ yy) = None) as ->.
    { unfold match_iso. by rewrite Hspan. }
    assert (match_numeric (mm +:+ "/" +:+ dd +:+ "/" +:+ yy) = None) as ->.
    { unfold match_numeric. rewrite Hspan. destruct (truthy mm); cbn [negb]; [|done].
      assert (at_end (String "/" (dd +:+ "/" +:+ yy)) = false) as ->; [|done].
      by destruct dd. }
    cbn [mbind option_bind].
    assert (match_mdy (mm +:+ "/" +:+ dd +:+ "/" +:+ yy) = Some (mm, dd, yy)) as ->.
    { unfold match_mdy. rewrite Hspan. cbv iota beta.
      rewrite (span_app is_digit dd) by (done || by intros c [= <-]).
      change ("/" +:+ yy) with (String "/" yy). cbv iota beta.
      rewrite (span_all _ _ Dy). unfold len. rewrite Ly.
      destruct (1 <=? Z.of_nat (String.length mm)) eqn:E1; [|apply Z.leb_gt in E1; lia].
      destruct (Z.of_nat (String.length mm) <=? 2) eqn:E2; [|apply Z.leb_gt in E2; lia].
      destruct (1 <=? Z.of_nat (String.length dd)) eqn:E3; [|apply Z.leb_gt in E3; lia].
      destruct (Z.of_nat (String.length dd) <=? 2) eqn:E4; [|apply Z.leb_gt in E4; lia].
      reflexivity. }
    by rewrite !fmt_02d_digits. }
  split; apply H.
Qed.

Lemma X_yyyymmdd_mdy_witness :
  let pad s := if (String.length s =? 1)%nat then "0" +:+ s else s in
  Generator.yyyymmdd ("3" +:+ "/" +:+ "17" +:+ "/" +:+ "2024") = Ok ("2024" +:+ pad "3" +:+ pad "17")
  ∧ OneFile.yyyymmdd ("3" +:+ "/" +:+ "17" +:+ "/" +:+ "2024") = Ok ("2024" +:+ pad "3" +:+ pad "17").
Proof. apply (X_yyyymmdd_mdy "3" "17" "2024"); (reflexivity || cbn; lia). Defined.

(** ** The Settings sheet *)

Lemma settings_kv_fold cells :
  settings_kv cells = foldl (settings_step cells) ∅ (seq 1 (max_row cells)).
Proof. reflexivity. Qed.

Lemma settings_step_cases cells kv r :
  (setting_key_ok (setting_label cells r)
   ∧ settings_step cells kv r = <[setting_label cells r := setting_value cells r]> kv)
  ∨ (¬ setting_key_ok (setting_label cells r) ∧ settings_step cells kv r = kv).
Proof.
  unfold settings_step, setting_key_ok, setting_label, setting_value, _strip.
  destruct (truthy (strip (cell_at cells r 1))) eqn:Ht; cbn [andb].
  - apply truthy_ne in Ht.
    destruct (bool_decide _) eqn:Hb; cbn [negb].
    + apply bool_decide_eq_true in Hb. right. split; [|done]. by intros [_ H].
    + apply bool_decide_eq_false in Hb. by left.
  - apply truthy_false in Ht. right. split; [|done]. by intros [H _].
Qed.

Lemma settings_fold_lookup cells (kv : gmap string string) rows k v :
  foldl (settings_step cells) kv rows !! k = Some v →
  kv !! k = Some v
  ∨ (setting_key_ok k ∧ ∃ r, r ∈ rows ∧ setting_label cells r = k ∧ setting_value cells r = v).
Proof.
  revert kv. induction rows as [|r rows IH]; intros kv; cbn [foldl]; [by left|].
  intros H. apply IH in H as [H|(Hok & r' & Hr' & Hl & Hv)].
  - destruct (settings_step_cases cells kv r) as [[Hok E]|[_ E]];
      rewrite E in H; [|by left].
    destruct (decide (setting_label cells r = k)) as [Heq|Hne].
    + rewrite Heq, lookup_insert_eq in H. injection H as <-. right.
      split; [by rewrite <- Heq|]. exists r. by split; [left|].
    + rewrite lookup_insert_ne in H by done. by left.
  - right. split; [done|]. exists r'. by split; [right|].
Qed.

Lemma settings_fold_keep cells (kv : gmap string string) rows k v :
  kv !! k = Some v → Forall (λ r, setting_label cells r ≠ k) rows →
  foldl (settings_step cells) kv rows !! k = Some v.
Proof.
  revert kv. induction rows as [|r rows IH]; intros kv Hkv Hall; [done|].
  apply Forall_cons in Hall as [Hr Hall]. cbn [foldl]. apply IH; [|done].
  destruct (settings_step_cases cells kv r) as [[_ ->]|[_ ->]]; [|done].
  by rewrite lookup_insert_ne.
Qed.

(** X11: the Settings sheet becomes one mapping from label (column 1,
    trimmed) to value (column 2, trimmed).  Every entry comes from a row
    1..max_row whose label is accepted (not empty and, ignoring case, not
    one of the two heading texts), and when several rows carry a label the
    last one supplies the value.  A non-empty grid under a name that is
    "settings" in any letter case yields exactly this one mapping. *)
Theorem X_settings_last_write_wins (cells : gmap (nat * nat) string) :
  (∀ k v, settings_kv cells !! k = Some v →
     setting_key_ok k
     ∧ ∃ r, (1 ≤ r ≤ max_row cells)%nat ∧ setting_label cells r = k
            ∧ setting_value cells r = v)
  ∧ (∀ r, (1 ≤ r ≤ max_row cells)%nat → setting_key_ok (setting_label cells r) →
       (∀ r', (r < r' ≤ max_row cells)%nat → setting_label cells r' ≠ setting_label cells r) →
       settings_kv cells !! setting_label cells r = Some (setting_value cells r))
  ∧ (∀ name, lower name = "settings" → cells ≠ ∅ →
       project_sheet name cells = [settings_kv cells]).
Proof.
  split; [|split].
  - intros k v H. rewrite settings_kv_fold in H.
    apply settings_fold_lookup in H as [H|(Hok & r & Hr & Hl & Hv)]; [done|].
    split; [done|]. exists r. apply elem_of_seq in Hr. split; [lia|done].
  - intros r Hr Hok Hlast. rewrite settings_kv_fold.
    assert (seq 1 (max_row cells)
            = seq 1 (r - 1) ++ r :: seq (S r) (max_row cells - r)) as ->.
    { transitivity (seq 1 ((r - 1) + S (max_row cells - r))); [f_equal; lia|].
      rewrite seq_app. cbn [seq]. repeat f_equal; lia. }
    rewrite foldl_app. cbn [foldl].
    apply settings_fold_keep.
    + destruct (settings_step_cases cells (foldl (settings_step cells) ∅ (seq 1 (r - 1))) r)
        as [[_ ->]|[Hno _]]; [|done].
      apply lookup_insert_eq.
    + apply Forall_forall. intros r' Hr'. apply elem_of_seq in Hr'. apply Hlast. lia.
  - intros name Hname Hne. unfold project_sheet.
    rewrite bool_decide_eq_false_2 by done. by rewrite bool_decide_eq_true_2.
Qed.

(** ** The plan map and the dependents index *)

Lemma plan_map_fold_Some (acc : gmap string (gmap string string)) plans k r :
  foldl (λ (plan_map : gmap string (gmap string string)) r,
           let key := _strip (r !! "Plan_Key") in
           if truthy key then <[key := r]> plan_map else plan_map) acc plans !! k = Some r →
  acc !! k = Some r ∨ (k ≠ "" ∧ r ∈ plans ∧ _strip (r !! "Plan_Key") = k).
Proof.
  revert acc. induction plans as [|p plans IH]; intros acc; cbn [foldl]; [by left|].
  intros H. apply IH in H as [H|(Hk & Hin & Hkey)].
  - destruct (truthy (_strip (p !! "Plan_Key"))) eqn:Ht; [|by left].
    apply truthy_ne in Ht.
    destruct (decide (_strip (p !! "Plan_Key") = k)) as [Heq|Hne].
    + rewrite Heq, lookup_insert_eq in H. injection H as <-. right.
      split; [by rewrite <- Heq|]. by split; [left|].
    + rewrite lookup_insert_ne in H by done. by left.
  - right. split; [done|]. by split; [right|].
Qed.

Lemma plan_map_fold_keep (acc : gmap string (gmap string string)) plans k r :
  acc !! k = Some r → Forall (λ r', _strip (r' !! "Plan_Key") ≠ k) plans →
  foldl (λ (plan_map : gmap string (gmap string string)) r,
           let key := _strip (r !! "Plan_Key") in
           if truthy key then <[key := r]> plan_map else plan_map) acc plans !! k = Some r.
Proof.
  revert acc. induction plans as [|p plans IH]; intros acc Hacc Hall; [done|].
  apply Forall_cons in Hall as [Hp Hall]. cbn [foldl]. apply IH; [|done].
  destruct (truthy (_strip (p !! "Plan_Key"))); [|done].
  by rewrite lookup_insert_ne.
Qed.

(** X12: the plan map holds, under each non-empty trimmed Plan_Key, the
    LAST row of the Plans table with that key; rows whose key is empty are
    not entered, and the map has no other entries. *)
Theorem X_plan_map_last_row_wins (plans : list (gmap string string)) :
  (∀ k r, build_plan_map plans !! k = Some r →
     k ≠ "" ∧ r ∈ plans ∧ _strip (r !! "Plan_Key") = k)
  ∧ (∀ pre r post, plans = pre ++ r :: post →
       _strip (r !! "Plan_Key") ≠ "" →
       Forall (λ r', _strip (r' !! "Plan_Key") ≠ _strip (r !! "Plan_Key")) post →
       build_plan_map plans !! _strip (r !! "Plan_Key") = Some r)
  ∧ (∀ k, k ≠ "" →
       (build_plan_map plans !! k = None
        ↔ Forall (λ r, _strip (r !! "Plan_Key") ≠ k) plans)).
Proof.
  split; [|split].
  - intros k r H. unfold build_plan_map in H.
    by apply plan_map_fold_Some in H as [H|H].
  - intros pre r post -> Hkey Hpost. unfold build_plan_map.
    rewrite foldl_app. cbn [foldl]. apply plan_map_fold_keep; [|done].
    apply truthy_ne in Hkey. rewrite Hkey. apply lookup_insert_eq.
  - intros k Hk. by apply plan_map_lookup_None.
Qed.

Lemma deps_by_sub_fold_lookup (acc : gmap string (list (gmap string string))) deps k :
  foldl (λ (deps_by_sub : gmap string (list (gmap string string))) d,
           let sid := _strip (d !! "Subscriber_ID") in
           if negb (truthy sid) then deps_by_sub
           else <[sid := default [] (deps_by_sub !! sid) ++ [d]]> deps_by_sub) acc deps !! k
  = if decide (k = "" ∨ filter (λ d, dep_sid d = k) deps = []) then acc !! k
    else Some (default [] (acc !! k) ++ filter (λ d, dep_sid d = k) deps).
Proof.
  revert acc. induction deps as [|d deps IH]; intros acc; cbn [foldl].
  - rewrite filter_nil. by rewrite decide_True by by right.
  - rewrite IH, filter_cons.
    destruct (decide (dep_sid d = k)) as [Heq|Hne]; unfold dep_sid in Heq || unfold dep_sid in Hne.
    + destruct (truthy (_strip (d !! "Subscriber_ID"))) eqn:Ht; cbn [negb].
      * apply truthy_ne in Ht. rewrite Heq, lookup_insert_eq. cbn [default]. unfold id.
        assert (k ≠ "") as Hk by by rewrite <- Heq.
        rewrite (decide_False (P := k = "" ∨ d :: _ = [])) by (by intros [?|?]).
        destruct (decide (k = "" ∨ filter (λ d0, dep_sid d0 = k) deps = []))
          as [[?|E]|_]; [done|by rewrite E|].
        by rewrite <- app_assoc.
      * apply truthy_false in Ht.
        rewrite !decide_True; [done|left; congruence|left; congruence].
    + destruct (truthy (_strip (d !! "Subscriber_ID"))) eqn:Ht; cbn [negb]; [|done].
      by rewrite lookup_insert_ne.
Qed.

(** X13: the dependents index groups the rows of the Dependents table by
    trimmed Subscriber_ID, keeping the table's order inside each group.
    The empty identifier is never a key, and no key holds an empty list. *)
Theorem X_deps_by_sub_groups (deps : list (gmap string string)) (k : string) :
  build_deps_by_sub deps !! k
  = if decide (k = "" ∨ filter (λ d, dep_sid d = k) deps = []) then None
    else Some (filter (λ d, dep_sid d = k) deps).
Proof.
  unfold build_deps_by_sub. rewrite deps_by_sub_fold_lookup, lookup_empty.
  by destruct (decide _).
Qed.

(** ** The workbook reader *)

Lemma read_xlsx_tables_fold pkg :
  read_xlsx_tables pkg = foldl (read_step pkg) (Ok ∅) (sheets pkg).
Proof.
  unfold read_xlsx_tables. f_equal.
Qed.

Lemma read_step_cases pkg (acc : Tables) name rid :
  read_step pkg (Ok acc) (name, rid)
  = if is_worksheet pkg rid then
      match parts pkg !! sheet_path pkg rid with
      | Some elems =>
          Ok (<[name := project_sheet name (parse_cells (shared_strings pkg) elems)]> acc)
      | None =>
          Raise (KeyError ("There is no item named '" +:+ sheet_path pkg rid
                           +:+ "' in the archive"))
      end
    else Ok acc.
Proof.
  unfold read_step, is_worksheet, sheet_path, sheet_target, parse_sheet.
  cbn [mbind result_bind].
  destruct (truthy _); cbn [negb orb andb]; [|done].
  destruct (startswith _ _); cbn [negb]; [|done].
  by destruct (parts pkg !! _).
Qed.

Lemma read_fold_raise pkg e l : foldl (read_step pkg) (Raise e) l = Raise e.
Proof. induction l as [|[name rid] l IH]; [done|]. cbn [foldl]. exact IH. Qed.



Lemma read_fold_inv pkg (acc tables : Tables) l :
  foldl (read_step pkg) (Ok acc) l = Ok tables →
  ∀ name t, tables !! name = Some t →
    acc !! name = Some t
    ∨ ∃ rid, (name, rid) ∈ l ∧ is_worksheet pkg rid = true
             ∧ sheet_table pkg name rid = Some t.
Proof.
  revert acc. induction l as [|[n rid] l IH]; intros acc; cbn [foldl].
  - intros [= <-] name t H. by left.
  - rewrite read_step_cases. intros H name t Ht.
    destruct (is_worksheet pkg rid) eqn:Hws.
    + destruct (parts pkg !! sheet_path pkg rid) as [elems|] eqn:Hp;
        [|by rewrite read_fold_raise in H].
      destruct (IH _ H name t Ht) as [Hacc|(rid' & Hin & Hws' & Hval)].
      * destruct (decide (n = name)) as [->|Hne].
        -- rewrite lookup_insert_eq in Hacc. injection Hacc as <-. right.
           exists rid. split; [left|]. split; [done|].
           unfold sheet_table. by rewrite Hp.
        -- rewrite lookup_insert_ne in Hacc by done. by left.
      * right. exists rid'. by split; [right|].
    + destruct (IH _ H name t Ht) as [Hacc|(rid' & Hin & Hws' & Hval)]; [by left|].
      right. exists rid'. by split; [right|].
Qed.

Lemma read_fold_keep pkg (acc tables : Tables) l name t :
  foldl (read_step pkg) (Ok acc) l = Ok tables →
  acc !! name = Some t →
  Forall (λ sh, sh.1 = name → is_worksheet pkg sh.2 = false) l →
  tables !! name = Some t.
Proof.
  revert acc. induction l as [|[n rid] l IH]; intros acc; cbn [foldl].
  - by intros [= <-].
  - rewrite read_step_cases. intros H Hacc Hall.
    apply Forall_cons in Hall as [Hsh Hall]. cbn [fst snd] in Hsh.
    destruct (is_worksheet pkg rid) eqn:Hws; [|by eapply IH].
    destruct (parts pkg !! sheet_path pkg rid) as [elems|] eqn:Hp;
      [|by rewrite read_fold_raise in H].
    eapply IH; [done| |done].
    rewrite lookup_insert_ne; [done|]. intros ->. by specialize (Hsh eq_refl).
Qed.


(** X15: on success the result has one entry for each distinct name among
    the declared worksheet sheets and no other entry; the entry is the
    projection of the part of the LAST declared worksheet sheet with that
    name. *)
Theorem X_read_xlsx_tables_entries (pkg : Package) (tables : Tables) :
  read_xlsx_tables pkg = Ok tables →
  (∀ name t, tables !! name = Some t →
     ∃ rid, (name, rid) ∈ sheets pkg ∧ is_worksheet pkg rid = true
            ∧ sheet_table pkg name rid = Some t)
  ∧ (∀ pre name rid post, sheets pkg = pre ++ (name, rid) :: post →
       is_worksheet pkg rid = true →
       Forall (λ sh, sh.1 = name → is_worksheet pkg sh.2 = false) post →
       is_Some (sheet_table pkg name rid)
       ∧ tables !! name = sheet_table pkg name rid).
Proof.
  rewrite read_xlsx_tables_fold. intros Hread. split.
  - intros name t Ht.
    by destruct (read_fold_inv pkg ∅ tables (sheets pkg) Hread name t Ht) as [H|H].
  - intros pre name rid post Hs Hws Hpost. rewrite Hs, foldl_app in Hread.
    destruct (foldl (read_step pkg) (Ok ∅) pre) as [acc|e] eqn:Hpre;
      [|by rewrite read_fold_raise in Hread].
    cbn [foldl] in Hread. rewrite read_step_cases, Hws in Hread.
    unfold sheet_table.
    destruct (parts pkg !! sheet_path pkg rid) as [elems|] eqn:Hp;
      [|by rewrite read_fold_raise in Hread].
    cbn [mbind option_bind]. split; [by eexists|].
    eapply read_fold_keep; [exact Hread| |done]. apply lookup_insert_eq.
Qed.

Lemma X_read_xlsx_tables_entries_witness :
  read_xlsx_tables layered_package = Ok layered_tables
  ∧ (∀ name t, layered_tables !! name = Some t →
       ∃ rid, (name, rid) ∈ sheets layered_package
              ∧ is_worksheet layered_package rid = true
              ∧ sheet_table layered_package name rid = Some t)
  ∧ (∀ pre name rid post, sheets layered_package = pre ++ (name, rid) :: post →
       is_worksheet layered_package rid = true →
       Forall (λ sh, sh.1 = name → is_worksheet layered_package sh.2 = false) post →
       is_Some (sheet_table layered_package name rid)
       ∧ layered_tables !! name = sheet_table layered_package name rid).
Proof.
  split; [vm_compute; reflexivity|].
  apply (X_read_xlsx_tables_entries layered_package layered_tables).
  vm_compute. reflexivity.
Defined.

(** ** The grid of a worksheet *)

Lemma parse_cells_fold_inv (shared : list string) (acc : Grid) elems rc v :
  foldl (λ (cells : Grid) c, <[cell_rc c := cell_value shared c]> cells) acc elems !! rc
  = Some v →
  acc !! rc = Some v ∨ ∃ c, c ∈ elems ∧ cell_rc c = rc ∧ cell_value shared c = v.
Proof.
  revert acc. induction elems as [|c elems IH]; intros acc; cbn [foldl]; [by left|].
  intros H. apply IH in H as [H|(c' & Hin & Hrc & Hv)].
  - destruct (decide (cell_rc c = rc)) as [Heq|Hne].
    + rewrite Heq, lookup_insert_eq in H. injection H as <-. right.
      exists c. by split; [left|].
    + rewrite lookup_insert_ne in H by done. by left.
  - right. exists c'. by split; [right|].
Qed.

Lemma parse_cells_fold_dom (shared : list string) (acc : Grid) elems c :
  c ∈ elems →
  is_Some (foldl (λ (cells : Grid) c, <[cell_rc c := cell_value shared c]> cells)
             acc elems !! cell_rc c).
Proof.
  revert acc c. induction elems as [|c' elems IH]; intros acc c Hin;
    [by apply elem_of_nil in Hin|].
  cbn [foldl]. apply elem_of_cons in Hin as [->|Hin]; [|by apply IH].
  destruct (decide (cell_rc c' ∈ cell_rc <$> elems)) as [Hd|Hd].
  - apply list_elem_of_fmap in Hd as (c'' & Heq & Hin). rewrite Heq. by apply IH.
  - exists (cell_value shared c'). apply (parse_cells_fold_keep shared).
    + apply lookup_insert_eq.
    + apply Forall_forall. intros c'' Hin Heq. apply Hd.
      apply list_elem_of_fmap. by exists c''.
Qed.

(** X16: the grid of a worksheet has a cell exactly at the coordinates of
    its c elements, each holding the value of the LAST element with those
    coordinates; in particular all elements whose reference cannot be parsed
    share the coordinates (0, 0), and the grid is empty only for a part
    without c elements. *)
Theorem X_parse_cells_grid (shared : list string) (elems : list CellElem) :
  (∀ rc v, parse_cells shared elems !! rc = Some v →
     ∃ c, c ∈ elems ∧ cell_rc c = rc ∧ cell_value shared c = v)
  ∧ (∀ pre c post, elems = pre ++ c :: post →
       Forall (λ c', cell_rc c' ≠ cell_rc c) post →
       parse_cells shared elems !! cell_rc c = Some (cell_value shared c))
  ∧ (∀ c, c ∈ elems → is_Some (parse_cells shared elems !! cell_rc c))
  ∧ (parse_cells shared elems = ∅ ↔ elems = []).
Proof.
  assert (∀ c, c ∈ elems → is_Some (parse_cells shared elems !! cell_rc c)) as Hdom.
  { intros c Hin. by apply parse_cells_fold_dom. }
  split; [|split; [|split]].
  - intros rc v H. unfold parse_cells in H.
    by apply parse_cells_fold_inv in H as [H|H].
  - intros pre c post -> Hpost. by apply parse_cells_lookup_last.
  - exact Hdom.
  - split; [|by intros ->].
    intros Hempty. destruct elems as [|c elems]; [done|].
    destruct (Hdom c) as [v Hv]; [left|]. by rewrite Hempty in Hv.
Qed.

Lemma project_sheet_table (name : string) (cells : Grid) :
  lower name ≠ "settings" → project_sheet name cells = projected_table cells.
Proof.
  intros Hname. unfold project_sheet.
  destruct (bool_decide (cells = ∅)) eqn:He.
  - apply bool_decide_eq_true in He. by rewrite He, projected_table_empty.
  - rewrite bool_decide_eq_false_2 by done. apply table_rows_spec.
Qed.

(** X17: a list sheet loses no labelled data: a cell of the grid in a data
    row (row 2 or below) whose trimmed text is not empty, under a column
    whose header is not empty, always brings the record of its row into the
    table; the record holds the trimmed text under that header unless a
    later column repeats the header. *)
Theorem X_table_keeps_labelled_data (name : string) (cells : gmap (nat * nat) string)
    (r c : nat) (text : string) :
  lower name ≠ "settings" →
  cells !! (r, c) = Some text → (2 ≤ r)%nat → (1 ≤ c)%nat →
  header_at cells c ≠ "" → strip text ≠ "" →
  record_of cells r ∈ project_sheet name cells
  ∧ ((∀ c', (c < c' ≤ max_col cells)%nat → header_at cells c' ≠ header_at cells c) →
     record_of cells r !! header_at cells c = Some (strip text)).
Proof.
  intros Hname Hcell Hr Hc Hh Ht.
  destruct (grid_bounds cells r c text Hcell) as [Hrmax Hcmax].
  assert (value_at cells r c = strip text) as Hv.
  { unfold value_at, cell_at. by rewrite Hcell. }
  split.
  - rewrite project_sheet_table by done. unfold projected_table.
    apply list_elem_of_fmap. exists r. split; [done|].
    apply list_elem_of_filter. split.
    + unfold row_is_blank. intros Hblank.
      rewrite Forall_forall in Hblank. apply Ht. rewrite <- Hv. apply Hblank.
      unfold retained_columns. apply list_elem_of_filter. split; [done|].
      apply elem_of_seq. lia.
    + apply elem_of_seq. lia.
  - intros Hlast. rewrite <- Hv. apply record_of_last_wins; [lia|done|done].
Qed.

Lemma X_table_keeps_labelled_data_witness :
  record_of sample_grid 2 ∈ project_sheet "Plans" sample_grid
  ∧ ((∀ c', (3 < c' ≤ max_col sample_grid)%nat
            → header_at sample_grid c' ≠ header_at sample_grid 3) →
     record_of sample_grid 2 !! header_at sample_grid 3 = Some (strip "Gold")).
Proof.
  apply (X_table_keeps_labelled_data "Plans" sample_grid 2 3 "Gold").
  - vm_compute. discriminate.
  - vm_compute. reflexivity.
  - lia.
  - lia.
  - vm_compute. discriminate.
  - vm_compute. discriminate.
Defined.

(** ** The shape of the output *)

Section SegmentWise.
Variable yyyymmdd : string → result string.
Variable P : string → Prop.
Hypothesis P_segs : ∀ l, P (segs l).

Lemma plan_segments_all plan_map key tier start_ end_ out :
  plan_segments plan_map key tier start_ end_ = Ok out → Forall P out.
Proof.
  unfold plan_segments. destruct (truthy key); [|intros [= <-]; constructor].
  destruct (plan_map !! key); [|done]. intros [= <-].
  forall_segments; apply P_segs.
Qed.

Lemma dependent_segments_all plan_map sub_id cov_start cov_end plan_key d out :
  dependent_segments yyyymmdd plan_map sub_id cov_start cov_end plan_key d = Ok out →
  Forall P out.
Proof.
  unfold dependent_segments.
  destruct (yyyymmdd (_strip (d !! "Dep_DOB"))) as [d_dob|e]; [|done].
  destruct (yyyymmdd (_strip (d !! "Coverage_Start"))) as [own_start|e]; [|done].
  destruct (yyyymmdd (_strip (d !! "Coverage_End"))) as [own_end|e]; [|done].
  cbn [mbind result_bind].
  destruct (plan_segments _ _ _ _ _) as [tail|e] eqn:Htail; [|done].
  cbn [mbind result_bind]. intros [= <-].
  apply plan_segments_all in Htail.
  forall_segments; try exact Htail; try apply P_segs.
  unfold dependent_nm1. destruct (isdigit _ && _); apply P_segs.
Qed.

Lemma member_segments_all plan_map deps_by_sub m out :
  member_segments yyyymmdd plan_map deps_by_sub m = Ok out → Forall P out.
Proof.
  unfold member_segments.
  destruct (truthy (_strip (m !! "Subscriber_ID"))); cbn [negb];
    [|intros [= <-]; constructor].
  destruct (yyyymmdd (_strip (m !! "Sub_DOB"))) as [dob|e]; [|done].
  destruct (yyyymmdd (_strip (m !! "Coverage_Start"))) as [cov_start|e]; [|done].
  destruct (yyyymmdd (_strip (m !! "Coverage_End"))) as [cov_end|e]; [|done].
  cbn [mbind result_bind].
  destruct (plan_segments _ _ _ _ _) as [tail|e] eqn:Htail; [|done].
  cbn [mbind result_bind].
  destruct (collect _ _) as [deps_out|e] eqn:Hdeps; [|done].
  cbn [mbind result_bind]. intros [= <-].
  apply plan_segments_all in Htail.
  apply collect_Forall with (P := P) in Hdeps;
    [|intros x o; apply dependent_segments_all].
  forall_segments; try exact Htail; try exact Hdeps; try apply P_segs.
  unfold member_nm1. destruct (isdigit _ && _); apply P_segs.
Qed.
End SegmentWise.

Lemma segs_terminated l : last_char (segs l) = Some "~"%char.
Proof. unfold segs, seg. apply last_char_append_term. Qed.

Lemma segs_not_placeholder l : segs l ≠ "SE_PLACEHOLDER".
Proof. unfold segs. apply seg_not_placeholder. Qed.

Lemma envelope_length clock settings as_of (body : list string) count :
  length (envelope_header clock settings as_of ++ body ++ envelope_trailer settings count)
  = (length body + 10)%nat.
Proof. rewrite !length_app. unfold envelope_header, envelope_trailer. cbn [length]. lia. Qed.

(** X18: a successful run yields the seven envelope segments ISA, GS, ST,
    BGN, DTP, N1, N1, then the member segments, then SE, GE, IEA.  The
    member segments all carry one of the tags INS, NM1, N3, N4, DMG, DTP,
    HD; every segment of the output ends with the terminator; the
    placeholder of the trailer never remains; and the SE count is the number
    of member segments plus six. *)
Theorem X_output_structure (yyyymmdd : string → result string) (clock : Clock)
    (settings : gmap string string) (plans members deps : list (gmap string string))
    (edi : list string) :
  assemble yyyymmdd clock settings plans members deps = Ok edi →
  ∃ as_of body,
    yyyymmdd (_strip (Some (default (today_iso clock) (settings !! "As_Of_Date"))))
    = Ok as_of
    ∧ edi = envelope_header clock settings as_of ++ body
            ++ envelope_trailer settings (Z.of_nat (length body) + 6)
    ∧ length edi = (length body + 10)%nat
    ∧ Forall (λ s, body_tag s = true) body
    ∧ Forall (λ s, last_char s = Some "~"%char) edi
    ∧ Forall (λ s, s ≠ "SE_PLACEHOLDER") edi.
Proof.
  rewrite assemble_run. intros Hrun.
  destruct (yyyymmdd _) as [as_of|e]; [|done]. cbn [mbind result_bind] in Hrun.
  destruct (collect _ members) as [body|e] eqn:Hbody; [|done].
  cbn [mbind result_bind] in Hrun.
  assert (edi = envelope_header clock settings as_of ++ body
                ++ envelope_trailer settings (Z.of_nat (length body) + 6)) as ->
    by congruence.
  clear Hrun.
  exists as_of, body. split; [done|]. split; [done|]. split; [|split; [|split]].
  - apply envelope_length.
  - eapply collect_Forall; [|exact Hbody]. intros x o. apply member_segments_tagged.
  - apply Forall_app_2; [|apply Forall_app_2].
    + unfold envelope_header, st_segment.
      repeat (apply Forall_cons_2; [apply segs_terminated|]). constructor.
    + eapply collect_Forall; [|exact Hbody]. intros x o.
      apply member_segments_all. apply segs_terminated.
    + unfold envelope_trailer, se_segment.
      repeat (apply Forall_cons_2; [apply segs_terminated|]). constructor.
  - apply Forall_app_2; [|apply Forall_app_2].
    + unfold envelope_header, st_segment.
      repeat (apply Forall_cons_2; [apply segs_not_placeholder|]). constructor.
    + eapply collect_Forall; [|exact Hbody]. intros x o.
      apply member_segments_all. apply segs_not_placeholder.
    + unfold envelope_trailer, se_segment.
      repeat (apply Forall_cons_2; [apply segs_not_placeholder|]). constructor.
Qed.

Lemma X_output_structure_witness :
  ∃ as_of body,
    Generator.yyyymmdd
      (_strip (Some (default (today_iso sample_clock) (sample_settings !! "As_Of_Date"))))
    = Ok as_of
    ∧ sample_output = envelope_header sample_clock sample_settings as_of ++ body
            ++ envelope_trailer sample_settings (Z.of_nat (length body) + 6)
    ∧ length sample_output = (length body + 10)%nat
    ∧ Forall (λ s, body_tag s = true) body
    ∧ Forall (λ s, last_char s = Some "~"%char) sample_output
    ∧ Forall (λ s, s ≠ "SE_PLACEHOLDER") sample_output.
Proof.
  apply (X_output_structure Generator.yyyymmdd sample_clock sample_settings
           [sample_plan] [sample_member] [sample_dependent]).
  vm_compute. reflexivity.
Defined.

(** ** The interchange header *)

Lemma repeat_char_length c n : String.length (repeat_char c n) = n.
Proof. induction n as [|n IH]; [done|]. cbn. by rewrite IH. Qed.

Lemma take_str_length n s : String.length (take_str n s) = (n `min` String.length s)%nat.
Proof.
  revert s. induction n as [|n IH]; intros [|c s]; cbn [take_str String.length]; try done.
  rewrite IH. lia.
Qed.

Lemma ljust_length w s : String.length (ljust w s) = (w `max` String.length s)%nat.
Proof. unfold ljust. rewrite str_length_app, repeat_char_length. lia. Qed.

Lemma zfill_length w s : String.length (zfill w s) = (w `max` String.length s)%nat.
Proof.
  unfold zfill. destruct s as [|c s].
  - rewrite repeat_char_length. cbn. lia.
  - destruct (decide _).
    + cbn [String.length]. rewrite str_length_app, repeat_char_length.
      cbn [String.length]. lia.
    + rewrite str_length_app, repeat_char_length. cbn [String.length]. lia.
Qed.

Lemma take_str_short n s : (String.length s ≤ n)%nat → take_str n s = s.
Proof.
  revert s. induction n as [|n IH]; intros [|c s] Hl; try done.
  - cbn in Hl. lia.
  - cbn [take_str]. f_equal. apply IH. cbn in Hl. lia.
Qed.

Lemma isa_length (a b d t i : string) :
  String.length a = 15%nat → String.length b = 15%nat →
  String.length d = 6%nat → String.length t = 4%nat → String.length i = 9%nat →
  String.length (segs ["ISA"; "00"; "          "; "00"; "          "; "ZZ"; a; "ZZ"; b;
                       d; t; "^"; "00501"; i; "0"; "P"; ">"]) = 106%nat.
Proof.
  intros Ha Hb Hd Ht Hi. unfold segs, seg. cbn [fmap list_fmap map join].
  rewrite !str_length_app, Ha, Hb, Hd, Ht, Hi. reflexivity.
Qed.

(** X19: the sender and receiver elements of the ISA segment are always
    exactly 15 characters: a shorter identifier is padded with blanks on the
    right, a longer one is cut after its first 15 characters.  The control
    number is at least nine characters.  With a clock that prints a six
    character date and a four character time, and a control number setting
    of at most nine characters, the ISA segment is 106 characters long. *)
Theorem X_isa_fixed_width (yyyymmdd : string → result string) (clock : Clock)
    (settings : gmap string string) (plans members deps : list (gmap string string))
    (edi : list string) :
  assemble yyyymmdd clock settings plans members deps = Ok edi →
  let sender := _strip (Some (default "SENDERID" (settings !! "Sender_ID (ISA06)"))) in
  let receiver := _strip (Some (default "RECEIVERID" (settings !! "Receiver_ID (ISA08)"))) in
  let icn := _strip (Some (default "1" (settings !! "Interchange_Control (ISA13)"))) in
  let fixed s := if (String.length s <=? 15)%nat
                 then s +:+ repeat_char " " (15 - String.length s)
                 else take_str 15 s in
  ∃ isa06 isa08 isa13,
    head edi = Some (segs ["ISA"; "00"; "          "; "00"; "          "; "ZZ";
                           isa06; "ZZ"; isa08; isa_date clock; isa_time clock;
                           "^"; "00501"; isa13; "0"; "P"; ">"])
    ∧ isa06 = fixed sender ∧ String.length isa06 = 15%nat
    ∧ isa08 = fixed receiver ∧ String.length isa08 = 15%nat
    ∧ isa13 = zfill 9 icn ∧ (9 ≤ String.length isa13)%nat
    ∧ (String.length (isa_date clock) = 6%nat → String.length (isa_time clock) = 4%nat →
       (String.length icn ≤ 9)%nat →
       ∀ isa, head edi = Some isa → String.length isa = 106%nat).
Proof.
  rewrite assemble_run. intros Hrun sender receiver icn fixed.
  destruct (yyyymmdd _) as [as_of|e]; [|done]. cbn [mbind result_bind] in Hrun.
  destruct (collect _ members) as [body|e] eqn:Hbody; [|done].
  cbn [mbind result_bind] in Hrun.
  assert (edi = envelope_header clock settings as_of ++ body
                ++ envelope_trailer settings (Z.of_nat (length body) + 6)) as ->
    by congruence.
  clear Hrun.
  assert (∀ s, take_str 15 (ljust 15 s) = fixed s) as Hfixed.
  { intros s. unfold fixed, ljust.
    destruct (Nat.leb_spec (String.length s) 15) as [Hle|Hgt].
    - apply take_str_short. rewrite str_length_app, repeat_char_length. lia.
    - replace (15 - String.length s)%nat with 0%nat by lia. cbn [repeat_char].
      f_equal. clear. induction s as [|c s IH]; [done|].
      change (String c s +:+ "") with (String c (s +:+ "")). by rewrite IH. }
  assert (∀ s, String.length (take_str 15 (ljust 15 s)) = 15%nat) as Hlen.
  { intros s. rewrite take_str_length, ljust_length. lia. }
  exists (take_str 15 (ljust 15 sender)), (take_str 15 (ljust 15 receiver)), (zfill 9 icn).
  split; [reflexivity|].
  split; [apply Hfixed|]. split; [apply Hlen|].
  split; [apply Hfixed|]. split; [apply Hlen|].
  split; [reflexivity|]. split; [rewrite zfill_length; lia|].
  intros Hd Ht Hi isa Hisa.
  assert (isa = segs ["ISA"; "00"; "          "; "00"; "          "; "ZZ";
                      take_str 15 (ljust 15 sender); "ZZ";
                      take_str 15 (ljust 15 receiver);
                      isa_date clock; isa_time clock; "^"; "00501"; zfill 9 icn;
                      "0"; "P"; ">"]) as ->.
  { unfold envelope_header in Hisa. cbn [head app] in Hisa.
    symmetry. by injection Hisa. }
  apply isa_length; [apply Hlen|apply Hlen|done|done|].
  rewrite zfill_length. lia.
Qed.

Lemma X_isa_fixed_width_witness :
  let sender := _strip (Some (default "SENDERID" (sample_settings !! "Sender_ID (ISA06)"))) in
  let receiver :=
    _strip (Some (default "RECEIVERID" (sample_settings !! "Receiver_ID (ISA08)"))) in
  let icn := _strip (Some (default "1" (sample_settings !! "Interchange_Control (ISA13)"))) in
  let fixed s := if (String.length s <=? 15)%nat
                 then s +:+ repeat_char " " (15 - String.length s)
                 else take_str 15 s in
  ∃ isa06 isa08 isa13,
    head sample_output
    = Some (segs ["ISA"; "00"; "          "; "00"; "          "; "ZZ";
                  isa06; "ZZ"; isa08; isa_date sample_clock; isa_time sample_clock;
                  "^"; "00501"; isa13; "0"; "P"; ">"])
    ∧ isa06 = fixed sender ∧ String.length isa06 = 15%nat
    ∧ isa08 = fixed receiver ∧ String.length isa08 = 15%nat
    ∧ isa13 = zfill 9 icn ∧ (9 ≤ String.length isa13)%nat
    ∧ (String.length (isa_date sample_clock) = 6%nat →
       String.length (isa_time sample_clock) = 4%nat →
       (String.length icn ≤ 9)%nat →
       ∀ isa, head sample_output = Some isa → String.length isa = 106%nat).
Proof.
  apply (X_isa_fixed_width Generator.yyyymmdd sample_clock sample_settings
           [sample_plan] [sample_member] [sample_dependent]).
  vm_compute. reflexivity.
Defined.

(** ** Persons and addresses in the output *)

Lemma with_tag_app tag l1 l2 : with_tag tag (l1 ++ l2) = with_tag tag l1 ++ with_tag tag l2.
Proof. apply List.filter_app. Qed.

Lemma with_tag_none tag l :
  Forall (λ s, startswith tag s = false) l → with_tag tag l = [].
Proof.
  induction 1 as [|s l Hs _ IH]; [done|]. unfold with_tag in *. cbn [List.filter].
  by rewrite Hs.
Qed.

Lemma plain_tag_inv s :
  plain_tag s = true →
  startswith "INS*" s = false ∧ startswith "N3*" s = false ∧ startswith "N4*" s = false.
Proof.
  unfold plain_tag. intros H. apply negb_true_iff in H.
  apply orb_false_iff in H as [H H3]. by apply orb_false_iff in H as [H1 H2].
Qed.

Lemma with_tag_plain l :
  Forall (λ s, plain_tag s = true) l →
  with_tag "INS*" l = [] ∧ with_tag "N3*" l = [] ∧ with_tag "N4*" l = [].
Proof.
  intros Hall. repeat split; apply with_tag_none; (eapply Forall_impl; [exact Hall|]);
    intros s Hs; by apply plain_tag_inv in Hs as (H1 & H2 & H3).
Qed.

Lemma plan_segments_plain plan_map key tier start_ end_ out :
  plan_segments plan_map key tier start_ end_ = Ok out →
  Forall (λ s, plain_tag s = true) out.
Proof.
  unfold plan_segments. destruct (truthy key); [|intros [= <-]; constructor].
  destruct (plan_map !! key); [|done]. intros [= <-].
  forall_segments; reflexivity.
Qed.

Section PersonSegments.
Variable yyyymmdd : string → result string.

Lemma dependent_segments_shape plan_map sub_id cov_start cov_end plan_key d out :
  dependent_segments yyyymmdd plan_map sub_id cov_start cov_end plan_key d = Ok out →
  ∃ ins rest, out = ins :: dependent_nm1 sub_id d :: rest
    ∧ startswith "INS*" ins = true
    ∧ startswith "N3*" ins = false ∧ startswith "N4*" ins = false
    ∧ Forall (λ s, plain_tag s = true) (dependent_nm1 sub_id d :: rest).
Proof.
  unfold dependent_segments.
  destruct (yyyymmdd (_strip (d !! "Dep_DOB"))) as [d_dob|e]; [|done].
  destruct (yyyymmdd (_strip (d !! "Coverage_Start"))) as [own_start|e]; [|done].
  destruct (yyyymmdd (_strip (d !! "Coverage_End"))) as [own_end|e]; [|done].
  cbn [mbind result_bind].
  destruct (plan_segments _ _ _ _ _) as [tail|e] eqn:Htail; [|done].
  cbn [mbind result_bind]. intros H.
  apply plan_segments_plain in Htail.
  eexists _, _. split; [symmetry; by injection H|].
  split; [reflexivity|]. split; [reflexivity|]. split; [reflexivity|].
  forall_segments; try exact Htail; try reflexivity.
  unfold dependent_nm1. by destruct (isdigit _ && _).
Qed.

Lemma dependent_segments_tags plan_map sub_id cov_start cov_end plan_key d out :
  dependent_segments yyyymmdd plan_map sub_id cov_start cov_end plan_key d = Ok out →
  length (with_tag "INS*" out) = 1%nat ∧ with_tag "N3*" out = [] ∧ with_tag "N4*" out = [].
Proof.
  intros H.
  apply dependent_segments_shape in H as (ins & rest & -> & H1 & H2 & H3 & Hrest).
  change (ins :: dependent_nm1 sub_id d :: rest)
    with ([ins] ++ dependent_nm1 sub_id d :: rest).
  destruct (with_tag_plain _ Hrest) as (E1 & E2 & E3).
  rewrite !with_tag_app, E1, E2, E3.
  unfold with_tag. cbn [List.filter]. by rewrite H1, H2, H3.
Qed.

Lemma collect_tag_none {A} tag (f : A → result (list string)) l out :
  (∀ x o, f x = Ok o → with_tag tag o = []) → collect f l = Ok out →
  with_tag tag out = [].
Proof.
  intros Hf. revert out. induction l as [|x l IH]; intros out; cbn [collect].
  - by intros [= <-].
  - destruct (f x) as [a|e] eqn:Hx; [|done]. cbn [mbind result_bind].
    destruct (collect f l) as [b|e]; [|done]. cbn [mbind result_bind].
    intros [= <-]. rewrite with_tag_app, (Hf _ _ Hx). by apply IH.
Qed.

Lemma collect_tag_count {A} tag (f : A → result (list string)) (g : A → nat) l out :
  (∀ x o, f x = Ok o → length (with_tag tag o) = g x) → collect f l = Ok out →
  length (with_tag tag out) = sum_list (g <$> l).
Proof.
  intros Hf. revert out. induction l as [|x l IH]; intros out; cbn [collect].
  - by intros [= <-].
  - destruct (f x) as [a|e] eqn:Hx; [|done]. cbn [mbind result_bind].
    destruct (collect f l) as [b|e]; [|done]. cbn [mbind result_bind].
    intros [= <-]. rewrite with_tag_app, length_app, (Hf _ _ Hx), (IH b eq_refl).
    done.
Qed.

Lemma collect_tag_bind {A} tag (f : A → result (list string)) (g : A → list string) l out :
  (∀ x o, f x = Ok o → with_tag tag o = g x) → collect f l = Ok out →
  with_tag tag out = l ≫= g.
Proof.
  intros Hf. revert out. induction l as [|x l IH]; intros out; cbn [collect].
  - by intros [= <-].
  - destruct (f x) as [a|e] eqn:Hx; [|done]. cbn [mbind result_bind].
    destruct (collect f l) as [b|e]; [|done]. cbn [mbind result_bind].
    intros [= <-]. rewrite with_tag_app, (Hf _ _ Hx), (IH b eq_refl).
    done.
Qed.

Lemma member_segments_tags plans deps m out :
  member_segments yyyymmdd (build_plan_map plans) (build_deps_by_sub deps) m = Ok out →
  length (with_tag "INS*" out) = persons_of deps m
  ∧ with_tag "N3*" out = street_of m
  ∧ with_tag "N4*" out = city_of m.
Proof.
  unfold member_segments, persons_of, street_of, city_of.
  destruct (truthy (_strip (m !! "Subscriber_ID"))) eqn:Hid; cbn [negb];
    [|by intros [= <-]].
  apply truthy_ne in Hid.
  destruct (yyyymmdd (_strip (m !! "Sub_DOB"))) as [dob|e]; [|done].
  destruct (yyyymmdd (_strip (m !! "Coverage_Start"))) as [cov_start|e]; [|done].
  destruct (yyyymmdd (_strip (m !! "Coverage_End"))) as [cov_end|e]; [|done].
  cbn [mbind result_bind].
  destruct (plan_segments _ _ _ _ _) as [tail|e] eqn:Htail; [|done].
  cbn [mbind result_bind].
  destruct (collect _ _) as [deps_out|e] eqn:Hdeps; [|done].
  cbn [mbind result_bind]. intros H.
  assert (out = [member_ins m] ++ [member_nm1 m]
     ++ opt_seg (truthy (_strip (m !! "Sub_Address1")))
          (segs ["N3"; _strip (m !! "Sub_Address1")])
     ++ opt_seg (truthy (_strip (m !! "Sub_City")) || truthy (_strip (m !! "Sub_State"))
                 || truthy (_strip (m !! "Sub_Zip")))
          (segs ["N4"; _strip (m !! "Sub_City"); _strip (m !! "Sub_State");
                 _strip (m !! "Sub_Zip")])
     ++ (opt_seg (truthy dob || truthy (_strip (m !! "Sub_Gender")))
           (segs ["DMG"; "D8"; dob; _strip (m !! "Sub_Gender")])
         ++ opt_seg (truthy cov_start) (segs ["DTP"; "356"; "D8"; cov_start])
         ++ opt_seg (truthy cov_end) (segs ["DTP"; "357"; "D8"; cov_end])
         ++ tail)
     ++ deps_out) as ->.
  { rewrite <- !app_assoc. symmetry. by injection H. }
  clear H.
  apply plan_segments_plain in Htail.
  assert (Forall (λ s, plain_tag s = true)
            (opt_seg (truthy dob || truthy (_strip (m !! "Sub_Gender")))
               (segs ["DMG"; "D8"; dob; _strip (m !! "Sub_Gender")])
             ++ opt_seg (truthy cov_start) (segs ["DTP"; "356"; "D8"; cov_start])
             ++ opt_seg (truthy cov_end) (segs ["DTP"; "357"; "D8"; cov_end])
             ++ tail)) as Hplain.
  { forall_segments; try exact Htail; reflexivity. }
  assert (Forall (λ s, plain_tag s = true) [member_nm1 m]) as Hnm1.
  { forall_segments. unfold member_nm1. by destruct (isdigit _ && _). }
  rewrite deps_by_sub_lookup in Hdeps by done.
  destruct (with_tag_plain _ Hplain) as (E1 & E2 & E3).
  destruct (with_tag_plain _ Hnm1) as (F1 & F2 & F3).
  revert E1 E2 E3. clear Hplain.
  generalize (opt_seg (truthy dob || truthy (_strip (m !! "Sub_Gender")))
                (segs ["DMG"; "D8"; dob; _strip (m !! "Sub_Gender")])
              ++ opt_seg (truthy cov_start) (segs ["DTP"; "356"; "D8"; cov_start])
              ++ opt_seg (truthy cov_end) (segs ["DTP"; "357"; "D8"; cov_end])
              ++ tail).
  intros mid E1 E2 E3.
  rewrite !with_tag_app, E1, E2, E3, F1, F2, F3.
  rewrite (collect_tag_none "N3*" _ _ _ ltac:(intros x o Hx; by apply dependent_segments_tags in Hx as (_ & ? & _)) Hdeps).
  rewrite (collect_tag_none "N4*" _ _ _ ltac:(intros x o Hx; by apply dependent_segments_tags in Hx as (_ & _ & ?)) Hdeps).
  pose proof (collect_tag_count "INS*" _ (λ _, 1%nat) _ _
    ltac:(intros x o Hx; by apply dependent_segments_tags in Hx as (? & _ & _)) Hdeps) as Hcount.
  rewrite !length_app, Hcount.
  assert (∀ {A} (l : list A), sum_list ((λ _, 1%nat) <$> l) = length l) as Hsum.
  { intros A l. induction l as [|x l IH]; [done|]. cbn. by rewrite IH. }
  rewrite Hsum.
  destruct (truthy (_strip (m !! "Sub_Address1")));
    destruct (truthy (_strip (m !! "Sub_City")) || truthy (_strip (m !! "Sub_State"))
              || truthy (_strip (m !! "Sub_Zip")));
    done.
Qed.
End PersonSegments.

(** X20: the output holds one INS segment for each person: one for every
    member row with a non-empty identifier and one for every dependent row
    filed under that identifier (counted once per member row carrying it).
    Its N3 segments are exactly the non-empty street addresses of the
    processed member rows, and its N4 segments their city lines, in the
    order of the rows: a dependent never gets an address segment. *)
Theorem X_persons_and_addresses (yyyymmdd : string → result string) (clock : Clock)
    (settings : gmap string string) (plans members deps : list (gmap string string))
    (edi : list string) :
  assemble yyyymmdd clock settings plans members deps = Ok edi →
  length (with_tag "INS*" edi) = sum_list (persons_of deps <$> members)
  ∧ with_tag "N3*" edi = members ≫= street_of
  ∧ with_tag "N4*" edi = members ≫= city_of.
Proof.
  rewrite assemble_run. intros Hrun.
  destruct (yyyymmdd _) as [as_of|e]; [|done]. cbn [mbind result_bind] in Hrun.
  destruct (collect _ members) as [body|e] eqn:Hbody; [|done].
  cbn [mbind result_bind] in Hrun.
  assert (edi = envelope_header clock settings as_of ++ body
                ++ envelope_trailer settings (Z.of_nat (length body) + 6)) as ->
    by congruence.
  clear Hrun.
  assert (Forall (λ s, plain_tag s = true) (envelope_header clock settings as_of)) as Hh.
  { unfold envelope_header, st_segment. forall_segments; reflexivity. }
  assert (Forall (λ s, plain_tag s = true)
            (envelope_trailer settings (Z.of_nat (length body) + 6))) as Ht.
  { unfold envelope_trailer, se_segment. forall_segments; reflexivity. }
  destruct (with_tag_plain _ Hh) as (E1 & E2 & E3).
  destruct (with_tag_plain _ Ht) as (F1 & F2 & F3).
  rewrite !with_tag_app, E1, E2, E3, F1, F2, F3.
  rewrite !app_nil_r. cbn [app].
  split; [|split].
  - eapply collect_tag_count; [|exact Hbody].
    intros m o Hm. by apply member_segments_tags in Hm as (? & _ & _).
  - eapply collect_tag_bind; [|exact Hbody].
    intros m o Hm. by apply member_segments_tags in Hm as (_ & ? & _).
  - eapply collect_tag_bind; [|exact Hbody].
    intros m o Hm. by apply member_segments_tags in Hm as (_ & _ & ?).
Qed.

Lemma X_persons_and_addresses_witness :
  length (with_tag "INS*" sample_output)
  = sum_list (persons_of [sample_dependent] <$> [sample_member])
  ∧ with_tag "N3*" sample_output = [sample_member] ≫= street_of
  ∧ with_tag "N4*" sample_output = [sample_member] ≫= city_of.
Proof.
  apply (X_persons_and_addresses Generator.yyyymmdd sample_clock sample_settings
           [sample_plan] [sample_member] [sample_dependent]).
  vm_compute. reflexivity.
Defined.

(** ** Runs without members *)

Lemma collect_all_skip {A} (f : A → result (list string)) l :
  Forall (λ x, f x = Ok []) l → collect f l = Ok [].
Proof.
  induction 1 as [|x l Hx _ IH]; [done|]. cbn [collect]. by rewrite Hx, IH.
Qed.

(** X21: when the Members table is absent, empty, or holds only rows
    without an identifier, a run whose as-of date is accepted yields exactly
    the seven header segments and the three trailer segments, with the SE
    count 6, whatever the Plans and Dependents tables hold: dependents and
    plans are only ever looked at through a processed member. *)
Theorem X_run_without_members (yyyymmdd : string → result string) (clock : Clock)
    (tables : gmap string (list (gmap string string))) (as_of : string) :
  let settings := default ∅ (head (opt_list_or (tables !! "Settings") [∅])) in
  Forall (λ m : gmap string string, _strip (m !! "Subscriber_ID") = "")
    (opt_list_or (tables !! "Members") []) →
  yyyymmdd (_strip (Some (default (today_iso clock) (settings !! "As_Of_Date"))))
  = Ok as_of →
  generate yyyymmdd clock tables
  = Ok (envelope_header clock settings as_of ++ envelope_trailer settings 6).
Proof.
  intros settings Hall Hdate. rewrite generate_assemble, assemble_run.
  fold settings. rewrite Hdate. cbn [mbind result_bind].
  rewrite collect_all_skip.
  - reflexivity.
  - eapply Forall_impl; [exact Hall|]. intros m Hm. by apply member_segments_skip.
Qed.

Lemma X_run_without_members_witness :
  let tables : gmap string (list (gmap string string)) := ∅ in
  let settings := default ∅ (head (opt_list_or (tables !! "Settings") [∅])) in
  generate Generator.yyyymmdd sample_clock tables
  = Ok (envelope_header sample_clock settings "20240102" ++ envelope_trailer settings 6).
Proof.
  intros tables.
  refine (X_run_without_members Generator.yyyymmdd sample_clock tables "20240102" _ _).
  - constructor.
  - vm_compute. reflexivity.
Defined.

(** ** The identity of a dependent *)

(** X22: every dependent row filed under the identifier of a processed
    member appears in the output as an INS segment with the subscriber
    indicator N, followed at once by its NM1 segment.  That segment carries
    the qualifier 34 and the dependent's SSN when the SSN has exactly nine
    characters, each accepted by [str.isdigit] (the digits 0 to 9, and also
    digit characters such as the superscript two); otherwise the qualifier ZZ and the subscriber's identifier joined
    by a hyphen to the dependent's identifier, or to the text DEP when the
    dependent has none. *)
Theorem X_dependent_identity (yyyymmdd : string → result string) (clock : Clock)
    (settings : gmap string string) (plans members deps : list (gmap string string))
    (m d : gmap string string) (edi : list string) :
  assemble yyyymmdd clock settings plans members deps = Ok edi →
  m ∈ members → d ∈ deps →
  _strip (m !! "Subscriber_ID") ≠ "" →
  dep_sid d = _strip (m !! "Subscriber_ID") →
  let sub_id := _strip (m !! "Subscriber_ID") in
  let d_ssn := _strip (d !! "Dep_SSN") in
  let dep_id := _strip (d !! "Dep_ID") in
  let ins :=
    segs ["INS"; "N"; relationship_code (_strip (d !! "Relationship"));
          maintenance_code (upper (_strip (Some (opt_or (d !! "Action") "ADD"))));
          "XN"; "A"; "E"] in
  let nm1 qualifier ident :=
    segs ["NM1"; "IL"; "1"; _strip (d !! "Dep_Last"); _strip (d !! "Dep_First");
          _strip (d !! "Dep_Middle"); ""; ""; qualifier; ident] in
  let nine := String.length d_ssn = 9%nat ∧ str_all is_pydigit d_ssn = true in
  (nine → ∃ pre post, edi = pre ++ ins :: nm1 "34" d_ssn :: post)
  ∧ (¬ nine → dep_id ≠ "" →
     ∃ pre post, edi = pre ++ ins :: nm1 "ZZ" (sub_id +:+ "-" +:+ dep_id) :: post)
  ∧ (¬ nine → dep_id = "" →
     ∃ pre post, edi = pre ++ ins :: nm1 "ZZ" (sub_id +:+ "-DEP") :: post).
Proof.
  intros Hrun Hm Hd Hid Hsid sub_id d_ssn dep_id ins nm1 nine.
  destruct (assemble_dependent_block _ _ _ _ _ _ _ _ _ Hrun Hm Hd Hid Hsid)
    as (cov_start & cov_end & pre & od & post & _ & _ & -> & Hod).
  destruct (dependent_segments_head _ _ _ _ _ _ _ _ Hod) as [rest ->].
  assert (∀ x, x = dependent_nm1 sub_id d →
            ∃ pre0 post0,
              pre ++ (ins :: dependent_nm1 sub_id d :: rest) ++ post
              = pre0 ++ ins :: x :: post0) as Hpos.
  { intros x ->. exists pre, (rest ++ post). by rewrite <- ?app_assoc. }
  split; [|split]; intros H9; [|intros Hdep|intros Hdep]; apply Hpos;
    unfold dependent_nm1; fold d_ssn dep_id.
  - apply nine_digits_iff in H9. by rewrite H9.
  - destruct (isdigit d_ssn && (len d_ssn =? 9)) eqn:E;
      [by apply nine_digits_iff in E|].
    apply truthy_ne in Hdep. by rewrite Hdep.
  - destruct (isdigit d_ssn && (len d_ssn =? 9)) eqn:E;
      [by apply nine_digits_iff in E|].
    apply truthy_false in Hdep. by rewrite Hdep.
Qed.

Lemma X_dependent_identity_witness :
  let sub_id := _strip (sample_member !! "Subscriber_ID") in
  let d_ssn := _strip (sample_dependent !! "Dep_SSN") in
  let dep_id := _strip (sample_dependent !! "Dep_ID") in
  let ins :=
    segs ["INS"; "N"; relationship_code (_strip (sample_dependent !! "Relationship"));
          maintenance_code
            (upper (_strip (Some (opt_or (sample_dependent !! "Action") "ADD"))));
          "XN"; "A"; "E"] in
  let nm1 qualifier ident :=
    segs ["NM1"; "IL"; "1"; _strip (sample_dependent !! "Dep_Last");
          _strip (sample_dependent !! "Dep_First");
          _strip (sample_dependent !! "Dep_Middle"); ""; ""; qualifier; ident] in
  let nine := String.length d_ssn = 9%nat ∧ str_all is_pydigit d_ssn = true in
  (nine → ∃ pre post, sample_output = pre ++ ins :: nm1 "34" d_ssn :: post)
  ∧ (¬ nine → dep_id ≠ "" →
     ∃ pre post,
       sample_output = pre ++ ins :: nm1 "ZZ" (sub_id +:+ "-" +:+ dep_id) :: post)
  ∧ (¬ nine → dep_id = "" →
     ∃ pre post, sample_output = pre ++ ins :: nm1 "ZZ" (sub_id +:+ "-DEP") :: post).
Proof.
  apply (X_dependent_identity Generator.yyyymmdd sample_clock sample_settings
           [sample_plan] [sample_member] [sample_dependent]
           sample_member sample_dependent).
  - vm_compute. reflexivity.
  - left.
  - left.
  - vm_compute. discriminate.
  - vm_compute. reflexivity.
Defined.

(** ** Member rows compose *)

(** X23: the member rows are processed independently and in order.  A run
    over the rows [ms1 ++ ms2] succeeds exactly when the runs over [ms1] and
    over [ms2] both succeed; its member segments are those of the first run
    followed by those of the second, and its SE count is the sum of the two
    counts less six.  When the run over [ms1] fails, the run over
    [ms1 ++ ms2] fails with the same error, whatever [ms2] holds. *)
Theorem X_member_rows_compose (yyyymmdd : string → result string) (clock : Clock)
    (settings : gmap string string) (plans ms1 ms2 deps : list (gmap string string)) :
  (∀ edi, assemble yyyymmdd clock settings plans (ms1 ++ ms2) deps = Ok edi →
     ∃ as_of b1 b2,
       assemble yyyymmdd clock settings plans ms1 deps
       = Ok (envelope_header clock settings as_of ++ b1
             ++ envelope_trailer settings (Z.of_nat (length b1) + 6))
       ∧ assemble yyyymmdd clock settings plans ms2 deps
         = Ok (envelope_header clock settings as_of ++ b2
               ++ envelope_trailer settings (Z.of_nat (length b2) + 6))
       ∧ edi = envelope_header clock settings as_of ++ (b1 ++ b2)
               ++ envelope_trailer settings
                    ((Z.of_nat (length b1) + 6) + (Z.of_nat (length b2) + 6) - 6))
  ∧ (is_ok (assemble yyyymmdd clock settings plans (ms1 ++ ms2) deps)
     = is_ok (assemble yyyymmdd clock settings plans ms1 deps)
       && is_ok (assemble yyyymmdd clock settings plans ms2 deps))
  ∧ (∀ e, assemble yyyymmdd clock settings plans ms1 deps = Raise e →
       assemble yyyymmdd clock settings plans (ms1 ++ ms2) deps = Raise e).
Proof.
  rewrite !assemble_run, collect_app.
  destruct (yyyymmdd _) as [as_of|e]; cbn [mbind result_bind];
    [|split; [done|split; [done|by intros e' [= ->]]]].
  destruct (collect _ ms1) as [b1|e1]; cbn [mbind result_bind];
    [|split; [done|split; [done|by intros e' [= ->]]]].
  destruct (collect _ ms2) as [b2|e2]; cbn [mbind result_bind];
    [|split; [done|split; [done|done]]].
  split; [|split; [done|done]].
  intros edi Hedi. exists as_of, b1, b2. split; [done|]. split; [done|].
  assert (edi = envelope_header clock settings as_of ++ (b1 ++ b2)
                ++ envelope_trailer settings (Z.of_nat (length (b1 ++ b2)) + 6)) as ->
    by congruence.
  do 3 f_equal. rewrite length_app. lia.
Qed.

(** ** The output text *)

Lemma last_char_join_snoc sep (pre l : list string) :
  last_char (join sep (pre ++ [segs l])) = Some "~"%char.
Proof.
  unfold segs, seg. rewrite <- join_snoc_append. apply last_char_append_term.
Qed.

(** X24: the command-line generator writes the segments one per line with
    no newline after the last.  The text is never empty (a successful run
    has at least ten segments), and when no segment contains a newline,
    cutting the text at the newlines gives back the segment list. *)
Theorem X_main_lines_roundtrip (clock : Clock) (pkg : Package) (text : string) :
  Generator.main clock pkg = Ok text →
  ∃ edi,
    Generator.main_edi clock pkg = Ok edi
    ∧ text = join NEWLINE edi
    ∧ (10 ≤ length edi)%nat
    ∧ last_char text = Some "~"%char
    ∧ (Forall (λ s, no_sep "010" s = true) edi → split_on "010" text = edi).
Proof.
  unfold Generator.main. intros H.
  destruct (Generator.main_edi clock pkg) as [edi|e] eqn:Hedi; [|done].
  cbn [mbind result_bind] in H. exists edi.
  assert (text = join NEWLINE edi) as -> by congruence. clear H.
  unfold Generator.main_edi in Hedi.
  destruct (read_xlsx_tables pkg) as [tables|e]; [|done].
  cbn [mbind result_bind] in Hedi. rewrite generate_assemble, assemble_run in Hedi.
  destruct (Generator.yyyymmdd _) as [as_of|e]; [|done].
  cbn [mbind result_bind] in Hedi.
  destruct (collect _ _) as [body|e]; [|done]. cbn [mbind result_bind] in Hedi.
  match type of Hedi with
  | Ok (?h ++ _ ++ envelope_trailer ?s ?n) = _ =>
      assert (edi = (h ++ body ++ [se_segment s n; segs ["GE"; "1"; gcn_of s]])
                    ++ [segs ["IEA"; "1"; icn_of s]]) as Heq
  end.
  { rewrite <- !app_assoc. cbn [app]. unfold envelope_trailer in Hedi. congruence. }
  clear Hedi.
  split; [done|]. split; [done|]. split; [|split].
  - rewrite Heq, !length_app. cbn [length]. unfold envelope_header. cbn [length]. lia.
  - rewrite Heq. apply last_char_join_snoc.
  - intros Hall. apply split_on_join; [|done].
    rewrite Heq. by destruct (_ ++ body ++ _).
Qed.

Lemma X_main_lines_roundtrip_witness :
  ∃ edi,
    Generator.main_edi sample_clock sample_package = Ok edi
    ∧ match Generator.main sample_clock sample_package with
      | Ok text => text | Raise _ => "" end = join NEWLINE edi
    ∧ (10 ≤ length edi)%nat
    ∧ last_char match Generator.main sample_clock sample_package with
                | Ok text => text | Raise _ => "" end = Some "~"%char
    ∧ (Forall (λ s, no_sep "010" s = true) edi →
       split_on "010" match Generator.main sample_clock sample_package with
                      | Ok text => text | Raise _ => "" end = edi).
Proof.
  apply (X_main_lines_roundtrip sample_clock sample_package).
  vm_compute. reflexivity.
Defined.

(** ** The benefit segments of a subscriber *)

(** X25: a processed member row with a non-empty plan key gets, in a
    successful run, one HD segment built from the LAST Plans row with that
    key: the insurance line is the row's HD_Insurance_Line_Code, or its
    Benefit_Type_Code when that is empty; the description is the row's
    HD_Plan_Coverage_Desc, or the plan key itself when that is empty; the
    last element is the member's coverage tier.  The HD segment is followed
    at once by the DTP 348 segment when the normalized coverage start is not
    empty and then by the DTP 349 segment when the coverage end is not
    empty. *)
Theorem X_subscriber_benefit (yyyymmdd : string → result string) (clock : Clock)
    (settings : gmap string string) (plans members deps : list (gmap string string))
    (m : gmap string string) (edi : list string) :
  assemble yyyymmdd clock settings plans members deps = Ok edi →
  m ∈ members →
  _strip (m !! "Subscriber_ID") ≠ "" →
  _strip (m !! "Plan_Key") ≠ "" →
  ∃ pr cov_start cov_end pre post,
    build_plan_map plans !! _strip (m !! "Plan_Key") = Some pr
    ∧ yyyymmdd (_strip (m !! "Coverage_Start")) = Ok cov_start
    ∧ yyyymmdd (_strip (m !! "Coverage_End")) = Ok cov_end
    ∧ edi = pre
            ++ [segs ["HD"; "030"; "";
                      str_or (_strip (pr !! "HD_Insurance_Line_Code"))
                             (_strip (pr !! "Benefit_Type_Code"));
                      str_or (_strip (pr !! "HD_Plan_Coverage_Desc"))
                             (_strip (m !! "Plan_Key"));
                      _strip (m !! "Coverage_Tier_Code")]]
            ++ opt_seg (truthy cov_start) (segs ["DTP"; "348"; "D8"; cov_start])
            ++ opt_seg (truthy cov_end) (segs ["DTP"; "349"; "D8"; cov_end])
            ++ post.
Proof.
  rewrite assemble_run. intros Hrun Hm Hid Hkey.
  destruct (yyyymmdd (_strip (Some _))) as [as_of|e]; [|done].
  cbn [mbind result_bind] in Hrun.
  destruct (collect _ members) as [body|e] eqn:Hbody; [|done].
  cbn [mbind result_bind] in Hrun.
  assert (edi = envelope_header clock settings as_of ++ body
                ++ envelope_trailer settings (Z.of_nat (length body) + 6)) as ->
    by congruence.
  clear Hrun.
  destruct (collect_elem _ _ _ _ Hbody Hm) as (o & pre & post & Ho & ->).
  unfold member_segments in Ho.
  apply truthy_ne in Hid. rewrite Hid in Ho. cbn [negb] in Ho.
  destruct (yyyymmdd (_strip (m !! "Sub_DOB"))) as [dob|e]; [|done].
  destruct (yyyymmdd (_strip (m !! "Coverage_Start"))) as [cov_start|e]; [|done].
  destruct (yyyymmdd (_strip (m !! "Coverage_End"))) as [cov_end|e]; [|done].
  cbn [mbind result_bind] in Ho.
  unfold plan_segments in Ho. apply truthy_ne in Hkey. rewrite Hkey in Ho.
  destruct (build_plan_map plans !! _strip (m !! "Plan_Key")) as [pr|]; [|done].
  cbn [mbind result_bind] in Ho.
  destruct (collect (dependent_segments _ _ _ _ _ _) _) as [deps_out|e]; [|done].
  cbn [mbind result_bind] in Ho.
  exists pr, cov_start, cov_end.
  exists (envelope_header clock settings as_of ++ pre
          ++ [member_ins m; member_nm1 m]
          ++ opt_seg (truthy (_strip (m !! "Sub_Address1")))
               (segs ["N3"; _strip (m !! "Sub_Address1")])
          ++ opt_seg (truthy (_strip (m !! "Sub_City")) || truthy (_strip (m !! "Sub_State"))
                      || truthy (_strip (m !! "Sub_Zip")))
               (segs ["N4"; _strip (m !! "Sub_City"); _strip (m !! "Sub_State");
                      _strip (m !! "Sub_Zip")])
          ++ opt_seg (truthy dob || truthy (_strip (m !! "Sub_Gender")))
               (segs ["DMG"; "D8"; dob; _strip (m !! "Sub_Gender")])
          ++ opt_seg (truthy cov_start) (segs ["DTP"; "356"; "D8"; cov_start])
          ++ opt_seg (truthy cov_end) (segs ["DTP"; "357"; "D8"; cov_end])),
         (deps_out ++ post
          ++ envelope_trailer settings
               (Z.of_nat (length (pre ++ o ++ post)) + 6)).
  split; [done|]. split; [done|]. split; [done|].
  assert (o = [member_ins m; member_nm1 m]
          ++ opt_seg (truthy (_strip (m !! "Sub_Address1")))
               (segs ["N3"; _strip (m !! "Sub_Address1")])
          ++ opt_seg (truthy (_strip (m !! "Sub_City")) || truthy (_strip (m !! "Sub_State"))
                      || truthy (_strip (m !! "Sub_Zip")))
               (segs ["N4"; _strip (m !! "Sub_City"); _strip (m !! "Sub_State");
                      _strip (m !! "Sub_Zip")])
          ++ opt_seg (truthy dob || truthy (_strip (m !! "Sub_Gender")))
               (segs ["DMG"; "D8"; dob; _strip (m !! "Sub_Gender")])
          ++ opt_seg (truthy cov_start) (segs ["DTP"; "356"; "D8"; cov_start])
          ++ opt_seg (truthy cov_end) (segs ["DTP"; "357"; "D8"; cov_end])
          ++ ([segs ["HD"; "030"; "";
                     str_or (_strip (pr !! "HD_Insurance_Line_Code"))
                            (_strip (pr !! "Benefit_Type_Code"));
                     str_or (_strip (pr !! "HD_Plan_Coverage_Desc"))
                            (_strip (m !! "Plan_Key"));
                     _strip (m !! "Coverage_Tier_Code")]]
              ++ opt_seg (truthy cov_start) (segs ["DTP"; "348"; "D8"; cov_start])
              ++ opt_seg (truthy cov_end) (segs ["DTP"; "349"; "D8"; cov_end]))
          ++ deps_out) as Heq.
  { symmetry. by injection Ho. }
  rewrite Heq at 1. rewrite <- ?app_assoc. reflexivity.
Qed.

Lemma X_subscriber_benefit_witness :
  ∃ pr cov_start cov_end pre post,
    build_plan_map [sample_plan] !! _strip (sample_member !! "Plan_Key") = Some pr
    ∧ Generator.yyyymmdd (_strip (sample_member !! "Coverage_Start")) = Ok cov_start
    ∧ Generator.yyyymmdd (_strip (sample_member !! "Coverage_End")) = Ok cov_end
    ∧ sample_output = pre
            ++ [segs ["HD"; "030"; "";
                      str_or (_strip (pr !! "HD_Insurance_Line_Code"))
                             (_strip (pr !! "Benefit_Type_Code"));
                      str_or (_strip (pr !! "HD_Plan_Coverage_Desc"))
                             (_strip (sample_member !! "Plan_Key"));
                      _strip (sample_member !! "Coverage_Tier_Code")]]
            ++ opt_seg (truthy cov_start) (segs ["DTP"; "348"; "D8"; cov_start])
            ++ opt_seg (truthy cov_end) (segs ["DTP"; "349"; "D8"; cov_end])
            ++ post.
Proof.
  apply (X_subscriber_benefit Generator.yyyymmdd sample_clock sample_settings
           [sample_plan] [sample_member] [sample_dependent] sample_member).
  - vm_compute. reflexivity.
  - left.
  - vm_compute. discriminate.
  - vm_compute. discriminate.
Defined.
